(** * Threat scanner: the scoring engine of the URL, email and SMS checkers

    A shallow embedding of [backend/core_engine/url_checker.py],
    [email_checker.py] and [sms_checker.py], and of [update_stats] of
    [backend/app.py], with the properties of the score, the verdict, the
    reasons, the rule loader, the helper functions and the statistics.

    Conventions of the embedding.
    - Text is a Rocq [string]; a character is read as the Unicode code point
      of the same number (0..255, the Latin-1 range).  Lower-casing, white
      space, [\w], [\d] and [str.isupper] follow Python on that range.
    - The running score is a Python float that only ever adds weights; it is
      a rational here ([Q]), with [int()] as truncation towards zero.
    - Exceptions are values of [exn]; a call that can raise returns a
      [result].
    - The three local variables [score], [reasons] and [indicators] of an
      analyzer are the state of a small state-and-error monad ([Acc.M]).
    - A rule file is what [open] and [json.load] meet: no file, a file that
      cannot be read, text that is not JSON, or a document.  A document is a
      record with one optional entry per key the code reads; documents whose
      entries have other JSON types than the code expects are left out.
    - Library functions ([urllib.parse], [tldextract], [difflib], [math])
      and the order of iteration over a Python set are the fields of a
      record [Libs] that every analyzer takes as an argument.  Each pattern
      of the [re] module is a matcher of its own. *)

From Stdlib Require Import Bool Arith ZArith QArith Qround Lia Lqa List.
From Stdlib Require Import String Ascii DecimalString.
Import ListNotations.
Close Scope Q_scope.
Open Scope nat_scope.
Open Scope string_scope.

(** ** Python values: characters, strings, exceptions *)

Module Py.

Definition code (c : ascii) : nat := nat_of_ascii c.

Definition between (lo hi : nat) (c : ascii) : bool :=
  Nat.leb lo (code c) && Nat.leb (code c) hi.

(** [str.isupper] on one character. *)
Definition isupper (c : ascii) : bool :=
  between 65 90 c || between 192 214 c || between 216 222 c.

(** [\d] *)
Definition isdigit (c : ascii) : bool := between 48 57 c.

(** [\s], and the characters [str.strip] removes. *)
Definition isspace (c : ascii) : bool :=
  between 9 13 c || between 28 32 c || Nat.eqb (code c) 133 || Nat.eqb (code c) 160.

(** [\w] *)
Definition isword (c : ascii) : bool :=
  between 48 57 c || between 65 90 c || Nat.eqb (code c) 95 || between 97 122 c
  || Nat.eqb (code c) 170 || between 178 179 c || Nat.eqb (code c) 181
  || between 185 186 c || between 188 190 c || between 192 214 c
  || between 216 246 c || between 248 255 c.

Definition lower_char (c : ascii) : ascii :=
  if isupper c then ascii_of_nat (code c + 32) else c.

(** [s.lower()] *)
Fixpoint lower (s : string) : string :=
  match s with
  | EmptyString => EmptyString
  | String c t => String (lower_char c) (lower t)
  end.

(** Equality of two characters under [re.IGNORECASE]. *)
Definition eqb_nocase (a b : ascii) : bool :=
  Ascii.eqb (lower_char a) (lower_char b).

Fixpoint lstrip (s : string) : string :=
  match s with
  | EmptyString => EmptyString
  | String c t => if isspace c then lstrip t else s
  end.

Fixpoint rstrip (s : string) : string :=
  match s with
  | EmptyString => EmptyString
  | String c t =>
      match rstrip t with
      | EmptyString => if isspace c then EmptyString else String c EmptyString
      | t' => String c t'
      end
  end.

(** [s.strip()] *)
Definition strip (s : string) : string := rstrip (lstrip s).

(** [sub in s] *)
Fixpoint contains (sub s : string) : bool :=
  String.prefix sub s
  || match s with
     | EmptyString => false
     | String _ t => contains sub t
     end.

Definition startswith (s pre : string) : bool := String.prefix pre s.

Fixpoint rev_string (s : string) : string :=
  match s with
  | EmptyString => EmptyString
  | String c t => rev_string t ++ String c EmptyString
  end.

(** [s.endswith(suf)] *)
Definition endswith (s suf : string) : bool :=
  String.prefix (rev_string suf) (rev_string s).

(** Splitting at every character that satisfies [p]: [s.split(sep)] for a
    one-character [sep], and [re.split] on a character class.  The result
    always has at least one piece. *)
Fixpoint split_on (p : ascii -> bool) (s : string) : list string :=
  match s with
  | EmptyString => [EmptyString]
  | String c t =>
      let r := split_on p t in
      if p c then EmptyString :: r
      else match r with
           | h :: tl => String c h :: tl
           | [] => [String c EmptyString]
           end
  end.

Definition split (sep : ascii) (s : string) : list string :=
  split_on (Ascii.eqb sep) s.

(** [l[0]] and [l[-1]] of the list a split returns (never empty). *)
Definition first (l : list string) : string := hd EmptyString l.
Definition last (l : list string) : string := List.last l EmptyString.

(** [sep.join(l)] *)
Definition join (sep : string) (l : list string) : string := String.concat sep l.

(** [s.replace(old, new)] for a non-empty [old]: left to right, without
    overlap.  [skip] counts the characters of a match still to drop. *)
Fixpoint replace_from (old new s : string) (skip : nat) : string :=
  match s with
  | EmptyString => EmptyString
  | String c t =>
      match skip with
      | S k => replace_from old new t k
      | O =>
          if String.prefix old s
          then new ++ replace_from old new t (String.length old - 1)
          else String c (replace_from old new t 0)
      end
  end.

Definition replace (old new s : string) : string := replace_from old new s 0.

(** [s.count(c)] for a one-character [c]. *)
Fixpoint count_char (c : ascii) (s : string) : nat :=
  match s with
  | EmptyString => 0
  | String d t => (if Ascii.eqb c d then 1 else 0) + count_char c t
  end.

(** Number of characters of [s] that satisfy [p]. *)
Fixpoint count_if (p : ascii -> bool) (s : string) : nat :=
  match s with
  | EmptyString => 0
  | String d t => (if p d then 1 else 0) + count_if p t
  end.

Fixpoint any_char (p : ascii -> bool) (s : string) : bool :=
  match s with
  | EmptyString => false
  | String d t => p d || any_char p t
  end.

Fixpoint all_char (p : ascii -> bool) (s : string) : bool :=
  match s with
  | EmptyString => true
  | String d t => p d && all_char p t
  end.

(** [s[:n]], [s[n:]], [s[1:]] and [s[:-1]] *)
Definition take (n : nat) (s : string) : string := String.substring 0 n s.

Fixpoint drop (n : nat) (s : string) : string :=
  match n, s with
  | O, _ => s
  | S k, EmptyString => EmptyString
  | S k, String _ t => drop k t
  end.

Definition tail (s : string) : string := drop 1 s.
Definition init (s : string) : string := take (String.length s - 1) s.

(** [str(n)] for a natural number. *)
Definition str_of_nat (n : nat) : string := NilZero.string_of_uint (Nat.to_uint n).

(** [bool(s)] for a string. *)
Definition truthy (s : string) : bool := negb (String.eqb s EmptyString).

(** [x in l] for a list of strings. *)
Definition mem (x : string) (l : list string) : bool := existsb (String.eqb x) l.

(** [sorted(l)] on strings: insertion sort by code points. *)
Fixpoint insert_sorted (x : string) (l : list string) : list string :=
  match l with
  | [] => [x]
  | y :: t => if String.leb x y then x :: l else y :: insert_sorted x t
  end.

Definition sorted (l : list string) : list string :=
  fold_right insert_sorted [] l.

(** The elements of a list without repetition, first occurrences kept. *)
Fixpoint dedup (l : list string) : list string :=
  match l with
  | [] => []
  | x :: t => x :: filter (fun y => negb (String.eqb x y)) (dedup t)
  end.

(** [o.get(key, default)] where [o] is the entry of [key], if any. *)
Definition get_or {A : Type} (o : option A) (default : A) : A :=
  match o with
  | Some a => a
  | None => default
  end.

(** The pieces [re.findall] returns for a character class followed by [+]:
    the maximal runs of characters of the class, left to right. *)
Definition runs_of (p : ascii -> bool) (s : string) : list string :=
  filter truthy (split_on (fun c => negb (p c)) s).

(** The argument of [analyze_url] can be any Python value. *)
Inductive pyval : Type :=
  | PyNone
  | PyBool (b : bool)
  | PyInt (n : Z)
  | PyFloat (x : Q)
  | PyStr (s : string)
  | PyBytes (b : string).

(** [isinstance(v, str)] and [not v] *)
Definition is_str (v : pyval) : bool :=
  match v with
  | PyStr _ => true
  | _ => false
  end.

Definition falsy (v : pyval) : bool :=
  match v with
  | PyNone => true
  | PyBool b => negb b
  | PyInt n => Z.eqb n 0
  | PyFloat x => Qeq_bool x 0
  | PyStr s => negb (truthy s)
  | PyBytes b => negb (truthy b)
  end.

(** *** Exceptions *)

Inductive exn : Type :=
  | FileNotFoundError
  | PermissionError
  | IsADirectoryError
  | UnicodeDecodeError
  | JSONDecodeError
  | ValueError
  | KeyError (key : string).

(** The classes an [except] clause of the sources names. *)
Inductive exn_class : Type :=
  | BaseException_   (* a bare [except:] *)
  | Exception_
  | FileNotFoundError_.

Definition isinstance (e : exn) (c : exn_class) : bool :=
  match c, e with
  | BaseException_, _ => true
  | Exception_, _ => true
  | FileNotFoundError_, FileNotFoundError => true
  | FileNotFoundError_, _ => false
  end.

Inductive result (A : Type) : Type :=
  | Ok (a : A)
  | Raise (e : exn).

Arguments Ok {A} a.
Arguments Raise {A} e.

(** [try: body  except c: handler] *)
Definition try_except {A : Type} (body : result A) (c : exn_class)
    (handler : result A) : result A :=
  match body with
  | Ok a => Ok a
  | Raise e => if isinstance e c then handler else Raise e
  end.

Definition rbind {A B : Type} (m : result A) (f : A -> result B) : result B :=
  match m with
  | Ok a => f a
  | Raise e => Raise e
  end.

(** *** Dictionaries with string keys: insertion-ordered, keys unique *)

Definition dict (V : Type) : Type := list (string * V).

Fixpoint dict_find {V : Type} (k : string) (d : dict V) : option V :=
  match d with
  | [] => None
  | (k', v) :: t => if String.eqb k k' then Some v else dict_find k t
  end.

(** [d[k]] *)
Definition dict_index {V : Type} (d : dict V) (k : string) : result V :=
  match dict_find k d with
  | Some v => Ok v
  | None => Raise (KeyError k)
  end.

(** [d.get(k, default)] *)
Definition dict_get {V : Type} (d : dict V) (k : string) (default : V) : V :=
  match dict_find k d with
  | Some v => v
  | None => default
  end.

(** [d[k] = v] *)
Fixpoint dict_set {V : Type} (k : string) (v : V) (d : dict V) : dict V :=
  match d with
  | [] => [(k, v)]
  | (k', v') :: t =>
      if String.eqb k k' then (k, v) :: t else (k', v') :: dict_set k v t
  end.

(** *** Numbers *)

(** [max(a, b)] and [min(a, b)]: the first argument unless the second is
    strictly greater (smaller). *)
Definition max (a b : Q) : Q := if Qlt_le_dec a b then b else a.
Definition min (a b : Q) : Q := if Qlt_le_dec b a then b else a.

(** [int(x)]: truncation towards zero. *)
Definition int (x : Q) : Z := if Qlt_le_dec x 0%Q then Qceiling x else Qfloor x.

Definition Qnat (n : nat) : Q := inject_Z (Z.of_nat n).

End Py.

(** ** Library functions the analyzers call *)

Module Lib.
Import Py.

(** The attributes of [urllib.parse.urlparse(u)] the sources read.  The
    [port] property raises [ValueError] on a port that is not a number in
    range, so it is a [result]. *)
Record ParseResult : Type := {
  scheme : string;
  netloc : string;
  hostname : option string;
  path : string;
  query : string;
  port : result (option Z)
}.

(** [tldextract.extract(host)] *)
Record ExtractResult : Type := {
  subdomain : string;
  domain : string;
  suffix : string
}.

Record Libs : Type := {
  (** [urlparse(u)]; it raises [ValueError] on some malformed inputs. *)
  urlparse : string -> result ParseResult;
  (** [urllib.parse.unquote] *)
  unquote : string -> string;
  (** [tldextract.extract] *)
  tld_extract : string -> ExtractResult;
  (** [difflib.SequenceMatcher(None, a, b).ratio()] *)
  ratio : string -> string -> Q;
  (** [math.log2] *)
  log2 : Q -> Q;
  (** The order in which Python iterates over the set built from a list. *)
  set_iter : list string -> list string
}.

End Lib.

(** ** The rule file and its loader's environment *)

Module Config.
Import Py.

(** What [open(rules_path)] followed by [json.load] meets: no file, a file
    that cannot be read, a file that is not JSON, or a parsed document. *)
Inductive rules_file (R : Type) : Type :=
  | Absent
  | Denied
  | Garbled
  | Document (r : R).

Arguments Absent {R}.
Arguments Denied {R}.
Arguments Garbled {R}.
Arguments Document {R} r.

(** [with open(rules_path, 'r') as f: return json.load(f)] *)
Definition open_and_load {R : Type} (f : rules_file R) : result R :=
  match f with
  | Absent => Raise FileNotFoundError
  | Denied => Raise PermissionError
  | Garbled => Raise JSONDecodeError
  | Document r => Ok r
  end.

End Config.

(** ** The local variables of an analyzer: score, reasons, indicators *)

(** The three values of the [verdict] entry of a result. *)
Inductive Verdict : Type := safe | suspicious | phishing.

Module Acc.
Import Py.

(** The value of an indicator: a flag, a list of strings or a float. *)
Inductive ival : Type :=
  | IBool (b : bool)
  | IList (l : list string)
  | IFloat (x : Q).

Record t : Type := mk {
  score : Q;
  reasons : list string;
  indicators : dict ival
}.

(** [reasons = []; indicators = {}; score = 0.0] *)
Definition start : t := mk 0%Q [] [].

(** A block of statements: it reads and updates the three variables and may
    raise. *)
Definition M (A : Type) : Type := t -> result (A * t).

Definition ret {A : Type} (a : A) : M A := fun st => Ok (a, st).

Definition bind {A B : Type} (m : M A) (f : A -> M B) : M B :=
  fun st =>
    match m st with
    | Ok (a, st') => f a st'
    | Raise e => Raise e
    end.

Definition next {B : Type} (m : M unit) (k : M B) : M B := bind m (fun _ => k).

Definition lift {A : Type} (r : result A) : M A :=
  fun st =>
    match r with
    | Ok a => Ok (a, st)
    | Raise e => Raise e
    end.

(** [reasons.append(r)] *)
Definition append_reason (r : string) : M unit :=
  fun st => Ok (tt, mk (score st) (reasons st ++ [r]) (indicators st)).

(** [score += w] *)
Definition add_score (w : Q) : M unit :=
  fun st => Ok (tt, mk (score st + w)%Q (reasons st) (indicators st)).

(** [indicators[k] = v] *)
Definition set_indicator (k : string) (v : ival) : M unit :=
  fun st => Ok (tt, mk (score st) (reasons st) (dict_set k v (indicators st))).

Definition get_score : M Q := fun st => Ok (score st, st).

(** [if b: m] *)
Definition when (b : bool) (m : M unit) : M unit := if b then m else ret tt.

(** [reasons.append(r); score += w], where evaluating [w] may raise. *)
Definition flag (r : string) (w : result Q) : M unit :=
  next (append_reason r) (bind (lift w) add_score).

End Acc.

Declare Scope acc_scope.
Delimit Scope acc_scope with acc.
Notation "x <- m ;; k" := (Acc.bind m (fun x => k))
  (at level 61, m at next level, right associativity) : acc_scope.
Notation "m ;; k" := (Acc.next m k)
  (at level 61, right associativity) : acc_scope.

(** ** Patterns of the [re] module, one matcher per pattern of the sources *)

Module Re.
Import Py.

(** The pattern of [extract_links], with [re.IGNORECASE]: [https?://]
    followed by one or more characters that are neither white space nor one
    of the eleven characters < > double quote { } | \ ^ ` [ ].  The matcher
    is for text of code points 0 to 255, as all text here; beyond them
    [re.IGNORECASE] also lets U+017F stand for the letter s of the scheme. *)
Definition double_quote : ascii := ascii_of_nat 34.

Definition link_char (c : ascii) : bool :=
  negb (isspace c
        || existsb (Ascii.eqb c)
             ["<"; ">"; double_quote; "{"; "}"; "|"; "\"; "^"; "`"; "["; "]"]%char).

Fixpoint prefix_nocase (p s : string) : bool :=
  match p, s with
  | EmptyString, _ => true
  | String a p', String b s' => eqb_nocase a b && prefix_nocase p' s'
  | String _ _, EmptyString => false
  end.

Fixpoint run_length (p : ascii -> bool) (s : string) : nat :=
  match s with
  | String c t => if p c then S (run_length p t) else 0
  | EmptyString => 0
  end.

(** Length of the match of the link pattern at the start of [s], if any. *)
Definition link_at (s : string) : option nat :=
  let body (k : nat) :=
    let n := run_length link_char (drop k s) in
    if Nat.eqb n 0 then None else Some (k + n) in
  if prefix_nocase "https://" s then body 8
  else if prefix_nocase "http://" s then body 7
  else None.

(** [re.findall(url_pattern, text, re.IGNORECASE)]: the matches from left to
    right, without overlap.  [skip] counts the characters of the last match
    still to pass. *)
Fixpoint findall_links (s : string) (skip : nat) : list string :=
  match s with
  | EmptyString => []
  | String _ t =>
      match skip with
      | S k => findall_links t k
      | O =>
          match link_at s with
          | Some n => take n s :: findall_links t (n - 1)
          | None => findall_links t 0
          end
      end
  end.

Definition extract_links (text : string) : list string := findall_links text 0.

End Re.

(** ** backend/core_engine/url_checker.py *)

Module UrlChecker.
Import Py Lib Config Acc.
Local Open Scope acc_scope.

(** The document of [url_rules.json]; a key the document lacks is [None].
    The record holds a document of the shape the code reads: lists of
    strings, a boolean and a table of numbers.  What lines 92 to 98 do with
    a document of any shape is in [RawRules] below. *)
Record rules : Type := {
  suspicious_tlds : option (list string);
  trusted_domains : option (list string);
  phishing_keywords : option (list string);
  detect_ip_urls : option bool;
  weights : option (dict Q)
}.

Definition default_rules : rules := {|
  suspicious_tlds := Some [".xyz"; ".top"; ".gq"; ".tk"; ".ml"; ".ga"; ".icu";
    ".buzz"; ".rest"; ".monster"; ".zip"; ".click"; ".work"; ".cn"; ".ru"];
  trusted_domains := Some ["google.com"; "paypal.com"; "facebook.com";
    "youtube.com"; "amazon.com"; "netflix.com"; "microsoft.com"; "apple.com";
    "github.com"; "linkedin.com"];
  phishing_keywords := Some ["login"; "verify"; "secure"; "update"; "unlock";
    "banking"; "password"; "confirm"; "recovery"; "account-security";
    "free-gift"; "bonus"; "promo"; "alert"; "suspend"; "urgent"; "auth"; "2fa"];
  detect_ip_urls := Some true;
  weights := None
|}.

Definition load_url_rules (f : rules_file rules) : result rules :=
  try_except (open_and_load f) FileNotFoundError_ (Ok default_rules).

Definition default_weights : dict Q := [
  ("ip_in_host", 25%Q);
  ("suspicious_tld", 18%Q);
  ("long_url", 6%Q);
  ("many_subdomains", 8%Q);
  ("hyphen_in_domain", 6%Q);
  ("punycode", 20%Q);
  ("suspicious_chars", 6%Q);
  ("suspicious_path_tokens", 6%Q);
  ("url_length_entropy", 5%Q);
  ("known_whitelist", (-40)%Q);
  ("suspicious_domain_token_long", 6%Q)
].

Definition get_weights (r : rules) : dict Q := get_or (weights r) default_weights.

(** *** Helper utils *)

Definition digits_1_3 (s : string) : bool :=
  all_char isdigit s && Nat.leb 1 (String.length s) && Nat.leb (String.length s) 3.

(** [re.fullmatch(r"\d{1,3}(?:\.\d{1,3}){3}", host)], or a host in square
    brackets. *)
Definition is_ip (host : string) : bool :=
  let parts := split "." host in
  if Nat.eqb (List.length parts) 4 && forallb digits_1_3 parts then true
  else if startswith host "[" && endswith host "]" then true
  else false.

Definition contains_punycode (host : string) : bool :=
  contains "xn--" (lower host).

Fixpoint bump (c : ascii) (cnt : list (ascii * nat)) : list (ascii * nat) :=
  match cnt with
  | [] => [(c, 1)]
  | (d, n) :: t => if Ascii.eqb c d then (d, S n) :: t else (d, n) :: bump c t
  end.

(** [collections.Counter(s)] *)
Definition Counter (s : string) : list (ascii * nat) :=
  fold_left (fun cnt c => bump c cnt) (list_ascii_of_string s) [].

Definition Qpositive (p : Q) : bool := negb (Qle_bool p 0).

Definition entropy_score (L : Libs) (s : string) : Q :=
  if negb (truthy s) then 0%Q
  else
    let probs := map (fun cv => (Qnat (snd cv) / Qnat (String.length s))%Q) (Counter s) in
    let ent := (- fold_left Qplus
                   (map (fun p => (p * log2 L p)%Q) (filter Qpositive probs)) 0)%Q in
    Py.min (ent / 6)%Q 1%Q.

(** *** The patterns of check 7, check 8 and check 11 *)

(** [[@\^\[\]\{\}\<\>\\\|]] *)
Definition suspicious_char (c : ascii) : bool :=
  existsb (Ascii.eqb c) ["@"; "^"; "["; "]"; "{"; "}"; "<"; ">"; "\"; "|"]%char.

(** [[A-Za-z0-9_-]] *)
Definition token_char (c : ascii) : bool :=
  between 65 90 c || between 97 122 c || between 48 57 c
  || Ascii.eqb c "_" || Ascii.eqb c "-".

Fixpoint suffixes (s : string) : list string :=
  s :: match s with
       | EmptyString => []
       | String _ t => suffixes t
       end.

(** Three or more case-insensitive repetitions of a character that
    satisfies [p], at the start of [s]. *)
Definition triple_at (p : ascii -> bool) (s : string) : bool :=
  match s with
  | String a (String b (String c _)) => p a && eqb_nocase a b && eqb_nocase a c
  | _ => false
  end.

(** [(.)\1{2,}]: the dot matches every character but a line feed. *)
Definition re_repeated_any (tok : string) : bool :=
  existsb (triple_at (fun c => negb (Nat.eqb (code c) 10))) (suffixes tok).

(** [(\w)\1{2,}] *)
Definition re_repeated_word (tok : string) : bool :=
  existsb (triple_at isword) (suffixes tok).

(** A group of [n] word characters at the start of [s]. *)
Definition word_group (n : nat) (s : string) : option string :=
  let u := take n s in
  if Nat.eqb (String.length u) n && all_char isword u then Some u else None.

(** The back-reference [\1] at the start of [s], for the group [u]. *)
Definition backref (u s : string) : bool :=
  Nat.leb (String.length u) (String.length s) && Re.prefix_nocase u s.

(** [(\w{2,})\1] *)
Definition re_repeated_sequence (tok : string) : bool :=
  existsb (fun s =>
    existsb (fun n =>
      match word_group n s with
      | Some u => backref u (drop n s)
      | None => false
      end) (List.seq 2 (String.length s))) (suffixes tok).

(** [(\w{3,})(\d+)] *)
Definition re_digits_after (tok : string) : bool :=
  existsb (fun s =>
    match s with
    | String a (String b (String c (String d _))) =>
        isword a && isword b && isword c && isdigit d
    | _ => false
    end) (suffixes tok).

(** [(\d+)(\w{3,})] *)
Definition re_digits_before (tok : string) : bool :=
  existsb (fun s =>
    match s with
    | String a (String b (String c (String d _))) =>
        isdigit a && isword b && isword c && isword d
    | _ => false
    end) (suffixes tok).

(** What can follow an optional hyphen [-?] at the start of [s]. *)
Definition after_hyphen (s : string) : list string :=
  s :: match s with
       | String c t => if Ascii.eqb c "-" then [t] else []
       | EmptyString => []
       end.

(** What can follow the optional run of word characters of the pattern. *)
Fixpoint after_words (s : string) : list string :=
  s :: match s with
       | String c t => if isword c then after_words t else []
       | EmptyString => []
       end.

(** The pattern of "Repeated words with separators": a group of three or
    more word characters, an optional hyphen, an optional run of word
    characters, an optional hyphen and the group again. *)
Definition re_repeated_words (tok : string) : bool :=
  existsb (fun s =>
    existsb (fun n =>
      match word_group n s with
      | Some u =>
          existsb (backref u)
            (flat_map after_hyphen (flat_map after_words (after_hyphen (drop n s))))
      | None => false
      end) (List.seq 3 (String.length s))) (suffixes tok).

(** The patterns are searched with [re.IGNORECASE]. *)
Definition suspicious_patterns : list ((string -> bool) * string) := [
  (re_repeated_any, "Repeated characters in domain");
  (re_repeated_word, "Repeated characters in domain");
  (re_repeated_sequence, "Repeated sequence in domain");
  (re_digits_after, "Numbers after brand name");
  (re_digits_before, "Numbers before brand name");
  (re_repeated_words, "Repeated words with separators")
].

(** *** Main analysis function *)

Record parsed_info : Type := {
  p_scheme : string;
  p_host : string;
  p_root_domain : string;
  p_subdomain : string;
  p_path : string;
  p_query : string;
  p_port : option Z
}.

(** The dict [analyze_url] returns; [parsed] is [None] for the empty dict
    of the early return. *)
Record analysis : Type := {
  url : pyval;
  score : Z;
  verdict : Verdict;
  reasons : list string;
  indicators : dict ival;
  parsed : option parsed_info
}.

Section Analyze.

Variable L : Libs.

(** The nested function [is_similar_to_whitelisted(domain, threshold=0.8)];
    [whitelist] is [ROOT_DOMAIN_WHITELIST] in the order of iteration. *)
Fixpoint similar_loop (domain : string) (threshold : Q) (whitelist : list string)
    : bool * option string :=
  match whitelist with
  | [] => (false, None)
  | whitelisted :: rest =>
      if String.eqb domain whitelisted then (true, Some whitelisted)
      else if Qle_bool threshold (ratio L domain whitelisted)
      then (false, Some whitelisted)
      else if (Nat.eqb (String.length domain - String.length whitelisted) 1
               || Nat.eqb (String.length whitelisted - String.length domain) 1)
              && (contains whitelisted domain || contains domain whitelisted)
      then (false, Some whitelisted)
      else if Nat.ltb 5 (String.length domain)
              && Nat.ltb 5 (String.length whitelisted)
              && (String.eqb (tail domain) (tail whitelisted)
                  || String.eqb (init domain) (init whitelisted))
      then (false, Some whitelisted)
      else similar_loop domain threshold rest
  end.

Definition is_similar_to_whitelisted (ROOT_DOMAIN_WHITELIST : list string)
    (domain : string) : bool * option string :=
  similar_loop (lower domain) 0.8%Q (set_iter L ROOT_DOMAIN_WHITELIST).

(** [bool(matched_whitelist)] *)
Definition matched (m : option string) : bool :=
  match m with
  | Some w => truthy w
  | None => false
  end.

(** 1) Host is an IP address (if enabled in rules) *)
Definition check_ip (DETECT_IP_URLS : bool) (WEIGHTS : dict Q) (host : string)
    : M unit :=
  when DETECT_IP_URLS (
    let ip_flag := is_ip host in
    set_indicator "ip_in_host" (IBool ip_flag) ;;
    when ip_flag
      (flag "Host is an IP address (not a domain) - from url_rules.json"
         (dict_index WEIGHTS "ip_in_host"))).

(** 2) Suspicious TLDs, and the reward of .gov and two-letter suffixes *)
Definition check_tld (SUSPICIOUS_TLDS : list string) (WEIGHTS : dict Q)
    (extracted : ExtractResult) (is_gov_or_cctld : bool) : M unit :=
  let suffix_full := lower (suffix extracted) in
  let suffix_top := last (split "." suffix_full) in
  let tld_flag := mem suffix_top SUSPICIOUS_TLDS && negb is_gov_or_cctld in
  set_indicator "suspicious_tld" (IBool tld_flag) ;;
  if is_gov_or_cctld then
    flag ("Top-level domain '." ++ suffix_full
          ++ "' is a trusted government or country-specific TLD")
      (Ok (-20)%Q)
  else
    when tld_flag
      (flag ("Top-level domain '" ++ suffix extracted
             ++ "' is suspicious/unusual (from url_rules.json)")
         (dict_index WEIGHTS "suspicious_tld")).

(** 3) Very long URL *)
Definition check_length (WEIGHTS : dict Q) (original : string) : M unit :=
  let url_len := String.length original in
  set_indicator "long_url" (IBool (Nat.ltb 100 url_len)) ;;
  when (Nat.ltb 100 url_len)
    (flag ("URL length is long (" ++ str_of_nat url_len ++ " characters)")
       (dict_index WEIGHTS "long_url")).

(** 4) Many subdomains *)
Definition check_subdomains (WEIGHTS : dict Q) (subdomain : string)
    (is_gov_or_cctld : bool) : M unit :=
  let clean_subdomain :=
    join "." (filter (fun p => negb (mem p ["www"; "m"; ""])) (split "." subdomain)) in
  let sub_count :=
    count_char "." clean_subdomain + (if truthy clean_subdomain then 1 else 0) in
  let many_subdomains_flag := Nat.leb 2 sub_count && negb is_gov_or_cctld in
  set_indicator "many_subdomains" (IBool many_subdomains_flag) ;;
  when many_subdomains_flag
    (flag ("Excessive subdomains detected (" ++ str_of_nat sub_count ++ ")")
       (dict_index WEIGHTS "many_subdomains")).

(** 5) Hyphen in domain *)
Definition check_hyphen (WEIGHTS : dict Q) (extracted : ExtractResult)
    (is_gov_or_cctld : bool) : M unit :=
  let hyphen_flag := contains "-" (domain extracted) && negb is_gov_or_cctld in
  set_indicator "hyphen_in_domain" (IBool hyphen_flag) ;;
  when hyphen_flag
    (flag "Hyphen found in root domain (unusual for official entities)"
       (dict_index WEIGHTS "hyphen_in_domain")).

(** 6) Punycode *)
Definition check_punycode (WEIGHTS : dict Q) (host : string) : M unit :=
  let puny_flag := contains_punycode host in
  set_indicator "punycode" (IBool puny_flag) ;;
  when puny_flag
    (flag "Punycode found in host (possible homograph attack)"
       (dict_index WEIGHTS "punycode")).

(** 7) Suspicious characters in the URL *)
Definition check_chars (WEIGHTS : dict Q) (original : string)
    (is_gov_or_cctld : bool) : M unit :=
  let suspicious_chars := any_char suspicious_char original && negb is_gov_or_cctld in
  set_indicator "suspicious_chars" (IBool suspicious_chars) ;;
  when suspicious_chars
    (flag "Suspicious characters detected in URL"
       (dict_index WEIGHTS "suspicious_chars")).

(** 8) Suspicious path tokens *)
Definition check_path_tokens (SUSPICIOUS_PATH_TOKENS : list string)
    (WEIGHTS : dict Q) (path : string) : M unit :=
  let path_tokens := runs_of token_char (lower path) in
  let suspicious_tokens_found :=
    dedup (filter (fun tok => mem tok SUSPICIOUS_PATH_TOKENS) path_tokens) in
  set_indicator "suspicious_path_tokens" (IList (set_iter L suspicious_tokens_found)) ;;
  when (negb (Nat.eqb (List.length suspicious_tokens_found) 0))
    (flag ("Suspicious path tokens found: "
           ++ join ", " (sorted suspicious_tokens_found))
       (dict_index WEIGHTS "suspicious_path_tokens")).

(** 9) Entropy-ish check for path+query *)
Definition check_entropy (WEIGHTS : dict Q) (path query : string)
    (is_gov_or_cctld : bool) : M unit :=
  let ent := entropy_score L (strip (path ++ " " ++ query)) in
  set_indicator "entropy_score" (IFloat ent) ;;
  when (negb (Qle_bool ent 0.9%Q) && negb is_gov_or_cctld)
    (flag "High character entropy in path/query (random-looking)"
       (dict_index WEIGHTS "url_length_entropy")).

(** 10) Whitelist and misspelling check *)
Definition check_whitelist (is_whitelisted : bool) (matched_whitelist : option string)
    (root_domain : string) (is_gov_or_cctld : bool) : M unit :=
  set_indicator "known_whitelist" (IBool is_whitelisted) ;;
  if is_whitelisted || is_gov_or_cctld then
    flag ("Trust verified: Result is within a secure/official name space ('"
          ++ root_domain ++ "')")
      (Ok (-40)%Q)
  else
    when (matched matched_whitelist)
      (flag ("Alert: Domain '" ++ root_domain ++ "' mimics trusted brand '"
             ++ get_or matched_whitelist "" ++ "'")
         (Ok 65%Q)).

(** 11) Additional checks for whitelisted domains *)
Definition check_domain_tokens (WEIGHTS : dict Q) (is_whitelisted : bool)
    (matched_whitelist : option string) (extracted : ExtractResult) : M unit :=
  when (is_whitelisted || matched matched_whitelist) (
    let domain_tokens :=
      split_on (fun c => Ascii.eqb c "-" || Ascii.eqb c ".") (domain extracted) in
    match find (fun pr => existsb (fst pr) domain_tokens) suspicious_patterns with
    | Some (_, reason) =>
        flag ("Suspicious domain pattern detected: " ++ reason) (Ok 30%Q)
    | None => ret tt
    end ;;
    let suspicious_token_flag :=
      existsb (fun tok => Nat.ltb 20 (String.length tok)) domain_tokens in
    set_indicator "suspicious_domain_token_long" (IBool suspicious_token_flag) ;;
    when suspicious_token_flag
      (flag "Unusually long token in domain name"
         (Ok (dict_get WEIGHTS "suspicious_domain_token_long" 6%Q)))).

(** The checks in the order of the source. *)
Definition checks (r : rules) (original host path query : string)
    (extracted : ExtractResult) (root_domain subdomain : string) : M unit :=
  let WEIGHTS := get_weights r in
  let SUSPICIOUS_TLDS := map (replace "." "") (get_or (suspicious_tlds r) []) in
  let ROOT_DOMAIN_WHITELIST := get_or (trusted_domains r) [] in
  let SUSPICIOUS_PATH_TOKENS := get_or (phishing_keywords r) [] in
  let DETECT_IP_URLS := get_or (detect_ip_urls r) true in
  let suffix_top := last (split "." (lower (suffix extracted))) in
  let is_gov_or_cctld :=
    String.eqb suffix_top "gov" || Nat.eqb (String.length suffix_top) 2 in
  let '(is_whitelisted, matched_whitelist) :=
    is_similar_to_whitelisted ROOT_DOMAIN_WHITELIST root_domain in
  check_ip DETECT_IP_URLS WEIGHTS host ;;
  check_tld SUSPICIOUS_TLDS WEIGHTS extracted is_gov_or_cctld ;;
  check_length WEIGHTS original ;;
  check_subdomains WEIGHTS subdomain is_gov_or_cctld ;;
  check_hyphen WEIGHTS extracted is_gov_or_cctld ;;
  check_punycode WEIGHTS host ;;
  check_chars WEIGHTS original is_gov_or_cctld ;;
  check_path_tokens SUSPICIOUS_PATH_TOKENS WEIGHTS path ;;
  check_entropy WEIGHTS path query is_gov_or_cctld ;;
  check_whitelist is_whitelisted matched_whitelist root_domain is_gov_or_cctld ;;
  check_domain_tokens WEIGHTS is_whitelisted matched_whitelist extracted.

(** Final score normalization and the verdict thresholds. *)
Definition mapped_score (score : Q) : Z :=
  let raw_score := Py.max 0%Q score in
  int (Py.min (Py.max raw_score 0%Q) 100%Q).

Definition finish (original : string) (info : parsed_info) (st : Acc.t) : analysis :=
  let mapped := mapped_score (Acc.score st) in
  let verdict' :=
    if Z.leb 65 mapped then phishing
    else if Z.leb 30 mapped then suspicious
    else safe in
  {| url := PyStr original;
     score := mapped;
     verdict := verdict';
     reasons := match Acc.reasons st with
                | [] => ["No obvious automated red flags detected"]
                | rs => rs
                end;
     indicators := Acc.indicators st;
     parsed := Some info |}.

(** The result of the early return on [not url or not isinstance(url, str)]. *)
Definition invalid_input (u : pyval) : analysis :=
  {| url := u;
     score := 100%Z;
     verdict := phishing;
     reasons := ["No URL provided or wrong type"];
     indicators := [("invalid_input", IBool true)];
     parsed := None |}.

(** [test_url]: the URL with a scheme in front if it has none. *)
Definition with_scheme (original : string) : string :=
  if negb (contains "://" original) then "http://" ++ original else original.

(** The body of [analyze_url] from the comment about the scheme down to the
    last check, for a non-empty string: the stripped URL, the parsed parts
    and the three variables after the checks. *)
Definition scan (r : rules) (text : string) : result (string * parsed_info * Acc.t) :=
  let original := strip text in
  let test_url := with_scheme original in
  rbind (urlparse L test_url) (fun parsed =>
  let host := get_or (hostname parsed) "" in
  let path := unquote L (Lib.path parsed) in
  let query := Lib.query parsed in
  let extracted := tld_extract L host in
  let root_domain := join "." (filter truthy [domain extracted; suffix extracted]) in
  let subdomain := Lib.subdomain extracted in
  rbind (port parsed) (fun port =>
  let info := {| p_scheme := scheme parsed; p_host := host;
                 p_root_domain := root_domain; p_subdomain := subdomain;
                 p_path := path; p_query := query; p_port := port |} in
  rbind (checks r original host path query extracted root_domain subdomain Acc.start)
    (fun out => Ok (original, info, snd out)))).

Definition analyze_text (r : rules) (text : string) : result analysis :=
  rbind (scan r text) (fun out =>
  let '(original, info, st) := out in Ok (finish original info st)).

Definition analyze_url (f : rules_file rules) (u : pyval) : result analysis :=
  rbind (load_url_rules f) (fun r =>
  if falsy u || negb (is_str u) then Ok (invalid_input u)
  else
    match u with
    | PyStr text => analyze_text r text
    | _ => Ok (invalid_input u)   (* not reached: [u] is a string here *)
    end).

End Analyze.

End UrlChecker.

(** ** backend/core_engine/email_checker.py *)

Module EmailChecker.
Import Py Lib Config Acc.
Local Open Scope acc_scope.

(** The document of [email_rules.json], of the shape the code reads: lists
    of strings and a boolean; a key the document lacks is [None].  On
    entries of other JSON types the checks raise; such documents are left
    out. *)
Record rules : Type := {
  dangerous_attachments : option (list string);
  urgent_phrases : option (list string);
  info_request_phrases : option (list string);
  suspicious_sender_domains : option (list string);
  link_mismatch_detection : option bool
}.

Definition default_rules : rules := {|
  dangerous_attachments := Some [".exe"; ".zip"; ".rar"; ".7z"; ".bat"; ".scr";
    ".js"; ".vbs"; ".jar"; ".pdf"];
  urgent_phrases := Some ["urgent"; "immediately"; "your account will be closed";
    "last warning"; "suspended"; "final notice"; "verify now"; "action required";
    "unauthorized access"; "security alert"];
  info_request_phrases := Some ["password"; "credit card"; "debit card";
    "security code"; "otp"; "2fa"; "pin"; "verify your identity";
    "confirm your details"];
  suspicious_sender_domains := Some ["outlook.com"; "gmail.com"; "yahoo.com";
    "hotmail.com"];
  link_mismatch_detection := Some true
|}.

Definition load_email_rules (f : rules_file rules) : result rules :=
  try_except (open_and_load f) FileNotFoundError_ (Ok default_rules).

Definition WEIGHTS : dict Q := [
  ("suspicious_sender_domain", 20%Q);
  ("sender_domain_mismatch", 25%Q);
  ("urgent_language", 20%Q);
  ("info_request", 25%Q);
  ("dangerous_attachment", 20%Q);
  ("suspicious_link", 15%Q);
  ("link_domain_mismatch", 20%Q);
  ("too_good_to_be_true", 25%Q);
  ("suspicious_subject", 10%Q);
  ("spelling_errors", 25%Q);
  ("generic_greeting", 5%Q);
  ("typosquatting", 55%Q)
].

Definition TRUSTED_BRANDS : list string :=
  ["google"; "support"; "noreply"; "github"; "opay"; "the5ers"].

(** *** Helper functions *)

Definition extract_domain_from_email (email : string) : string :=
  if negb (truthy email) || negb (contains "@" email) then ""
  else strip (lower (last (split "@" email))).

Definition extract_links (text : string) : list string := Re.extract_links text.

(** [[il1|]] under [re.IGNORECASE], on code points 0 to 255; beyond them
    the class also matches U+0130 and U+0131. *)
Definition il1_char (c : ascii) : bool :=
  existsb (Ascii.eqb c) ["i"; "l"; "1"; "|"; "I"; "L"]%char.

(** [len(re.findall(r'[il1|][il1|][il1|]', text, re.IGNORECASE))] *)
Fixpoint count_il1_triples (s : string) (skip : nat) : nat :=
  match s with
  | EmptyString => 0
  | String a t =>
      match skip with
      | S k => count_il1_triples t k
      | O =>
          match t with
          | String b (String c _) =>
              if il1_char a && il1_char b && il1_char c
              then S (count_il1_triples t 2)
              else count_il1_triples t 0
          | _ => 0
          end
      end
  end.

Definition count_spelling_errors (text : string) : nat :=
  count_if (between 48 57) text + count_il1_triples text 0.

Definition is_generic_greeting (text : string) : bool :=
  let generic_greetings :=
    ["dear user"; "dear customer"; "dear sir/madam"; "hello"; "hi there"] in
  let text_lower := lower text in
  existsb (fun greeting => contains greeting (take 100 text_lower)) generic_greetings.

(** The inner loop of [levenshtein_distance]: [left] is [current_row[j]] and
    [previous_row] is the slice [previous_row[j:]]. *)
Fixpoint row_tail (c1 : ascii) (s2 : list ascii) (previous_row : list nat)
    (left : nat) : list nat :=
  match s2, previous_row with
  | c2 :: s2', p_j :: ((p_j1 :: _) as previous_row') =>
      let insertions := p_j1 + 1 in
      let deletions := left + 1 in
      let substitutions := p_j + (if Ascii.eqb c1 c2 then 0 else 1) in
      let cell := Nat.min (Nat.min insertions deletions) substitutions in
      cell :: row_tail c1 s2' previous_row' cell
  | _, _ => []
  end.

(** The outer loop: [i] is the index of the first character of [s1]. *)
Fixpoint rows (s1 : list ascii) (i : nat) (s2 : list ascii)
    (previous_row : list nat) : list nat :=
  match s1 with
  | [] => previous_row
  | c1 :: s1' =>
      let current_row := (i + 1) :: row_tail c1 s2 previous_row (i + 1) in
      rows s1' (S i) s2 current_row
  end.

(** The body of [levenshtein_distance] once [len(s1) >= len(s2)]. *)
Definition distance_ordered (s1 s2 : string) : nat :=
  if Nat.eqb (String.length s2) 0 then String.length s1
  else
    List.last (rows (list_ascii_of_string s1) 0 (list_ascii_of_string s2)
                 (List.seq 0 (String.length s2 + 1))) 0.

Definition levenshtein_distance (s1 s2 : string) : nat :=
  if Nat.ltb (String.length s1) (String.length s2) then distance_ordered s2 s1
  else distance_ordered s1 s2.

(** *** Main analysis function *)

(** The dict [analyze_email] returns. *)
Record analysis : Type := {
  sender : string;
  subject : string;
  score : Z;
  verdict : Verdict;
  reasons : list string;
  indicators : dict ival;
  links_found : list string;
  attachments_found : list string
}.

Section Analyze.

Variable L : Libs.

(** 0) The loop over [TRUSTED_BRANDS] of the typosquatting check; it stops
    at the first brand within distance 1 or 2. *)
Fixpoint typosquat_loop (sender_domain sld : string) (brands : list string)
    : M unit :=
  match brands with
  | [] => ret tt
  | brand :: rest =>
      if String.eqb sld brand then typosquat_loop sender_domain sld rest
      else
        let dist := levenshtein_distance sld brand in
        let is_typo :=
          if String.eqb brand "the5ers"
          then Nat.ltb 0 dist && Nat.leb dist 2
          else Nat.ltb 0 dist && Nat.leb dist 2 in
        if is_typo then
          append_reason ("Typosquatting detected: '" ++ sender_domain
                         ++ "' mimics trusted brand '" ++ brand ++ "'") ;;
          add_score 75%Q ;;
          set_indicator "typosquatting" (IBool true)
        else typosquat_loop sender_domain sld rest
  end.

Definition check_typosquatting (sender_domain : string) : M unit :=
  when (truthy sender_domain) (
    let extracted := tld_extract L sender_domain in
    let sld := lower (domain extracted) in
    typosquat_loop sender_domain sld TRUSTED_BRANDS).

(** 0.5) The loop of the local-part brand impersonation check. *)
Fixpoint local_part_loop (sender_domain local_part : string)
    (brands : list string) : M unit :=
  match brands with
  | [] => ret tt
  | brand :: rest =>
      if mem brand ["support"; "noreply"]
      then local_part_loop sender_domain local_part rest
      else if contains brand local_part then
        let sender_sld :=
          if truthy sender_domain
          then lower (domain (tld_extract L sender_domain)) else "" in
        if negb (String.eqb sender_sld brand) then
          append_reason ("Trusted brand '" ++ brand
                         ++ "' found in local-part of email (potential impersonation)") ;;
          add_score 55%Q ;;
          set_indicator "brand_impersonation_local" (IBool true)
        else local_part_loop sender_domain local_part rest
      else local_part_loop sender_domain local_part rest
  end.

Definition check_local_part (sender sender_domain : string) : M unit :=
  let local_part :=
    if contains "@" sender then lower (first (split "@" sender)) else "" in
  when (truthy local_part) (local_part_loop sender_domain local_part TRUSTED_BRANDS).

Definition check_sender_domain (r : rules) (sender_domain : string) : M unit :=
  let suspicious_sender_flag :=
    mem sender_domain (get_or (suspicious_sender_domains r) []) in
  set_indicator "suspicious_sender_domain" (IBool suspicious_sender_flag) ;;
  when suspicious_sender_flag
    (flag ("Sender domain '" ++ sender_domain ++ "' is commonly used in phishing")
       (dict_index WEIGHTS "suspicious_sender_domain")).

(** The loop over the links of the mismatch check; a link on which
    [urlparse] raises is passed over ([except Exception: pass]). *)
Fixpoint mismatch_loop (sender_domain : string) (links : list string) : M unit :=
  match links with
  | [] => ret tt
  | link :: rest =>
      match urlparse L link with
      | Raise e =>
          if isinstance e Exception_ then mismatch_loop sender_domain rest
          else lift (Raise e)
      | Ok parsed_url =>
          let link_domain := lower (netloc parsed_url) in
          let link_domain_clean := replace "www." "" link_domain in
          let sender_domain_clean := replace "www." "" sender_domain in
          if truthy link_domain_clean && truthy sender_domain_clean then
            let link_extracted := tld_extract L link_domain in
            let sender_extracted := tld_extract L sender_domain in
            let link_root :=
              lower (domain link_extracted ++ "." ++ suffix link_extracted) in
            let sender_root :=
              lower (domain sender_extracted ++ "." ++ suffix sender_extracted) in
            if negb (String.eqb link_root sender_root) && truthy link_root then
              set_indicator "link_domain_mismatch" (IBool true) ;;
              flag ("Link domain '" ++ link_root
                    ++ "' doesn't match sender domain '" ++ sender_root ++ "'")
                (dict_index WEIGHTS "link_domain_mismatch")
            else mismatch_loop sender_domain rest
          else mismatch_loop sender_domain rest
      end
  end.

(** 2) Extract and analyze links *)
Definition check_links (r : rules) (sender_domain : string)
    (links : list string) : M unit :=
  set_indicator "has_links" (IBool (Nat.ltb 0 (List.length links))) ;;
  when (negb (Nat.eqb (List.length links) 0)) (
    flag ("Found " ++ str_of_nat (List.length links) ++ " link(s) in email")
      (dict_index WEIGHTS "suspicious_link") ;;
    when (truthy sender_domain && get_or (link_mismatch_detection r) true)
      (mismatch_loop sender_domain links)).

(** The phrases of a list that occur in the text, in the order of the list. *)
Definition phrases_in (phrases : list string) (full_text : string) : list string :=
  filter (fun phrase => contains (lower phrase) full_text) phrases.

(** 3) Urgent language *)
Definition check_urgent (r : rules) (full_text : string) : M unit :=
  let urgent_found := phrases_in (get_or (urgent_phrases r) []) full_text in
  set_indicator "urgent_language" (IBool (Nat.ltb 0 (List.length urgent_found))) ;;
  when (negb (Nat.eqb (List.length urgent_found) 0))
    (flag ("Urgent/fear-based language detected: "
           ++ join ", " (firstn 3 urgent_found))
       (dict_index WEIGHTS "urgent_language")).

(** 4) Information request phrases *)
Definition check_info (r : rules) (full_text : string) : M unit :=
  let info_found := phrases_in (get_or (info_request_phrases r) []) full_text in
  set_indicator "info_request" (IBool (Nat.ltb 0 (List.length info_found))) ;;
  when (negb (Nat.eqb (List.length info_found) 0))
    (flag ("Requests sensitive information: " ++ join ", " (firstn 3 info_found))
       (dict_index WEIGHTS "info_request")).

(** 5) Dangerous attachments, and their mention in the text *)
Definition check_attachments (r : rules) (attachments : list string)
    (full_text : string) : M unit :=
  let dangerous_extensions := get_or (dangerous_attachments r) [] in
  let dangerous :=
    filter (fun att =>
      existsb (fun ext => endswith (lower att) (lower ext)) dangerous_extensions)
      attachments in
  let dangerous_flag := Nat.ltb 0 (List.length dangerous) in
  set_indicator "dangerous_attachment" (IBool dangerous_flag) ;;
  when (negb (Nat.eqb (List.length dangerous) 0))
    (flag ("Dangerous attachment(s) detected: " ++ join ", " dangerous)
       (dict_index WEIGHTS "dangerous_attachment")) ;;
  when (existsb (fun ext => contains (lower ext) full_text) dangerous_extensions)
    (when (negb dangerous_flag)
       (flag "Email mentions dangerous file types"
          (rbind (dict_index WEIGHTS "dangerous_attachment")
             (fun w => Ok (w * 0.5)%Q)))).

(** 6) Too good to be true offers *)
Definition check_promo (full_text : string) : M unit :=
  let promo_keywords :=
    ["won"; "reward"; "free"; "congratulations"; "gift"; "prize"; "bonus"; "lottery"] in
  let promo_found := filter (fun kw => contains kw full_text) promo_keywords in
  set_indicator "too_good_to_be_true" (IBool (Nat.ltb 0 (List.length promo_found))) ;;
  when (negb (Nat.eqb (List.length promo_found) 0))
    (flag ("Suspicious promotional language: " ++ join ", " (firstn 3 promo_found))
       (dict_index WEIGHTS "too_good_to_be_true")).

(** 7) Suspicious subject line *)
Definition check_subject (subject : string) : M unit :=
  when (truthy subject) (
    let subject_lower := lower subject in
    let suspicious_subject_indicators :=
      ["urgent"; "action required"; "verify"; "suspended"; "locked"] in
    when (existsb (fun indicator => contains indicator subject_lower)
            suspicious_subject_indicators) (
      set_indicator "suspicious_subject" (IBool true) ;;
      flag "Suspicious subject line detected"
        (dict_index WEIGHTS "suspicious_subject"))).

(** 8) Spelling errors in the sender *)
Definition check_spelling (sender : string) : M unit :=
  when (truthy sender) (
    let spelling_errors := count_spelling_errors sender in
    set_indicator "spelling_errors" (IBool (Nat.ltb 0 spelling_errors)) ;;
    when (Nat.ltb 0 spelling_errors)
      (flag "Potential spelling errors or typosquatting in sender address"
         (dict_index WEIGHTS "spelling_errors"))).

(** 9) Generic greeting *)
Definition check_greeting (content : string) : M unit :=
  when (is_generic_greeting content) (
    set_indicator "generic_greeting" (IBool true) ;;
    flag "Uses generic greeting instead of personal name"
      (dict_index WEIGHTS "generic_greeting")).

(** The checks in the order of the source. *)
Definition checks (r : rules) (sender subject content : string)
    (attachments : list string) : M unit :=
  let full_text := lower (subject ++ " " ++ content) in
  let sender_domain := extract_domain_from_email sender in
  check_typosquatting sender_domain ;;
  check_local_part sender sender_domain ;;
  check_sender_domain r sender_domain ;;
  check_links r sender_domain (extract_links full_text) ;;
  check_urgent r full_text ;;
  check_info r full_text ;;
  check_attachments r attachments full_text ;;
  check_promo full_text ;;
  check_subject subject ;;
  check_spelling sender ;;
  check_greeting content.

Definition mapped_score (score : Q) : Z :=
  let raw_score := Py.max 0%Q score in
  int (Py.min (Py.max raw_score 0%Q) 100%Q).

Definition finish (sender subject : string) (links attachments : list string)
    (st : Acc.t) : analysis :=
  let mapped := mapped_score (Acc.score st) in
  let verdict' :=
    if Z.leb 65 mapped then phishing
    else if Z.leb 30 mapped then suspicious
    else safe in
  {| sender := sender;
     subject := subject;
     score := mapped;
     verdict := verdict';
     reasons := match Acc.reasons st with
                | [] => ["No obvious automated red flags detected"]
                | rs => rs
                end;
     indicators := Acc.indicators st;
     links_found := links;
     attachments_found := attachments |}.

(** [analyze_email(sender=None, subject=None, content=None, attachments=None)] *)
Definition analyze_email (f : rules_file rules) (sender subject content : option string)
    (attachments : option (list string)) : result analysis :=
  let attachments_found := get_or attachments [] in
  rbind (load_email_rules f) (fun r =>
  let sender := strip (get_or sender "") in
  let subject := strip (get_or subject "") in
  let content := strip (get_or content "") in
  let full_text := lower (subject ++ " " ++ content) in
  rbind (checks r sender subject content attachments_found Acc.start) (fun out =>
  Ok (finish sender subject (extract_links full_text) attachments_found (snd out)))).

End Analyze.

End EmailChecker.

(** ** backend/core_engine/sms_checker.py *)

Module SmsChecker.
Import Py Lib Config Acc.
Local Open Scope acc_scope.

(** The document of [sms_rules.json]. *)
Record rules : Type := {
  suspicious_numbers : option (list string);
  urgent_phrases : option (list string);
  phishing_keywords : option (list string);
  unexpected_action_phrases : option (list string);
  weights : option (dict Q)
}.

Definition default_rules : rules := {|
  suspicious_numbers := Some ["+000"; "+999"; "unknown"; "private"];
  urgent_phrases := Some ["urgent"; "verify now"; "your account is locked";
    "security alert"; "click this link"; "your bank account is blocked";
    "reset immediately"];
  phishing_keywords := Some ["bank"; "login"; "verify"; "password"; "click";
    "promo"; "free"; "bonus"; "gift"];
  unexpected_action_phrases := Some ["send your details"; "provide your otp";
    "confirm your password"; "share your pin"];
  weights := None
|}.

Definition load_sms_rules (f : rules_file rules) : result rules :=
  try_except (open_and_load f) FileNotFoundError_ (Ok default_rules).

Definition default_weights : dict Q := [
  ("suspicious_sender_number", 25%Q);
  ("invalid_number_format", 10%Q);
  ("shortened_url", 30%Q);
  ("urgent_language", 20%Q);
  ("phishing_keywords", 15%Q);
  ("info_request", 30%Q);
  ("unexpected_action", 25%Q);
  ("too_good_to_be_true", 15%Q);
  ("suspicious_link", 25%Q);
  ("link_sender_mismatch", 30%Q);
  ("bank_mention_mismatch", 15%Q);
  ("suspicious_sender_name", 15%Q);
  ("no_contact_info", 5%Q);
  ("excessive_special_chars", 10%Q);
  ("excessive_caps", 10%Q)
].

Definition get_weights (r : rules) : dict Q := get_or (weights r) default_weights.

(** *** Helper functions *)

Definition is_suspicious_number (number : string) : bool :=
  if negb (truthy number) then false
  else
    let number_lower := lower number in
    let suspicious_patterns :=
      ["+000"; "+999"; "unknown"; "private"; "blocked"; "anonymous"] in
    existsb (fun pattern => contains pattern number_lower) suspicious_patterns.

Definition extract_links (text : string) : list string := Re.extract_links text.

Definition shortened_domains : list string := [
  "bit.ly"; "tinyurl.com"; "t.co"; "goo.gl"; "ow.ly"; "is.gd";
  "short.link"; "rebrand.ly"; "cutt.ly"; "buff.ly"; "adf.ly";
  "tiny.cc"; "shorturl.at"; "rb.gy"; "bit.do"; "shorte.st"
].

(** [[0-9\s\-\(\)]] *)
Definition number_char (c : ascii) : bool :=
  between 48 57 c || isspace c
  || Ascii.eqb c "-" || Ascii.eqb c "(" || Ascii.eqb c ")".

(** [re.match(r'^\+?[0-9\s\-\(\)]{7,}$', number)].  The class contains the
    line feed, so the [$] before a final line feed adds no match. *)
Definition number_format_ok (number : string) : bool :=
  let body :=
    match number with
    | String c t => if Ascii.eqb c "+" then t else number
    | EmptyString => number
    end in
  all_char number_char body && Nat.leb 7 (String.length body).

(** [\b] between two neighbours; [None] is an end of the text. *)
Definition word_boundary (before after : option ascii) : bool :=
  let w (o : option ascii) :=
    match o with
    | Some c => isword c
    | None => false
    end in
  xorb (w before) (w after).

Definition head_char (s : string) : option ascii :=
  match s with
  | String c _ => Some c
  | EmptyString => None
  end.

Fixpoint last_char (before : option ascii) (s : string) : option ascii :=
  match s with
  | String c t => last_char (Some c) t
  | EmptyString => before
  end.

(** The pattern [\b keyword \b] at the start of [s], [before] being the
    character in front of [s]. *)
Definition keyword_at (keyword : string) (before : option ascii) (s : string) : bool :=
  word_boundary before (head_char s)
  && String.prefix keyword s
  && word_boundary (last_char before keyword)
       (head_char (drop (String.length keyword) s)).

(** [len(re.findall(r'\b' + re.escape(keyword) + r'\b', text))] *)
Fixpoint count_keyword (keyword : string) (before : option ascii) (s : string)
    (skip : nat) : nat :=
  match s with
  | EmptyString =>
      match skip with
      | O => if keyword_at keyword before s then 1 else 0
      | S _ => 0
      end
  | String c t =>
      match skip with
      | S k => count_keyword keyword (Some c) t k
      | O =>
          if keyword_at keyword before s
          then S (count_keyword keyword (Some c) t (String.length keyword - 1))
          else count_keyword keyword (Some c) t 0
      end
  end.

Definition count_phishing_keywords (text : string) (keywords : list string) : nat :=
  let text_lower := lower text in
  fold_left (fun count keyword => count + count_keyword keyword None text_lower 0)
    keywords 0.

(** The character class of check 11: the twenty-nine punctuation characters
    listed here. *)
Definition special_char (c : ascii) : bool :=
  existsb (Ascii.eqb c)
    ["!"; "@"; "#"; "$"; "%"; "^"; "&"; "*"; "("; ")"; "_"; "+"; "-"; "=";
     "["; "]"; "{"; "}"; ";"; "'"; ":"; Re.double_quote; "\"; "|"; ","; ".";
     "<"; ">"; "?"]%char.

Section Analyze.

Variable L : Libs.

Definition is_shortened_url (url : string) : bool :=
  match urlparse L url with
  | Ok parsed =>
      let domain := replace "www." "" (lower (netloc parsed)) in
      existsb (fun short_domain => contains short_domain domain) shortened_domains
  | Raise _ => false   (* the bare [except:] *)
  end.

Definition extract_domain_from_link (url : string) : string :=
  match urlparse L url with
  | Ok parsed =>
      let host := lower (netloc parsed) in
      if negb (truthy host) then ""
      else
        let extracted := tld_extract L host in
        if truthy (domain extracted) && truthy (suffix extracted)
        then domain extracted ++ "." ++ suffix extracted
        else host
  | Raise _ => ""   (* the bare [except:] *)
  end.

Definition service_keywords : list string :=
  ["bank"; "paypal"; "amazon"; "apple"; "google"; "microsoft"; "netflix"; "pay"].

Definition check_sender_link_mismatch (sender : string) (links : list string) : bool :=
  if negb (truthy sender) || Nat.eqb (List.length links) 0 then false
  else
    let sender_lower := lower sender in
    if negb (existsb (fun kw => contains kw sender_lower) service_keywords) then false
    else
      let link_domains :=
        filter truthy (map extract_domain_from_link links) in
      existsb (fun link_domain =>
        truthy link_domain
        && existsb (fun kw =>
             contains kw sender_lower && negb (contains kw link_domain))
             service_keywords) link_domains.

(** *** Main analysis function *)

(** 1) Suspicious sender number, and the format of the number *)
Definition check_number (r : rules) (WEIGHTS : dict Q) (number : string) : M unit :=
  when (truthy number) (
    let suspicious_numbers := get_or (suspicious_numbers r) [] in
    let suspicious_number_flag :=
      existsb (fun pattern => contains (lower pattern) (lower number)) suspicious_numbers
      || is_suspicious_number number in
    set_indicator "suspicious_sender_number" (IBool suspicious_number_flag) ;;
    when suspicious_number_flag
      (flag ("Suspicious sender number: " ++ number ++ " (from sms_rules.json)")
         (dict_index WEIGHTS "suspicious_sender_number")) ;;
    when (truthy number && negb (number_format_ok number)) (
      set_indicator "invalid_number_format" (IBool true) ;;
      flag "Invalid or unusual phone number format"
        (dict_index WEIGHTS "invalid_number_format"))).

(** 2) Extract and analyze links *)
Definition check_links (WEIGHTS : dict Q) (sender : string) (links : list string)
    : M unit :=
  set_indicator "has_links" (IBool (Nat.ltb 0 (List.length links))) ;;
  when (negb (Nat.eqb (List.length links) 0)) (
    flag ("Found " ++ str_of_nat (List.length links) ++ " link(s) in SMS")
      (dict_index WEIGHTS "suspicious_link") ;;
    let shortened_found := filter is_shortened_url links in
    when (negb (Nat.eqb (List.length shortened_found) 0)) (
      set_indicator "shortened_url" (IBool true) ;;
      flag ("Shortened URL(s) detected: " ++ join ", " (firstn 2 shortened_found))
        (dict_index WEIGHTS "shortened_url")) ;;
    when (truthy sender && check_sender_link_mismatch sender links) (
      set_indicator "link_sender_mismatch" (IBool true) ;;
      flag "Links in SMS don't match the claimed sender service"
        (dict_index WEIGHTS "link_sender_mismatch"))).

(** The phrases of a list that occur in the text, in the order of the list. *)
Definition phrases_in (phrases : list string) (full_text : string) : list string :=
  filter (fun phrase => contains (lower phrase) full_text) phrases.

(** The keywords of a fixed list that occur in the text. *)
Definition keywords_in (keywords : list string) (full_text : string) : list string :=
  filter (fun kw => contains kw full_text) keywords.

(** 3) Urgent language *)
Definition check_urgent (r : rules) (WEIGHTS : dict Q) (full_text : string) : M unit :=
  let urgent_found := phrases_in (get_or (urgent_phrases r) []) full_text in
  set_indicator "urgent_language" (IBool (Nat.ltb 0 (List.length urgent_found))) ;;
  when (negb (Nat.eqb (List.length urgent_found) 0))
    (flag ("Urgent/fear-based language detected: "
           ++ join ", " (firstn 3 urgent_found))
       (dict_index WEIGHTS "urgent_language")).

(** 4) Phishing keywords *)
Definition check_keywords (r : rules) (WEIGHTS : dict Q) (full_text : string) : M unit :=
  let keyword_count :=
    count_phishing_keywords full_text (get_or (phishing_keywords r) []) in
  set_indicator "phishing_keywords" (IBool (Nat.ltb 0 keyword_count)) ;;
  when (Nat.ltb 0 keyword_count)
    (flag ("Phishing-related keywords detected (" ++ str_of_nat keyword_count
           ++ " occurrences)")
       (rbind (dict_index WEIGHTS "phishing_keywords") (fun w =>
        rbind (dict_index WEIGHTS "phishing_keywords") (fun w' =>
        Ok (Py.min (w * (Qnat keyword_count / 2))%Q (w' * 2)%Q))))).

(** 5) Unexpected action phrases *)
Definition check_unexpected (r : rules) (WEIGHTS : dict Q) (full_text : string)
    : M unit :=
  let unexpected_found :=
    phrases_in (get_or (unexpected_action_phrases r) []) full_text in
  set_indicator "unexpected_action" (IBool (Nat.ltb 0 (List.length unexpected_found))) ;;
  when (negb (Nat.eqb (List.length unexpected_found) 0))
    (flag ("Requests unexpected action: " ++ join ", " (firstn 2 unexpected_found))
       (dict_index WEIGHTS "unexpected_action")).

Definition info_keywords : list string :=
  ["otp"; "pin"; "password"; "security code"; "verification code"; "2fa code"].

(** 6) Information request *)
Definition check_info (WEIGHTS : dict Q) (full_text : string) : M unit :=
  let info_found := keywords_in info_keywords full_text in
  set_indicator "info_request" (IBool (Nat.ltb 0 (List.length info_found))) ;;
  when (negb (Nat.eqb (List.length info_found) 0))
    (flag ("Requests sensitive information: " ++ join ", " info_found)
       (dict_index WEIGHTS "info_request")).

Definition promo_keywords : list string :=
  ["won"; "reward"; "free"; "congratulations"; "gift"; "prize"; "bonus";
   "lottery"; "promo"].

(** 7) Too good to be true offers *)
Definition check_promo (WEIGHTS : dict Q) (full_text : string) : M unit :=
  let promo_found := keywords_in promo_keywords full_text in
  set_indicator "too_good_to_be_true" (IBool (Nat.ltb 0 (List.length promo_found))) ;;
  when (negb (Nat.eqb (List.length promo_found) 0))
    (flag ("Suspicious promotional language: " ++ join ", " (firstn 3 promo_found))
       (dict_index WEIGHTS "too_good_to_be_true")).

Definition bank_keywords : list string :=
  ["bank"; "account"; "card"; "payment"; "transaction"; "balance"].

(** 8) Bank mentions without a bank-like sender *)
Definition check_bank (WEIGHTS : dict Q) (sender full_text : string) : M unit :=
  let bank_mentions := keywords_in bank_keywords full_text in
  when (negb (Nat.eqb (List.length bank_mentions) 0)
        && negb (existsb (fun kw => contains kw (lower sender)) ["bank"; "financial"])) (
    set_indicator "bank_mention_without_legitimate_sender" (IBool true) ;;
    flag "Mentions banking/financial terms but sender doesn't appear to be a bank"
      (dict_index WEIGHTS "bank_mention_mismatch")).

(** [re.search(r'(call|contact|reply|stop|unsubscribe)', full_text)] *)
Definition has_contact_info (full_text : string) : bool :=
  existsb (fun w => contains w full_text)
    ["call"; "contact"; "reply"; "stop"; "unsubscribe"].

(** 9) Missing contact information, scored once the score is above 20 *)
Definition check_contact (WEIGHTS : dict Q) (full_text : string) : M unit :=
  let has_contact := has_contact_info full_text in
  set_indicator "no_contact_info" (IBool (negb has_contact)) ;;
  score <- get_score ;;
  when (negb has_contact && negb (Qle_bool score 20%Q))
    (flag "No contact information or opt-out instructions"
       (dict_index WEIGHTS "no_contact_info")).

Definition suspicious_sender_patterns : list string :=
  ["bank"; "paypal"; "amazon"; "apple"; "google"; "microsoft"; "netflix";
   "uber"; "whatsapp"].

(** 10) Suspicious sender name *)
Definition check_sender_name (WEIGHTS : dict Q) (sender : string) : M unit :=
  when (truthy sender) (
    let sender_lower := lower sender in
    when (existsb (fun pattern => contains pattern sender_lower)
            suspicious_sender_patterns) (
      set_indicator "suspicious_sender_name" (IBool true) ;;
      flag "Sender name mimics well-known service"
        (dict_index WEIGHTS "suspicious_sender_name"))).

(** [special_char_ratio > 0.15] *)
Definition excessive_special (content : string) : bool :=
  let special_char_ratio :=
    (Qnat (count_if special_char content)
     / Qnat (Nat.max (String.length content) 1))%Q in
  negb (Qle_bool special_char_ratio 0.15%Q).

(** [caps_ratio > 0.5] *)
Definition excessive_caps (content : string) : bool :=
  let caps_ratio :=
    (Qnat (count_if isupper content) / Qnat (String.length content))%Q in
  negb (Qle_bool caps_ratio 0.5%Q).

(** 11) Formatting of the content *)
Definition check_format (WEIGHTS : dict Q) (content : string) : M unit :=
  when (truthy content) (
    when (excessive_special content) (
      set_indicator "excessive_special_chars" (IBool true) ;;
      flag "Unusual formatting with excessive special characters"
        (Ok (dict_get WEIGHTS "excessive_special_chars" 10%Q))) ;;
    when (Nat.ltb 10 (String.length content)) (
      when (excessive_caps content) (
        set_indicator "excessive_caps" (IBool true) ;;
        flag "Message uses excessive capitalization"
          (Ok (dict_get WEIGHTS "excessive_caps" 8%Q))))).

(** The checks in the order of the source. *)
Definition checks (r : rules) (sender number content : string) : M unit :=
  let WEIGHTS := get_weights r in
  let full_text := lower content in
  check_number r WEIGHTS number ;;
  check_links WEIGHTS sender (extract_links content) ;;
  check_urgent r WEIGHTS full_text ;;
  check_keywords r WEIGHTS full_text ;;
  check_unexpected r WEIGHTS full_text ;;
  check_info WEIGHTS full_text ;;
  check_promo WEIGHTS full_text ;;
  check_bank WEIGHTS sender full_text ;;
  check_contact WEIGHTS full_text ;;
  check_sender_name WEIGHTS sender ;;
  check_format WEIGHTS content.

(** The dict [analyze_sms] returns. *)
Record analysis : Type := {
  sender : string;
  number : string;
  content : string;
  score : Z;
  verdict : Verdict;
  reasons : list string;
  indicators : dict ival;
  links_found : list string
}.

Definition mapped_score (score : Q) : Z :=
  let raw_score := Py.max 0%Q score in
  int (Py.min (Py.max raw_score 0%Q) 100%Q).

Definition finish (sender number content : string) (links : list string)
    (st : Acc.t) : analysis :=
  let mapped := mapped_score (Acc.score st) in
  let verdict' :=
    if Z.leb 65 mapped then phishing
    else if Z.leb 30 mapped then suspicious
    else safe in
  {| sender := sender;
     number := number;
     content := content;
     score := mapped;
     verdict := verdict';
     reasons := match Acc.reasons st with
                | [] => ["No obvious automated red flags detected"]
                | rs => rs
                end;
     indicators := Acc.indicators st;
     links_found := links |}.

(** [analyze_sms(sender=None, number=None, content=None)] *)
Definition analyze_sms (f : rules_file rules) (sender number content : option string)
    : result analysis :=
  rbind (load_sms_rules f) (fun r =>
  let sender := strip (get_or sender "") in
  let number := strip (get_or number "") in
  let content := strip (get_or content "") in
  rbind (checks r sender number content Acc.start) (fun out =>
  Ok (finish sender number content (extract_links content) (snd out)))).

End Analyze.

End SmsChecker.

(** ** backend/app.py: the statistics of the scans

    [update_stats] works on the two global variables [scan_stats] and
    [daily_stats]; they are the state here.  The date and the time of the
    call are arguments.  The scan log is written through a database session,
    of which only the outcome of each call matters: an exception or none. *)

Module App.
Import Py.

(** An item of a [latest] list. *)
Record item : Type := {
  item_type : string;
  item_summary : string;
  item_verdict : string;
  item_timestamp : string
}.

(** The entry of a scan type in [scan_stats]. *)
Record counters : Type := {
  total : nat;
  n_safe : nat;
  n_suspicious : nat;
  n_phishing : nat;
  latest : list item
}.

(** The entry of the key [pie]. *)
Record pie_counts : Type := {
  pie_phishing : nat;
  pie_suspicious : nat;
  pie_safe : nat
}.

(** [scan_stats]: a dict with the keys email, sms, url and pie. *)
Record stats : Type := {
  email : counters;
  sms : counters;
  url : counters;
  pie : pie_counts
}.

Definition no_scans : counters :=
  {| total := 0; n_safe := 0; n_suspicious := 0; n_phishing := 0; latest := [] |}.

Definition scan_stats : stats :=
  {| email := no_scans; sms := no_scans; url := no_scans;
     pie := {| pie_phishing := 0; pie_suspicious := 0; pie_safe := 0 |} |}.

(** [daily_stats[date][scan_type]]: a dict of dicts of two counters, where
    reading a missing entry creates it with both counters at 0. *)
Record day_counts : Type := {
  day_safe : nat;
  day_phishing : nat
}.

Definition daily : Type := dict (dict day_counts).

Definition daily_stats : daily := [].

Definition no_day : day_counts := {| day_safe := 0; day_phishing := 0 |}.

Definition day_of (d : daily) (date scan_type : string) : day_counts :=
  get_or (dict_find scan_type (get_or (dict_find date d) [])) no_day.

(** [daily_stats[today][scan_type][...] += 1] *)
Definition bump_daily (today scan_type : string) (f : day_counts -> day_counts)
    (d : daily) : daily :=
  let of_day := get_or (dict_find today d) [] in
  let of_type := get_or (dict_find scan_type of_day) no_day in
  dict_set today (dict_set scan_type (f of_type) of_day) d.

Record state : Type := {
  stats_now : stats;
  daily_now : daily
}.

(** The scan types with counters. *)
Inductive kind : Type := Email | Sms | Url.

(** What a key of [scan_stats] leads to. *)
Inductive entry : Type :=
  | Counters (k : kind)
  | PieChart.

(** [scan_type in scan_stats], and the entry of the key. *)
Definition find_entry (scan_type : string) : option entry :=
  if String.eqb scan_type "email" then Some (Counters Email)
  else if String.eqb scan_type "sms" then Some (Counters Sms)
  else if String.eqb scan_type "url" then Some (Counters Url)
  else if String.eqb scan_type "pie" then Some PieChart
  else None.

Definition counters_of (k : kind) (s : stats) : counters :=
  match k with
  | Email => email s
  | Sms => sms s
  | Url => url s
  end.

Definition set_counters (k : kind) (c : counters) (s : stats) : stats :=
  match k with
  | Email => {| email := c; sms := sms s; url := url s; pie := pie s |}
  | Sms => {| email := email s; sms := c; url := url s; pie := pie s |}
  | Url => {| email := email s; sms := sms s; url := c; pie := pie s |}
  end.

Definition set_pie (p : pie_counts) (s : stats) : stats :=
  {| email := email s; sms := sms s; url := url s; pie := p |}.

(** The outcome of the calls on the database session: [SessionLocal()],
    the body of the [try] (building the log entry, [db.add], [db.commit]),
    [db.rollback()] and [db.close()]. *)
Record Db : Type := {
  session_local : option exn;
  add_and_commit : option exn;
  rollback : option exn;
  close : option exn
}.

(** [db = SessionLocal()] followed by the [try] statement: what it raises,
    if anything.  An exception of the body is caught and followed by the
    rollback; [db.close()] runs in the [finally] clause, and what it raises
    replaces a pending exception. *)
Definition save_log (db : Db) : option exn :=
  match session_local db with
  | Some e => Some e
  | None =>
      let pending :=
        match add_and_commit db with
        | Some e => if isinstance e Exception_ then rollback db else Some e
        | None => None
        end in
      match close db with
      | Some e => Some e
      | None => pending
      end
  end.

(** [s.upper()] for the three keys that reach the call. *)
Definition upper_char (c : ascii) : ascii :=
  if between 97 122 c then ascii_of_nat (code c - 32) else c.

Fixpoint upper (s : string) : string :=
  match s with
  | EmptyString => EmptyString
  | String c t => String (upper_char c) (upper t)
  end.

(** [update_stats(scan_type, verdict, input_value, summary)]: the state
    after the call, and the exception it ends with, if any. *)
Definition update_stats (db : Db) (today now : string)
    (scan_type verdict input_value summary : string) (st : state)
    : state * option exn :=
  match find_entry scan_type with
  | None => (st, None)
  | Some PieChart => (st, Some (KeyError "total"))
  | Some (Counters k) =>
      let s := stats_now st in
      let c := counters_of k s in
      let p := pie s in
      let d := daily_now st in
      let verdict_lower := lower verdict in
      let '(c1, p1, d1) :=
        if String.eqb verdict_lower "phishing" then
          ({| total := total c + 1; n_safe := n_safe c;
              n_suspicious := n_suspicious c; n_phishing := n_phishing c + 1;
              latest := latest c |},
           {| pie_phishing := pie_phishing p + 1;
              pie_suspicious := pie_suspicious p; pie_safe := pie_safe p |},
           bump_daily today scan_type
             (fun x => {| day_safe := day_safe x;
                          day_phishing := day_phishing x + 1 |}) d)
        else if String.eqb verdict_lower "suspicious" then
          ({| total := total c + 1; n_safe := n_safe c;
              n_suspicious := n_suspicious c + 1; n_phishing := n_phishing c;
              latest := latest c |},
           {| pie_phishing := pie_phishing p;
              pie_suspicious := pie_suspicious p + 1; pie_safe := pie_safe p |},
           bump_daily today scan_type
             (fun x => {| day_safe := day_safe x + 1;
                          day_phishing := day_phishing x |}) d)
        else
          ({| total := total c + 1; n_safe := n_safe c + 1;
              n_suspicious := n_suspicious c; n_phishing := n_phishing c;
              latest := latest c |},
           {| pie_phishing := pie_phishing p;
              pie_suspicious := pie_suspicious p; pie_safe := pie_safe p + 1 |},
           bump_daily today scan_type
             (fun x => {| day_safe := day_safe x + 1;
                          day_phishing := day_phishing x |}) d) in
      let counted :=
        {| stats_now := set_pie p1 (set_counters k c1 s); daily_now := d1 |} in
      match save_log db with
      | Some e => (counted, Some e)
      | None =>
          let new_item :=
            {| item_type := upper scan_type;
               item_summary := if truthy summary then summary else take 50 input_value;
               item_verdict := verdict;
               item_timestamp := now |} in
          let c2 :=
            {| total := total c1; n_safe := n_safe c1;
               n_suspicious := n_suspicious c1; n_phishing := n_phishing c1;
               latest := firstn 10 (new_item :: latest c1) |} in
          ({| stats_now := set_pie p1 (set_counters k c2 s); daily_now := d1 |},
           None)
      end
  end.

End App.

(** ** backend/core_engine/url_checker.py, lines 89 to 108: the rule
    document before the input test

    [analyze_url] reads the entries of the rule document before it looks at
    its argument.  The document is what [json.load] returned, of any JSON
    type; an array is described by what lines 95 to 97 ask of its elements. *)

Module RawRules.
Import Py.

(** An element of a JSON array: a string; null, a boolean or a number; or
    an array or an object. *)
Inductive item : Type :=
  | ItemStr (s : string)
  | ItemScalar
  | ItemContainer.

(** The value of an entry of the document. *)
Inductive entry : Type :=
  | Null
  | Boolean (b : bool)
  | Number
  | Text (s : string)
  | Array (items : list item)
  | Object (keys : list string).

(** What [json.load] returned: a dict, or a value of another type (an
    array, a string, a number, a boolean or null). *)
Inductive document : Type :=
  | Dict (entries : dict entry)
  | NotDict.

(** The exceptions of lines 92 to 98. *)
Inductive error : Type :=
  | AttributeError
  | TypeError.

Inductive outcome (A : Type) : Type :=
  | Returns (a : A)
  | Raises (e : error).

Arguments Returns {A} a.
Arguments Raises {A} e.

Definition and_then {A B : Type} (m : outcome A) (f : A -> outcome B) : outcome B :=
  match m with
  | Returns a => f a
  | Raises e => Raises e
  end.

(** [rules.get(key, default)]: only a dict has the method. *)
Definition get (rules : document) (key : string) (default : entry) : outcome entry :=
  match rules with
  | Dict entries => Returns (dict_get entries key default)
  | NotDict => Raises AttributeError
  end.

(** [for x in v]: the elements of a list, the characters of a string, the
    keys of a dict; nothing else can be iterated. *)
Definition iterate (v : entry) : outcome (list item) :=
  match v with
  | Array items => Returns items
  | Text s => Returns (map (fun c => ItemStr (String c EmptyString)) (list_ascii_of_string s))
  | Object keys => Returns (map ItemStr keys)
  | Null => Raises TypeError
  | Boolean _ => Raises TypeError
  | Number => Raises TypeError
  end.

(** A loop over a list, from left to right, that stops at the first
    exception. *)
Fixpoint for_each {A B : Type} (f : A -> outcome B) (l : list A) : outcome (list B) :=
  match l with
  | [] => Returns []
  | x :: t => and_then (f x) (fun y => and_then (for_each f t) (fun r => Returns (y :: r)))
  end.

(** [tld.replace(".", "")]: only a string has the method. *)
Definition replace_dot (tld : item) : outcome string :=
  match tld with
  | ItemStr s => Returns (replace "." "" s)
  | ItemScalar => Raises AttributeError
  | ItemContainer => Raises AttributeError
  end.

(** An element on its way into a set: a list or a dict cannot be hashed. *)
Definition hash (x : item) : outcome item :=
  match x with
  | ItemContainer => Raises TypeError
  | _ => Returns x
  end.

(** [set(v)] *)
Definition set_of (v : entry) : outcome (list item) :=
  and_then (iterate v) (for_each hash).

(** The five values of lines 92 to 98. *)
Record settings : Type := {
  WEIGHTS : entry;
  SUSPICIOUS_TLDS : list string;
  ROOT_DOMAIN_WHITELIST : list item;
  SUSPICIOUS_PATH_TOKENS : list item;
  DETECT_IP_URLS : entry
}.

Definition read_rules (rules : document) : outcome settings :=
  and_then (get rules "weights" (Object (map fst UrlChecker.default_weights)))
    (fun weights =>
  and_then (and_then (get rules "suspicious_tlds" (Array []))
              (fun v => and_then (iterate v) (for_each replace_dot)))
    (fun tlds =>
  and_then (and_then (get rules "trusted_domains" (Array [])) set_of)
    (fun whitelist =>
  and_then (and_then (get rules "phishing_keywords" (Array [])) set_of)
    (fun tokens =>
  and_then (get rules "detect_ip_urls" (Boolean true))
    (fun detect =>
  Returns {| WEIGHTS := weights; SUSPICIOUS_TLDS := tlds;
             ROOT_DOMAIN_WHITELIST := whitelist;
             SUSPICIOUS_PATH_TOKENS := tokens;
             DETECT_IP_URLS := detect |}))))).

(** [analyze_url] from line 89 to the early return of line 108, for a rule
    file that parsed to [rules]; [rest] is the outcome of the lines after
    the input test. *)
Definition analyze_url (rules : document) (u : pyval)
    (rest : outcome UrlChecker.analysis) : outcome UrlChecker.analysis :=
  and_then (read_rules rules) (fun _ =>
  if falsy u || negb (is_str u) then Returns (UrlChecker.invalid_input u)
  else rest).

(** The document a record of rules stands for: an object with the entries
    the record has, lists of strings, a boolean and a table of numbers. *)
Definition strings (o : option (list string)) (key : string) : dict entry :=
  match o with
  | Some l => [(key, Array (map ItemStr l))]
  | None => []
  end.

Definition document_of (r : UrlChecker.rules) : document :=
  Dict (strings (UrlChecker.suspicious_tlds r) "suspicious_tlds"
        ++ strings (UrlChecker.trusted_domains r) "trusted_domains"
        ++ strings (UrlChecker.phishing_keywords r) "phishing_keywords"
        ++ match UrlChecker.detect_ip_urls r with
           | Some b => [("detect_ip_urls", Boolean b)]
           | None => []
           end
        ++ match UrlChecker.weights r with
           | Some w => [("weights", Object (map fst w))]
           | None => []
           end)%list.

End RawRules.

(** ** A reference instance of the library functions

    Small executable stand-ins for the library calls, enough for URLs of the
    form scheme://host:port/path?query#fragment, host names under a short
    list of public suffixes, and short strings.  They serve to run the
    analyzers on concrete inputs. *)

Module Ref.
Import Py Lib.

(** Cut [s] at the first character that satisfies [p]: the part before it
    and the rest, which starts with that character. *)
Fixpoint break (p : ascii -> bool) (s : string) : string * string :=
  match s with
  | EmptyString => (EmptyString, EmptyString)
  | String c t =>
      if p c then (EmptyString, s)
      else let '(a, b) := break p t in (String c a, b)
  end.

Definition is_char (c : ascii) : ascii -> bool := Ascii.eqb c.

Definition scheme_char (c : ascii) : bool :=
  between 65 90 c || between 97 122 c || between 48 57 c
  || is_char "+" c || is_char "-" c || is_char "." c.

(** The scheme and what follows the colon. *)
Definition split_scheme (u : string) : string * string :=
  let '(pre, rest) := break (is_char ":") u in
  match pre, rest with
  | String c _, String _ after =>
      if (between 65 90 c || between 97 122 c) && all_char scheme_char pre
      then (lower pre, after) else (EmptyString, u)
  | _, _ => (EmptyString, u)
  end.

Definition value_of_digits (s : string) : Z :=
  fold_left (fun acc c => (acc * 10 + Z.of_nat (code c - 48))%Z)
    (list_ascii_of_string s) 0%Z.

(** The host and the port of a network location. *)
Definition host_port (loc : string) : option string * result (option Z) :=
  let hostinfo := last (split "@" loc) in
  let '(h, p) :=
    if startswith hostinfo "["
    then let '(inside, after) := break (is_char "]") (tail hostinfo) in
         (inside, tail after)
    else break (is_char ":") hostinfo in
  let host := if truthy h then Some (lower h) else None in
  let port :=
    match p with
    | String _ digits =>
        if negb (truthy digits) then Ok None
        else if all_char isdigit digits
                && Z.leb (value_of_digits digits) 65535
        then Ok (Some (value_of_digits digits))
        else Raise ValueError
    | EmptyString => Ok None
    end in
  (host, port).

Definition urlparse (u : string) : result ParseResult :=
  let '(sch, rest) := split_scheme u in
  let '(loc, rest) :=
    if startswith rest "//"
    then break (fun c => is_char "/" c || is_char "?" c || is_char "#" c) (drop 2 rest)
    else (EmptyString, rest) in
  let '(rest, _) := break (is_char "#") rest in
  let '(pth, qry) := break (is_char "?") rest in
  let '(host, prt) := host_port loc in
  Ok {| scheme := sch; netloc := loc; hostname := host;
        path := pth; query := tail qry; port := prt |}.

Definition hex_value (c : ascii) : option nat :=
  if between 48 57 c then Some (code c - 48)
  else if between 65 70 c then Some (code c - 55)
  else if between 97 102 c then Some (code c - 87)
  else None.

(** The character an escape at the start of [s] stands for, below [%80]. *)
Definition escape_at (s : string) : option ascii :=
  match s with
  | String c (String h (String l _)) =>
      match hex_value h, hex_value l with
      | Some a, Some b =>
          if is_char "%" c && Nat.ltb (16 * a + b) 128
          then Some (ascii_of_nat (16 * a + b)) else None
      | _, _ => None
      end
  | _ => None
  end.

Fixpoint unquote_from (s : string) (skip : nat) : string :=
  match s with
  | EmptyString => EmptyString
  | String c t =>
      match skip with
      | S k => unquote_from t k
      | O =>
          match escape_at s with
          | Some d => String d (unquote_from t 2)
          | None => String c (unquote_from t 0)
          end
      end
  end.

Definition unquote (s : string) : string := unquote_from s 0.

(** Host names: an IPv4 address has no suffix; otherwise the suffix is the
    longest one of [public_suffixes] the host ends with. *)
Definition public_suffixes : list string :=
  ["com"; "org"; "net"; "edu"; "gov"; "io"; "ly"; "co"; "uk"; "de"; "ru"; "cn";
   "xyz"; "top"; "tk"; "co.uk"; "org.uk"; "gov.uk"; "com.au"].

Definition is_ipv4 (host : string) : bool :=
  let parts := split "." host in
  Nat.eqb (List.length parts) 4
  && forallb (fun s => all_char isdigit s && truthy s) parts.

Definition tld_extract (host : string) : ExtractResult :=
  let labels := split "." host in
  let n := List.length labels in
  let ends (k : nat) := join "." (skipn (n - k) labels) in
  let k :=
    if is_ipv4 host then 0
    else if Nat.leb 2 n && mem (lower (ends 2)) public_suffixes then 2
    else if Nat.leb 1 n && mem (lower (ends 1)) public_suffixes then 1
    else 0 in
  let front := firstn (n - k) labels in
  if is_ipv4 host
  then {| subdomain := ""; domain := host; suffix := "" |}
  else {| subdomain := join "." (removelast front);
          domain := List.last front "";
          suffix := if Nat.eqb k 0 then "" else ends k |}.

(** The Ratcliff-Obershelp similarity of two strings. *)
Fixpoint common_prefix (a b : list ascii) : nat :=
  match a, b with
  | x :: a', y :: b' => if Ascii.eqb x y then S (common_prefix a' b') else 0
  | _, _ => 0
  end.

Fixpoint tails {A : Type} (l : list A) : list (list A) :=
  l :: match l with
       | [] => []
       | _ :: t => tails t
       end.

(** The longest common block [(i, j, k)]: [k] characters at [a[i:]] and
    [b[j:]]; the first such [i], and the first [j] for it. *)
Definition longest_match (a b : list ascii) : nat * nat * nat :=
  fold_left (fun best ia =>
    fold_left (fun best jb =>
      let k := common_prefix (snd ia) (snd jb) in
      if Nat.ltb (snd best) k then (fst ia, fst jb, k) else best)
      (combine (List.seq 0 (S (List.length b))) (tails b)) best)
    (combine (List.seq 0 (S (List.length a))) (tails a)) (0, 0, 0).

Fixpoint matching (fuel : nat) (a b : list ascii) : nat :=
  match fuel with
  | O => 0
  | S fuel' =>
      let '(i, j, k) := longest_match a b in
      if Nat.eqb k 0 then 0
      else k + matching fuel' (firstn i a) (firstn j b)
             + matching fuel' (skipn (i + k) a) (skipn (j + k) b)
  end.

Definition ratio (a b : string) : Q :=
  let la := list_ascii_of_string a in
  let lb := list_ascii_of_string b in
  let total := List.length la + List.length lb in
  if Nat.eqb total 0 then 1%Q
  else (Qnat (2 * matching (S total) la lb) / Qnat total)%Q.

(** The binary logarithm, to the nearest integers of numerator and
    denominator. *)
Definition log2 (x : Q) : Q :=
  inject_Z (Z.log2 (Qnum x) - Z.log2 (Zpos (Qden x))).

(** Iteration over a set in the order of first insertion. *)
Definition set_iter (l : list string) : list string := dedup l.

Definition libs : Libs := {|
  Lib.urlparse := urlparse;
  Lib.unquote := unquote;
  Lib.tld_extract := tld_extract;
  Lib.ratio := ratio;
  Lib.log2 := log2;
  Lib.set_iter := set_iter
|}.

End Ref.

(** ** The words of the specification *)

Module Spec.
Import Py.

(** The verdict as the specification words it: phishing from 65 on,
    suspicious from 30 on, safe below. *)
Definition verdict_rule (score : Z) : Verdict :=
  if Z.leb 65 score then phishing
  else if Z.leb 30 score then suspicious
  else safe.

(** How severe a verdict is. *)
Definition severity (v : Verdict) : nat :=
  match v with
  | safe => 0
  | suspicious => 1
  | phishing => 2
  end.

(** A second-level label at Levenshtein distance 1 or 2 of a brand. *)
Definition close_to (sld brand : string) : bool :=
  Nat.ltb 0 (EmailChecker.levenshtein_distance sld brand)
  && Nat.leb (EmailChecker.levenshtein_distance sld brand) 2.

(** A brand, generic prefixes apart, that occurs in the local part of an
    address whose domain has another second-level label. *)
Definition impersonates (sender_sld local_part brand : string) : bool :=
  negb (mem brand ["support"; "noreply"])
  && contains brand local_part
  && negb (String.eqb sender_sld brand).


(** The trusted domains of the built-in URL rules. *)
Definition built_in_whitelist : list string :=
  get_or (UrlChecker.trusted_domains UrlChecker.default_rules) [].

(** The reason that stands for the absence of findings. *)
Definition sentinel : string := "No obvious automated red flags detected".

(** An argument that is [None] or the empty string. *)
Definition blank (o : option string) : Prop := o = None \/ o = Some "".

(** A list argument that is [None] or empty. *)
Definition no_items (o : option (list string)) : Prop := o = None \/ o = Some [].

End Spec.

(** ** Properties of blocks of statements *)

Module Props.
Import Py Acc.
Local Open Scope acc_scope.

(** A block ends normally from every state. *)
Definition total (m : M unit) : Prop :=
  forall st, exists st', m st = Ok (tt, st').

(** A block only appends reasons, and leaves the score alone unless it
    appends one. *)
Definition quiet (m : M unit) : Prop :=
  forall st st', m st = Ok (tt, st') ->
    exists rs, reasons st' = (reasons st ++ rs)%list /\ (rs = [] -> score st' = score st).

(** A block never lowers the score. *)
Definition grows (m : M unit) : Prop :=
  forall st st', m st = Ok (tt, st') -> (score st <= score st')%Q.





(** The three clamping steps at the end of every analyzer. *)
Definition clamp (score : Q) : Q := Py.min (Py.max (Py.max 0%Q score) 0%Q) 100%Q.

(** The block both brand loops of the email checker run on a match. *)
Definition hit (r : string) (w : Q) (k : string) : M unit :=
  append_reason r ;; add_score w ;; set_indicator k (IBool true).

(** The distance between the prefixes of length [i] and [j] of one string. *)
Definition gap (i j : nat) : nat := (i - j) + (j - i).

End Props.

(** ** The edit-distance table *)

Module Table.

(** The cost of putting one character for another. *)
Definition cost (c1 c2 : ascii) : nat := if Ascii.eqb c1 c2 then 0 else 1.

Definition at_index (l : list ascii) (i : nat) : ascii := nth i l "000"%char.

(** The recurrence of Wagner and Fischer: [table a b i j] is the number of
    insertions, deletions and substitutions that turn the first [i]
    characters of [a] into the first [j] characters of [b]. *)
Fixpoint table (a b : list ascii) (i : nat) {struct i} : nat -> nat :=
  match i with
  | O => fun j => j
  | S i' =>
      fix row (j : nat) : nat :=
        match j with
        | O => S i'
        | S j' =>
            Nat.min
              (Nat.min (table a b i' (S j') + 1) (row j' + 1))
              (table a b i' j' + cost (at_index a i') (at_index b j'))
        end
  end.

End Table.

(** ** The shape of a link *)

Module Links.
Import Py Re.

(** The characters of the two schemes. *)
Definition scheme_char (a : ascii) : bool :=
  existsb (Ascii.eqb a) ["h"; "t"; "p"; "s"; ":"; "/"]%char.

(** What a match of the pattern of [extract_links] looks like. *)
Definition link_shape (link : string) : Prop :=
  (prefix_nocase "http://" link = true \/ prefix_nocase "https://" link = true)
  /\ all_char link_char link = true
  /\ 7 < String.length link.

(** A match stops at the end of the text or before a character the pattern
    excludes. *)
Definition stops (post : string) : Prop :=
  match post with
  | EmptyString => True
  | String c _ => link_char c = false
  end.

End Links.

(** ** Bounds on what a block adds to the score *)

Module Range.
Import Py Acc.

(** A block adds at least [q] to the score. *)
Definition gains (q : Q) (m : M unit) : Prop :=
  forall st st', m st = Ok (tt, st') -> (score st + q <= score st')%Q.

(** A block adds at most [q] to the score. *)
Definition at_most (q : Q) (m : M unit) : Prop :=
  forall st st', m st = Ok (tt, st') -> (score st' <= score st + q)%Q.

(** A block leaves the reason [r] in the list, or puts it there. *)
Definition keeps (r : string) (m : M unit) : Prop :=
  forall st st', m st = Ok (tt, st') -> In r (reasons st) -> In r (reasons st').

Definition says (r : string) (m : M unit) : Prop :=
  forall st st', m st = Ok (tt, st') -> In r (reasons st').

End Range.

(** ** Names for parts of [analyze_url] *)

Module UrlParts.
Import Py Lib.

(** [is_gov_or_cctld] of check 2: the last label of the suffix is [gov] or
    has two characters. *)
Definition is_gov_or_cctld (extracted : ExtractResult) : bool :=
  let suffix_top := last (split "." (lower (suffix extracted))) in
  String.eqb suffix_top "gov" || Nat.eqb (String.length suffix_top) 2.

End UrlParts.

(** ** The size of a counter *)

Module Tally.

(** The sum of the counts of a [Counter]. *)
Definition total_count (cnt : list (ascii * nat)) : nat :=
  fold_right (fun cv n => snd cv + n) 0 cnt.

End Tally.

(** ** What the spelling heuristic of the email checker looks for *)

Module Spelling.
Import Py EmailChecker.

(** Three characters of the class [[il1|]], in either case, at the start of
    [s]. *)
Definition il1_triple_at (s : string) : bool :=
  match s with
  | String a (String b (String c _)) => il1_char a && il1_char b && il1_char c
  | _ => false
  end.

(** Three such characters in a row somewhere in [s]. *)
Fixpoint has_il1_triple (s : string) : bool :=
  il1_triple_at s
  || match s with
     | String _ t => has_il1_triple t
     | EmptyString => false
     end.

(** The reason check 8 gives. *)
Definition reason : string :=
  "Potential spelling errors or typosquatting in sender address".

End Spelling.

(** ** What the statistics of the scans keep *)

Module Ledger.
Import Py App.

(** The key of a scan type in [scan_stats] and [daily_stats]. *)
Definition key_of (k : kind) : string :=
  match k with
  | Email => "email"
  | Sms => "sms"
  | Url => "url"
  end.

(** The sum of one daily counter of a scan type over all dates. *)
Definition daily_sum (f : day_counts -> nat) (scan_type : string) (d : daily) : nat :=
  fold_right
    (fun entry acc => f (get_or (dict_find scan_type (snd entry)) no_day) + acc) 0 d.

(** The counters agree with each other. *)
Definition consistent (st : state) : Prop :=
  let s := stats_now st in
  (forall k,
     total (counters_of k s)
     = n_safe (counters_of k s) + n_suspicious (counters_of k s)
       + n_phishing (counters_of k s))
  /\ pie_phishing (pie s)
     = n_phishing (email s) + n_phishing (sms s) + n_phishing (url s)
  /\ pie_suspicious (pie s)
     = n_suspicious (email s) + n_suspicious (sms s) + n_suspicious (url s)
  /\ pie_safe (pie s) = n_safe (email s) + n_safe (sms s) + n_safe (url s)
  /\ (forall k,
        daily_sum day_phishing (key_of k) (daily_now st)
        = n_phishing (counters_of k s)
        /\ daily_sum day_safe (key_of k) (daily_now st)
           = n_safe (counters_of k s) + n_suspicious (counters_of k s))
  /\ (forall k,
        List.length (latest (counters_of k s)) <= 10
        /\ List.length (latest (counters_of k s)) <= total (counters_of k s)).

(** The states the program can be in: the initial one, and the state after
    a call of [update_stats], whatever its arguments and its outcome. *)
Inductive reachable : state -> Prop :=
  | reach_start :
      reachable {| stats_now := scan_stats; daily_now := daily_stats |}
  | reach_update (db : Db) (today now scan_type verdict input_value summary : string)
      (st : state) :
      reachable st ->
      reachable
        (fst (update_stats db today now scan_type verdict input_value summary st)).

End Ledger.

(** ** The keys of the indicators *)

Module Keys.
Import Py Acc.

(** The key [k] is in the indicators. *)
Definition present (k : string) (st : Acc.t) : Prop :=
  dict_find k (indicators st) <> None.

(** A block leaves the key [k] in the indicators. *)
Definition holds (k : string) (m : M unit) : Prop :=
  forall st st', m st = Ok (tt, st') -> present k st -> present k st'.

(** A block ends with the key [k] in the indicators. *)
Definition sets (k : string) (m : M unit) : Prop :=
  forall st st', m st = Ok (tt, st') -> present k st'.

(** The keys every result of an analyzer carries. *)
Definition url_keys : list string :=
  ["suspicious_tld"; "long_url"; "many_subdomains"; "hyphen_in_domain";
   "punycode"; "suspicious_chars"; "suspicious_path_tokens"; "entropy_score";
   "known_whitelist"].

Definition email_keys : list string :=
  ["suspicious_sender_domain"; "has_links"; "urgent_language"; "info_request";
   "dangerous_attachment"; "too_good_to_be_true"].

Definition sms_keys : list string :=
  ["has_links"; "urgent_language"; "phishing_keywords"; "unexpected_action";
   "info_request"; "too_good_to_be_true"; "no_contact_info"].

End Keys.

(** ** Stripped strings *)

Module Stripped.
Import Py.

(** A string that does not start with white space. *)
Definition clean_start (s : string) : Prop :=
  match s with
  | EmptyString => True
  | String c _ => isspace c = false
  end.

End Stripped.

(** ** The words of a text *)

Module Words.
Import Py.

(** The maximal runs of word characters of a text. *)
Definition words (s : string) : list string := runs_of isword s.

(** How often [kw] is among the strings of [l]. *)
Definition occurrences (kw : string) (l : list string) : nat :=
  List.length (filter (String.eqb kw) l).

(** A keyword that is one word: not empty, word characters only. *)
Definition single_word (kw : string) : bool := truthy kw && all_char isword kw.

(** The word characters a string starts with, and what follows them. *)
Fixpoint word_run (s : string) : string :=
  match s with
  | String c t => if isword c then String c (word_run t) else EmptyString
  | EmptyString => EmptyString
  end.

Fixpoint after_run (s : string) : string :=
  match s with
  | String c t => if isword c then after_run t else s
  | EmptyString => EmptyString
  end.

(** A string that does not start with a word character. *)
Definition clean (s : string) : Prop :=
  match s with
  | EmptyString => True
  | String c _ => isword c = false
  end.

(** A neighbour that is no word character: the start of the text, or a
    character outside [\w]. *)
Definition outside (b : option ascii) : Prop :=
  match b with
  | Some c => isword c = false
  | None => True
  end.

Definition starts_word (s : string) : bool :=
  match s with
  | String c _ => isword c
  | EmptyString => false
  end.

End Words.

(** ** The words of the amended claims *)

Module Wording.
Import Py Lib RawRules.

(** *** Rule documents that pass lines 92 to 98 *)

(** A value that can be iterated, and its elements. *)
Definition iterable (v : entry) : bool :=
  match v with
  | Array _ => true
  | Text _ => true
  | Object _ => true
  | _ => false
  end.

Definition elements (v : entry) : list item :=
  match v with
  | Array items => items
  | Text s => map (fun c => ItemStr (String c EmptyString)) (list_ascii_of_string s)
  | Object keys => map ItemStr keys
  | _ => []
  end.

Definition is_string (x : item) : bool :=
  match x with
  | ItemStr _ => true
  | _ => false
  end.

Definition is_container (x : item) : bool :=
  match x with
  | ItemContainer => true
  | _ => false
  end.

(** An entry that is missing, or can be iterated and has only elements that
    satisfy [ok]. *)
Definition entry_ok (ok : item -> bool) (entries : dict entry) (key : string) : bool :=
  match dict_find key entries with
  | None => true
  | Some v => iterable v && forallb ok (elements v)
  end.

(** A JSON object whose [suspicious_tlds], [trusted_domains] and
    [phishing_keywords], where present, can be iterated, with only strings
    in the first and no array or object in the other two. *)
Definition well_shaped (rules : document) : bool :=
  match rules with
  | NotDict => false
  | Dict entries =>
      entry_ok is_string entries "suspicious_tlds"
      && entry_ok (fun x => negb (is_container x)) entries "trusted_domains"
      && entry_ok (fun x => negb (is_container x)) entries "phishing_keywords"
  end.

(** *** Links and shorteners *)

(** The host of a link: the network location in lower case, without
    "www.". *)
Definition host (L : Libs) (link : string) : option string :=
  match urlparse L link with
  | Ok parsed => Some (replace "www." "" (lower (netloc parsed)))
  | Raise _ => None
  end.



End Wording.

(** ** Facts about the accumulator *)

Module AccFacts.
Import Py Acc.
Export Props.
Local Open Scope acc_scope.

Lemma next_inv (m k : M unit) (st st' : t) :
  (m ;; k) st = Ok (tt, st') ->
  exists mid, m st = Ok (tt, mid) /\ k mid = Ok (tt, st').
Proof.
  unfold next, bind. destruct (m st) as [[[] mid]|e]; [|discriminate].
  intros H. now exists mid.
Qed.

Lemma flag_inv (r : string) (w : result Q) (st st' : t) :
  flag r w st = Ok (tt, st') ->
  exists q, w = Ok q /\ st' = mk (score st + q)%Q (reasons st ++ [r])%list (indicators st).
Proof.
  unfold flag, next, bind, lift, append_reason, add_score. simpl.
  destruct w as [q|e]; [|discriminate]. intros H. exists q. split; [reflexivity|].
  now inversion H.
Qed.

(** *** total *)

Lemma total_ret : total (ret tt).
Proof. intros st. now exists st. Qed.

Lemma total_next (m k : M unit) : total m -> total k -> total (m ;; k).
Proof.
  intros Hm Hk st. destruct (Hm st) as [mid Hmid]. destruct (Hk mid) as [st' Hst'].
  exists st'. unfold next, bind. now rewrite Hmid.
Qed.

Lemma total_when (b : bool) (m : M unit) : (b = true -> total m) -> total (when b m).
Proof. destruct b; simpl; [auto | intros _; apply total_ret]. Qed.

Lemma total_if (b : bool) (m k : M unit) :
  (b = true -> total m) -> (b = false -> total k) -> total (if b then m else k).
Proof. destruct b; auto. Qed.

Lemma total_set_indicator (k : string) (v : ival) : total (set_indicator k v).
Proof. intros st. eexists. reflexivity. Qed.

Lemma total_append_reason (r : string) : total (append_reason r).
Proof. intros st. eexists. reflexivity. Qed.

Lemma total_add_score (w : Q) : total (add_score w).
Proof. intros st. eexists. reflexivity. Qed.

Lemma total_flag (r : string) (w : result Q) (q : Q) : w = Ok q -> total (flag r w).
Proof. intros -> st. eexists. reflexivity. Qed.

Lemma total_get_score (k : Q -> M unit) :
  (forall q, total (k q)) -> total (bind get_score k).
Proof. intros H st. unfold bind, get_score. apply H. Qed.

(** *** quiet *)

Lemma quiet_ret : quiet (ret tt).
Proof.
  intros st st' H. inversion H; subst. exists []. now rewrite app_nil_r.
Qed.

Lemma quiet_next (m k : M unit) : quiet m -> quiet k -> quiet (m ;; k).
Proof.
  intros Hm Hk st st' H. apply next_inv in H as (mid & H1 & H2).
  destruct (Hm _ _ H1) as (r1 & E1 & S1). destruct (Hk _ _ H2) as (r2 & E2 & S2).
  exists (r1 ++ r2)%list. split.
  - now rewrite E2, E1, app_assoc.
  - intros E. apply app_eq_nil in E as [-> ->]. now rewrite S2, S1.
Qed.

Lemma quiet_when (b : bool) (m : M unit) : quiet m -> quiet (when b m).
Proof. destruct b; simpl; [auto | intros _; apply quiet_ret]. Qed.

Lemma quiet_if (b : bool) (m k : M unit) :
  quiet m -> quiet k -> quiet (if b then m else k).
Proof. destruct b; auto. Qed.

Lemma quiet_set_indicator (k : string) (v : ival) : quiet (set_indicator k v).
Proof.
  intros st st' H. inversion H; subst. exists []. simpl. now rewrite app_nil_r.
Qed.

Lemma quiet_flag (r : string) (w : result Q) : quiet (flag r w).
Proof.
  intros st st' H. apply flag_inv in H as (q & _ & ->). exists [r]. simpl.
  split; [reflexivity | discriminate].
Qed.

Lemma quiet_get_score (k : Q -> M unit) :
  (forall q, quiet (k q)) -> quiet (bind get_score k).
Proof. intros H st st' E. unfold bind, get_score in E. now apply (H (score st)). Qed.

(** *** grows *)

Lemma grows_ret : grows (ret tt).
Proof. intros st st' H. inversion H; subst. apply Qle_refl. Qed.

Lemma grows_next (m k : M unit) : grows m -> grows k -> grows (m ;; k).
Proof.
  intros Hm Hk st st' H. apply next_inv in H as (mid & H1 & H2).
  eapply Qle_trans; [apply (Hm _ _ H1) | apply (Hk _ _ H2)].
Qed.

Lemma grows_when (b : bool) (m : M unit) : (b = true -> grows m) -> grows (when b m).
Proof. destruct b; simpl; [auto | intros _; apply grows_ret]. Qed.

Lemma grows_if (b : bool) (m k : M unit) :
  (b = true -> grows m) -> (b = false -> grows k) -> grows (if b then m else k).
Proof. destruct b; auto. Qed.

Lemma grows_set_indicator (k : string) (v : ival) : grows (set_indicator k v).
Proof. intros st st' H. inversion H; subst. apply Qle_refl. Qed.

Lemma grows_append_reason (r : string) : grows (append_reason r).
Proof. intros st st' H. inversion H; subst. apply Qle_refl. Qed.

Lemma grows_add_score (w : Q) : (0 <= w)%Q -> grows (add_score w).
Proof. intros Hw st st' H. inversion H; subst. simpl. lra. Qed.

Lemma grows_flag (r : string) (w : result Q) :
  (forall q, w = Ok q -> (0 <= q)%Q) -> grows (flag r w).
Proof.
  intros Hw st st' H. apply flag_inv in H as (q & E & ->). simpl.
  specialize (Hw q E). lra.
Qed.

Lemma grows_get_score (k : Q -> M unit) :
  (forall q, grows (k q)) -> grows (bind get_score k).
Proof. intros H st st' E. unfold bind, get_score in E. now apply (H (score st)). Qed.

End AccFacts.

(** ** The final step: clamping and the verdict *)

Module Final.
Import Py.
Export Props.

Lemma max_cases (a b : Q) :
  ((a < b)%Q /\ Py.max a b = b) \/ ((b <= a)%Q /\ Py.max a b = a).
Proof. unfold Py.max. destruct (Qlt_le_dec a b); [left | right]; now split. Qed.

Lemma min_cases (a b : Q) :
  ((b < a)%Q /\ Py.min a b = b) \/ ((a <= b)%Q /\ Py.min a b = a).
Proof. unfold Py.min. destruct (Qlt_le_dec b a); [left | right]; now split. Qed.

Lemma int_nonneg (x : Q) : (0 <= x)%Q -> int x = Qfloor x.
Proof. intros H. unfold int. destruct (Qlt_le_dec x 0); [lra | reflexivity]. Qed.

Ltac clamp_cases score :=
  unfold clamp;
  destruct (max_cases 0%Q score) as [[? ->]|[? ->]];
  match goal with |- context [Py.max ?a 0%Q] =>
    destruct (max_cases a 0%Q) as [[? ->]|[? ->]] end;
  match goal with |- context [Py.min ?a 100%Q] =>
    destruct (min_cases a 100%Q) as [[? ->]|[? ->]] end.

Lemma clamp_range (score : Q) : (0 <= clamp score /\ clamp score <= 100)%Q.
Proof. clamp_cases score; split; lra. Qed.

Lemma clamp_inside (score : Q) :
  (0 <= score)%Q -> (score <= 100)%Q -> (clamp score == score)%Q.
Proof. intros H0 H100. clamp_cases score; lra. Qed.

Lemma clamp_low (score : Q) : (score <= 0)%Q -> (clamp score == 0)%Q.
Proof. intros H. clamp_cases score; lra. Qed.

Lemma clamp_high (score : Q) : (100 <= score)%Q -> (clamp score == 100)%Q.
Proof. intros H. clamp_cases score; lra. Qed.

Lemma clamp_mono (a b : Q) : (a <= b)%Q -> (clamp a <= clamp b)%Q.
Proof.
  intros Hab. destruct (Qlt_le_dec a 0) as [Ha|Ha].
  { rewrite (clamp_low a) by lra. apply clamp_range. }
  destruct (Qlt_le_dec 100 b) as [Hb|Hb].
  { rewrite (clamp_high b) by lra. apply clamp_range. }
  rewrite (clamp_inside a), (clamp_inside b) by lra. assumption.
Qed.

(** [int(min(max(max(0, score), 0), 100))] lies in [0, 100]. *)
Lemma mapped_bounds (score : Q) : (0 <= int (clamp score) <= 100)%Z.
Proof.
  destruct (clamp_range score) as [H0 H100]. rewrite int_nonneg by assumption. split.
  - change 0%Z with (Qfloor 0). now apply Qfloor_resp_le.
  - change 100%Z with (Qfloor 100). now apply Qfloor_resp_le.
Qed.

Lemma mapped_mono (a b : Q) : (a <= b)%Q -> (int (clamp a) <= int (clamp b))%Z.
Proof.
  intros H. rewrite !int_nonneg by apply clamp_range.
  apply Qfloor_resp_le. now apply clamp_mono.
Qed.

Lemma mapped_zero (score : Q) : (score <= 0)%Q -> int (clamp score) = 0%Z.
Proof.
  intros H. rewrite int_nonneg by apply clamp_range.
  rewrite (Qfloor_comp _ _ (clamp_low score H)). reflexivity.
Qed.

(** A score of at least [n] maps to at least [n], up to 100. *)
Lemma mapped_at_least (score : Q) (n : Z) :
  (n <= 100)%Z -> (inject_Z n <= score)%Q -> (n <= int (clamp score))%Z.
Proof.
  intros Hn H. destruct (Z_lt_le_dec n 0) as [Hneg|Hpos].
  { pose proof (mapped_bounds score). lia. }
  assert (E : int (clamp (inject_Z n)) = n).
  { rewrite int_nonneg by apply clamp_range.
    rewrite (Qfloor_comp _ (inject_Z n)); [apply Qfloor_Z|].
    apply clamp_inside.
    - change 0%Q with (inject_Z 0). now rewrite <- Zle_Qle.
    - change 100%Q with (inject_Z 100). now rewrite <- Zle_Qle. }
  rewrite <- E at 1. now apply mapped_mono.
Qed.

End Final.

Create HintDb quiet.
Create HintDb total.
Create HintDb grows.

#[export] Hint Resolve
  AccFacts.quiet_ret AccFacts.quiet_next AccFacts.quiet_when AccFacts.quiet_if
  AccFacts.quiet_set_indicator AccFacts.quiet_flag : quiet.

#[export] Hint Resolve
  AccFacts.total_ret AccFacts.total_next AccFacts.total_set_indicator
  AccFacts.total_append_reason AccFacts.total_add_score : total.

#[export] Hint Resolve
  AccFacts.grows_ret AccFacts.grows_next AccFacts.grows_set_indicator
  AccFacts.grows_append_reason : grows.

(** Goals [total m], for blocks whose weights are known. *)
Ltac total_step :=
  first
    [ apply AccFacts.total_ret
    | apply AccFacts.total_set_indicator
    | eapply AccFacts.total_flag; reflexivity
    | apply AccFacts.total_next
    | apply AccFacts.total_when; intros _
    | apply AccFacts.total_if; intros _
    | apply AccFacts.total_get_score; intros ? ].

(** Goals [grows m], for blocks whose weights are known and not negative. *)
Ltac grows_step :=
  first
    [ apply AccFacts.grows_ret
    | apply AccFacts.grows_set_indicator
    | apply AccFacts.grows_flag;
      let q := fresh "q" in let E := fresh "E" in
      intros q E; vm_compute in E; inversion E; subst; vm_compute; discriminate
    | apply AccFacts.grows_next
    | apply AccFacts.grows_when; intros _
    | apply AccFacts.grows_if; intros _
    | apply AccFacts.grows_get_score; intros ? ].

(** ** The URL checker *)

Module UrlFacts.
Import Py Lib Config Acc AccFacts UrlChecker.

Lemma url_checks_quiet (L : Libs) (r : rules) (original host path query : string)
    (extracted : ExtractResult) (root_domain subdomain : string) :
  quiet (checks L r original host path query extracted root_domain subdomain).
Proof.
  unfold checks. destruct (is_similar_to_whitelisted _ _ _) as [w m].
  unfold check_ip, check_tld, check_length, check_subdomains, check_hyphen,
    check_punycode, check_chars, check_path_tokens, check_entropy,
    check_whitelist, check_domain_tokens.
  cbv zeta.
  repeat first [ apply quiet_flag | apply quiet_set_indicator | apply quiet_ret
               | apply quiet_next | apply quiet_when | apply quiet_if
               | match goal with
                 | |- quiet (match ?o with Some _ => _ | None => _ end) =>
                     destruct o as [[? ?]|]
                 end ].
Qed.

(** With the built-in weights no check raises. *)
Lemma url_checks_total (L : Libs) (original host path query : string)
    (extracted : ExtractResult) (root_domain subdomain : string) :
  total (checks L default_rules original host path query extracted
           root_domain subdomain).
Proof.
  unfold checks. destruct (is_similar_to_whitelisted _ _ _) as [w m].
  unfold check_ip, check_tld, check_length, check_subdomains, check_hyphen,
    check_punycode, check_chars, check_path_tokens, check_entropy,
    check_whitelist, check_domain_tokens.
  cbv zeta.
  repeat first [ total_step
               | match goal with
                 | |- total (match ?o with Some _ => _ | None => _ end) =>
                     destruct o as [[? ?]|]
                 end ].
Qed.

End UrlFacts.

(** ** The email checker *)

Module EmailFacts.
Import Py Lib Config Acc AccFacts EmailChecker.
Local Open Scope acc_scope.

Lemma hit_run (r : string) (w : Q) (k : string) (st : Acc.t) :
  hit r w k st
  = Ok (tt, mk (Acc.score st + w)%Q (Acc.reasons st ++ [r])%list
              (dict_set k (IBool true) (Acc.indicators st))).
Proof. reflexivity. Qed.

Lemma hit_quiet (r : string) (w : Q) (k : string) : quiet (hit r w k).
Proof.
  intros st st' H. rewrite hit_run in H. inversion H; subst. exists [r]. simpl.
  split; [reflexivity | discriminate].
Qed.

Lemma hit_total (r : string) (w : Q) (k : string) : total (hit r w k).
Proof. intros st. eexists. apply hit_run. Qed.

Lemma hit_grows (r : string) (w : Q) (k : string) : (0 <= w)%Q -> grows (hit r w k).
Proof.
  intros Hw st st' H. rewrite hit_run in H. inversion H; subst. simpl. lra.
Qed.

Section Loops.

Variable L : Libs.
Variable P : M unit -> Prop.
Hypothesis P_ret : P (ret tt).
Hypothesis P_hit : forall r w k, (0 <= w)%Q -> P (hit r w k).
Hypothesis P_flag : forall r k q, dict_index WEIGHTS k = Ok q -> (0 <= q)%Q ->
  P (flag r (dict_index WEIGHTS k)).
Hypothesis P_set : forall k v m, P m -> P (set_indicator k v ;; m).

(** Every way through a brand loop ends in [ret tt] or in one [hit]. *)
Lemma typosquat_loop_cases (sender_domain sld : string) (brands : list string) :
  P (typosquat_loop sender_domain sld brands).
Proof.
  induction brands as [|brand rest IH]; simpl; [exact P_ret|].
  destruct (String.eqb sld brand); [exact IH|].
  match goal with |- P (if ?c then _ else _) => destruct c end; [|exact IH].
  apply P_hit. lra.
Qed.

Lemma local_part_loop_cases (sender_domain local_part : string) (brands : list string) :
  P (local_part_loop L sender_domain local_part brands).
Proof.
  induction brands as [|brand rest IH]; simpl; [exact P_ret|].
  repeat match goal with |- P (if ?c then _ else _) => destruct c end;
    try exact IH.
  apply P_hit. lra.
Qed.

Lemma mismatch_loop_cases (sender_domain : string) (links : list string) :
  P (mismatch_loop L sender_domain links).
Proof.
  induction links as [|link rest IH]; simpl; [exact P_ret|].
  destruct (urlparse L link) as [parsed|e]; [|destruct e; exact IH].
  repeat match goal with |- P (if ?c then _ else _) => destruct c end;
    try exact IH.
  apply P_set. now apply (P_flag _ _ 20%Q).
Qed.

End Loops.

Lemma set_then_quiet (k : string) (v : ival) (m : M unit) :
  quiet m -> quiet (set_indicator k v ;; m).
Proof. auto with quiet. Qed.

Lemma set_then_total (k : string) (v : ival) (m : M unit) :
  total m -> total (set_indicator k v ;; m).
Proof. auto with total. Qed.

Lemma set_then_grows (k : string) (v : ival) (m : M unit) :
  grows m -> grows (set_indicator k v ;; m).
Proof. auto with grows. Qed.

Lemma hit_quiet_weight (r : string) (w : Q) (k : string) :
  (0 <= w)%Q -> quiet (hit r w k).
Proof. intros _. apply hit_quiet. Qed.

Lemma hit_total_weight (r : string) (w : Q) (k : string) :
  (0 <= w)%Q -> total (hit r w k).
Proof. intros _. apply hit_total. Qed.

Lemma flag_quiet_weights (r k : string) (q : Q) :
  dict_index WEIGHTS k = Ok q -> (0 <= q)%Q -> quiet (flag r (dict_index WEIGHTS k)).
Proof. intros _ _. apply quiet_flag. Qed.

Lemma flag_total_weights (r k : string) (q : Q) :
  dict_index WEIGHTS k = Ok q -> (0 <= q)%Q -> total (flag r (dict_index WEIGHTS k)).
Proof. intros E _. now apply (total_flag _ _ q). Qed.

Lemma flag_grows_weights (r k : string) (q : Q) :
  dict_index WEIGHTS k = Ok q -> (0 <= q)%Q -> grows (flag r (dict_index WEIGHTS k)).
Proof. intros E Hq. apply grows_flag. intros q' E'. congruence. Qed.

Ltac loops P_ret P_hit P_flag P_set :=
  first
    [ apply typosquat_loop_cases
    | apply local_part_loop_cases
    | apply mismatch_loop_cases ];
  first [ exact P_ret | intros; apply P_hit; assumption
        | intros; eapply P_flag; eassumption | intros; apply P_set; assumption ].

Ltac unfold_checks :=
  unfold checks, check_typosquatting, check_local_part, check_sender_domain,
    check_links, check_urgent, check_info, check_attachments, check_promo,
    check_subject, check_spelling, check_greeting;
  cbv zeta.

Lemma email_checks_quiet (L : Libs) (r : rules) (sender subject content : string)
    (attachments : list string) :
  quiet (checks L r sender subject content attachments).
Proof.
  unfold_checks.
  repeat first
    [ apply quiet_flag | apply quiet_set_indicator | apply quiet_ret
    | loops quiet_ret hit_quiet_weight flag_quiet_weights set_then_quiet
    | apply quiet_next | apply quiet_when | apply quiet_if ].
Qed.

(** The weights of the email checker are constants: no check raises. *)
Lemma email_checks_total (L : Libs) (r : rules) (sender subject content : string)
    (attachments : list string) :
  total (checks L r sender subject content attachments).
Proof.
  unfold_checks.
  repeat first
    [ loops total_ret hit_total_weight flag_total_weights set_then_total
    | total_step ].
Qed.

(** And none of them lowers the score. *)
Lemma email_checks_grow (L : Libs) (r : rules) (sender subject content : string)
    (attachments : list string) :
  grows (checks L r sender subject content attachments).
Proof.
  unfold_checks.
  repeat first
    [ loops grows_ret hit_grows flag_grows_weights set_then_grows
    | grows_step ].
Qed.

End EmailFacts.

(** ** The SMS checker *)

Module SmsFacts.
Import Py Lib Config Acc AccFacts SmsChecker.
Local Open Scope acc_scope.

Ltac unfold_checks :=
  unfold checks, check_number, check_links, check_urgent, check_keywords,
    check_unexpected, check_info, check_promo, check_bank, check_contact,
    check_sender_name, check_format;
  cbv zeta.

Lemma sms_checks_quiet (L : Libs) (r : rules) (sender number content : string) :
  quiet (checks L r sender number content).
Proof.
  unfold_checks.
  repeat first
    [ apply quiet_flag | apply quiet_set_indicator | apply quiet_ret
    | apply quiet_get_score; intros ?
    | apply quiet_next | apply quiet_when | apply quiet_if ].
Qed.

(** The weight of the keyword check under the built-in weights. *)
Lemma keyword_weight (n : nat) :
  (0 <= Py.min (15 * (Qnat n / 2)) (15 * 2))%Q.
Proof.
  assert (H : (0 <= Qnat n)%Q).
  { unfold Qnat. change 0%Q with (inject_Z 0). rewrite <- Zle_Qle. lia. }
  destruct (Final.min_cases (15 * (Qnat n / 2))%Q (15 * 2)%Q) as [[_ ->]|[_ ->]].
  - lra.
  - apply Qmult_le_0_compat; [lra|]. apply Qle_shift_div_l; lra.
Qed.

(** With the built-in weights no check raises. *)
Lemma sms_checks_total (L : Libs) (sender number content : string) :
  total (checks L default_rules sender number content).
Proof. unfold_checks. repeat total_step. Qed.

(** And none of them lowers the score. *)
Lemma sms_checks_grow (L : Libs) (sender number content : string) :
  grows (checks L default_rules sender number content).
Proof.
  unfold_checks.
  repeat first
    [ apply grows_flag; intros q E; cbn in E; inversion E; subst;
      apply keyword_weight
    | grows_step ].
Qed.

End SmsFacts.

(** ** What a returned result is made of *)

Module Shape.
Import Py Lib Config Acc.

(** A result of [analyze_url] is the early return or the end of a scan. *)
Lemma url_result (L : Libs) (f : rules_file UrlChecker.rules) (u : pyval)
    (r : UrlChecker.analysis) :
  UrlChecker.analyze_url L f u = Ok r ->
  exists rules, UrlChecker.load_url_rules f = Ok rules /\
    ((falsy u || negb (is_str u) = true /\ r = UrlChecker.invalid_input u)
     \/ (exists text original info st,
           u = PyStr text /\ truthy text = true /\
           UrlChecker.scan L rules text = Ok (original, info, st) /\
           r = UrlChecker.finish original info st)).
Proof.
  unfold UrlChecker.analyze_url. destruct (UrlChecker.load_url_rules f) as [rules|e];
    simpl; [|discriminate].
  intros H. exists rules. split; [reflexivity|].
  destruct (falsy u || negb (is_str u)) eqn:E.
  - left. inversion H. now split.
  - right. destruct u as [| | | |text|]; simpl in E; rewrite ?orb_true_r in E;
      try discriminate.
    apply orb_false_iff in E as [E _]. apply negb_false_iff in E.
    unfold UrlChecker.analyze_text in H.
    destruct (UrlChecker.scan L rules text) as [[[original info] st]|e] eqn:Es;
      simpl in H; [|discriminate].
    inversion H. exists text, original, info, st. auto.
Qed.

(** The state a scan ends in comes out of the checks. *)
Lemma scan_checks (L : Libs) (rules : UrlChecker.rules) (text original : string)
    (info : UrlChecker.parsed_info) (st : Acc.t) :
  UrlChecker.scan L rules text = Ok (original, info, st) ->
  exists host path query extracted root_domain subdomain,
    UrlChecker.checks L rules original host path query extracted root_domain
      subdomain Acc.start = Ok (tt, st).
Proof.
  unfold UrlChecker.scan.
  destruct (urlparse L _) as [parsed|e]; simpl; [|discriminate].
  destruct (port parsed) as [p|e]; simpl; [|discriminate].
  match goal with |- context [UrlChecker.checks ?a ?b ?c ?d ?e ?f ?g ?h ?i ?j] =>
    destruct (UrlChecker.checks a b c d e f g h i j) as [[[] st']|e'] eqn:E end;
    simpl; [|discriminate].
  intros H. inversion H; subst. eauto 10.
Qed.

Lemma email_result (L : Libs) (f : rules_file EmailChecker.rules)
    (sender subject content : option string) (attachments : option (list string))
    (r : EmailChecker.analysis) :
  EmailChecker.analyze_email L f sender subject content attachments = Ok r ->
  exists rules st,
    EmailChecker.load_email_rules f = Ok rules /\
    EmailChecker.checks L rules (strip (get_or sender "")) (strip (get_or subject ""))
      (strip (get_or content "")) (get_or attachments []) Acc.start = Ok (tt, st) /\
    r = EmailChecker.finish (strip (get_or sender "")) (strip (get_or subject ""))
          (EmailChecker.extract_links
             (lower (strip (get_or subject "") ++ " " ++ strip (get_or content ""))))
          (get_or attachments []) st.
Proof.
  unfold EmailChecker.analyze_email.
  destruct (EmailChecker.load_email_rules f) as [rules|e]; simpl; [|discriminate].
  match goal with |- context [EmailChecker.checks ?a ?b ?c ?d ?e ?f ?g] =>
    destruct (EmailChecker.checks a b c d e f g) as [[[] st]|e'] eqn:E end;
    simpl; [|discriminate].
  intros H. inversion H. exists rules, st. auto.
Qed.

Lemma sms_result (L : Libs) (f : rules_file SmsChecker.rules)
    (sender number content : option string) (r : SmsChecker.analysis) :
  SmsChecker.analyze_sms L f sender number content = Ok r ->
  exists rules st,
    SmsChecker.load_sms_rules f = Ok rules /\
    SmsChecker.checks L rules (strip (get_or sender "")) (strip (get_or number ""))
      (strip (get_or content "")) Acc.start = Ok (tt, st) /\
    r = SmsChecker.finish (strip (get_or sender "")) (strip (get_or number ""))
          (strip (get_or content ""))
          (SmsChecker.extract_links (strip (get_or content ""))) st.
Proof.
  unfold SmsChecker.analyze_sms.
  destruct (SmsChecker.load_sms_rules f) as [rules|e]; simpl; [|discriminate].
  match goal with |- context [SmsChecker.checks ?a ?b ?c ?d ?e ?f] =>
    destruct (SmsChecker.checks a b c d e f) as [[[] st]|e'] eqn:E end;
    simpl; [|discriminate].
  intros H. inversion H. exists rules, st. auto.
Qed.

End Shape.

Import Py Lib Config.

(** ** Score, verdict and reasons of every result *)

(** C1.  For every input, the score of the result returned by [analyze_url],
    [analyze_email] and [analyze_sms] is an integer between 0 and 100,
    whatever the accumulated weight was before the final clamp. *)
Theorem score_between_0_and_100 :
  (forall (L : Libs) f u r,
     UrlChecker.analyze_url L f u = Ok r ->
     (0 <= UrlChecker.score r <= 100)%Z)
  /\ (forall (L : Libs) f sender subject content attachments r,
        EmailChecker.analyze_email L f sender subject content attachments = Ok r ->
        (0 <= EmailChecker.score r <= 100)%Z)
  /\ (forall (L : Libs) f sender number content r,
        SmsChecker.analyze_sms L f sender number content = Ok r ->
        (0 <= SmsChecker.score r <= 100)%Z).
Proof.
  split; [|split].
  - intros L f u r H.
    apply Shape.url_result in H as (rules & _ & [[_ ->]|(t & o & i & st & _ & _ & _ & ->)]).
    + simpl. lia.
    + apply Final.mapped_bounds.
  - intros L f s1 s2 c a r H.
    apply Shape.email_result in H as (rules & st & _ & _ & ->). apply Final.mapped_bounds.
  - intros L f s n c r H.
    apply Shape.sms_result in H as (rules & st & _ & _ & ->). apply Final.mapped_bounds.
Qed.

(** The bound at work: a trusted URL whose weights sum to -40, an email
    whose weights sum to 165 and an SMS with a shortened link. *)
Lemma score_between_0_and_100_witness :
  (exists r,
     UrlChecker.analyze_url Ref.libs Absent (PyStr "https://www.google.com/search?q=x")
     = Ok r /\ (0 <= UrlChecker.score r <= 100)%Z)
  /\ (exists r,
        EmailChecker.analyze_email Ref.libs Absent (Some "admin@googie.com")
          (Some "URGENT: verify your password") (Some "Dear user, you won a prize")
          None = Ok r /\ (0 <= EmailChecker.score r <= 100)%Z)
  /\ (exists r,
        SmsChecker.analyze_sms Ref.libs Absent None None
          (Some "Claim your gift at https://bit.ly/x") = Ok r
        /\ (0 <= SmsChecker.score r <= 100)%Z).
Proof.
  split; [|split].
  - eexists. split; [vm_compute; reflexivity|].
    apply (proj1 score_between_0_and_100 Ref.libs Absent
             (PyStr "https://www.google.com/search?q=x")).
    vm_compute. reflexivity.
  - eexists. split; [vm_compute; reflexivity|].
    apply (proj1 (proj2 score_between_0_and_100) Ref.libs Absent
             (Some "admin@googie.com") (Some "URGENT: verify your password")
             (Some "Dear user, you won a prize") None).
    vm_compute. reflexivity.
  - eexists. split; [vm_compute; reflexivity|].
    apply (proj2 (proj2 score_between_0_and_100) Ref.libs Absent None None
             (Some "Claim your gift at https://bit.ly/x")).
    vm_compute. reflexivity.
Defined.

(** C2.  The verdict of every result is the fixed function of its score the
    specification gives: phishing from 65 on, suspicious from 30 on, safe
    below; and a higher score never has a less severe verdict. *)
Theorem verdict_is_threshold_function :
  (forall (L : Libs) f u r,
     UrlChecker.analyze_url L f u = Ok r ->
     UrlChecker.verdict r = Spec.verdict_rule (UrlChecker.score r))
  /\ (forall (L : Libs) f sender subject content attachments r,
        EmailChecker.analyze_email L f sender subject content attachments = Ok r ->
        EmailChecker.verdict r = Spec.verdict_rule (EmailChecker.score r))
  /\ (forall (L : Libs) f sender number content r,
        SmsChecker.analyze_sms L f sender number content = Ok r ->
        SmsChecker.verdict r = Spec.verdict_rule (SmsChecker.score r))
  /\ (forall s1 s2 : Z,
        (s1 < s2)%Z ->
        Spec.severity (Spec.verdict_rule s1) <= Spec.severity (Spec.verdict_rule s2)).
Proof.
  split; [|split; [|split]].
  - intros L f u r H.
    apply Shape.url_result in H as (rules & _ & [[_ ->]|(t & o & i & st & _ & _ & _ & ->)]);
      reflexivity.
  - intros L f s1 s2 c a r H.
    apply Shape.email_result in H as (rules & st & _ & _ & ->). reflexivity.
  - intros L f s n c r H.
    apply Shape.sms_result in H as (rules & st & _ & _ & ->). reflexivity.
  - intros s1 s2 H. unfold Spec.verdict_rule.
    destruct (Z.leb_spec 65 s1), (Z.leb_spec 30 s1), (Z.leb_spec 65 s2),
      (Z.leb_spec 30 s2); simpl; lia.
Qed.

Lemma verdict_is_threshold_function_witness :
  (exists r,
     UrlChecker.analyze_url Ref.libs Absent (PyStr "http://192.168.1.1/login") = Ok r
     /\ UrlChecker.verdict r = Spec.verdict_rule (UrlChecker.score r))
  /\ (exists r,
        EmailChecker.analyze_email Ref.libs Absent (Some "admin@googie.com") None None
          None = Ok r
        /\ EmailChecker.verdict r = Spec.verdict_rule (EmailChecker.score r))
  /\ (exists r,
        SmsChecker.analyze_sms Ref.libs Absent None None
          (Some "Claim your gift at https://bit.ly/x") = Ok r
        /\ SmsChecker.verdict r = Spec.verdict_rule (SmsChecker.score r))
  /\ ((29 < 30)%Z
      /\ Spec.severity (Spec.verdict_rule 29) <= Spec.severity (Spec.verdict_rule 30)).
Proof.
  split; [|split; [|split; [|split]]].
  - eexists. split; [vm_compute; reflexivity|].
    apply (proj1 verdict_is_threshold_function Ref.libs Absent
             (PyStr "http://192.168.1.1/login")).
    vm_compute. reflexivity.
  - eexists. split; [vm_compute; reflexivity|].
    apply (proj1 (proj2 verdict_is_threshold_function) Ref.libs Absent
             (Some "admin@googie.com") None None None).
    vm_compute. reflexivity.
  - eexists. split; [vm_compute; reflexivity|].
    apply (proj1 (proj2 (proj2 verdict_is_threshold_function)) Ref.libs Absent
             None None (Some "Claim your gift at https://bit.ly/x")).
    vm_compute. reflexivity.
  - lia.
  - apply (proj2 (proj2 (proj2 verdict_is_threshold_function)) 29%Z 30%Z). lia.
Defined.

(** ** Reasons *)

Module ReasonFacts.
Import Py Lib Config Acc AccFacts.

(** Checks that end without a reason have left the score at zero. *)
Lemma silent_run (m : M unit) (st : Acc.t) :
  quiet m -> m Acc.start = Ok (tt, st) -> Acc.reasons st = [] ->
  Acc.score st = 0%Q.
Proof.
  intros Hq Hrun Hnil. destruct (Hq _ _ Hrun) as (rs & E & S).
  simpl in E. rewrite Hnil in E. symmetry in E. now apply S.
Qed.

Lemma or_sentinel_nonempty (rs : list string) :
  match rs with
  | [] => ["No obvious automated red flags detected"]
  | r :: rest => r :: rest
  end <> [].
Proof. destruct rs; discriminate. Qed.

End ReasonFacts.

(** C9.  The reasons of every returned result are a non-empty list.  When
    the checks ran and none of them recorded a reason, the list is exactly
    the sentinel "No obvious automated red flags detected" (and the score is
    0); otherwise it is the list the checks recorded. *)
Theorem reasons_never_empty :
  (forall (L : Libs) f u r,
     UrlChecker.analyze_url L f u = Ok r ->
     UrlChecker.reasons r <> []
     /\ forall rules text original info st,
          UrlChecker.load_url_rules f = Ok rules ->
          u = PyStr text -> truthy text = true ->
          UrlChecker.scan L rules text = Ok (original, info, st) ->
          (Acc.reasons st = [] ->
           UrlChecker.reasons r = [Spec.sentinel] /\ UrlChecker.score r = 0%Z)
          /\ (Acc.reasons st <> [] -> UrlChecker.reasons r = Acc.reasons st))
  /\ (forall (L : Libs) f sender subject content attachments r,
        EmailChecker.analyze_email L f sender subject content attachments = Ok r ->
        EmailChecker.reasons r <> []
        /\ forall rules st,
             EmailChecker.load_email_rules f = Ok rules ->
             EmailChecker.checks L rules (strip (get_or sender ""))
               (strip (get_or subject "")) (strip (get_or content ""))
               (get_or attachments []) Acc.start = Ok (tt, st) ->
             (Acc.reasons st = [] ->
              EmailChecker.reasons r = [Spec.sentinel] /\ EmailChecker.score r = 0%Z)
             /\ (Acc.reasons st <> [] -> EmailChecker.reasons r = Acc.reasons st))
  /\ (forall (L : Libs) f sender number content r,
        SmsChecker.analyze_sms L f sender number content = Ok r ->
        SmsChecker.reasons r <> []
        /\ forall rules st,
             SmsChecker.load_sms_rules f = Ok rules ->
             SmsChecker.checks L rules (strip (get_or sender ""))
               (strip (get_or number "")) (strip (get_or content ""))
               Acc.start = Ok (tt, st) ->
             (Acc.reasons st = [] ->
              SmsChecker.reasons r = [Spec.sentinel] /\ SmsChecker.score r = 0%Z)
             /\ (Acc.reasons st <> [] -> SmsChecker.reasons r = Acc.reasons st)).
Proof.
  split; [|split].
  - intros L f u r H.
    apply Shape.url_result in H
      as (rules & Hl & [[Hbad ->]|(t & o & i & st & -> & Ht & Hs & ->)]).
    + split; [discriminate|].
      intros rules' text o i st _ -> Ht _. simpl in Hbad. rewrite Ht in Hbad.
      discriminate.
    + split; [simpl; apply ReasonFacts.or_sentinel_nonempty|].
      intros rules' text o' i' st' Hl' E _ Hs'.
      inversion E; subst text. rewrite Hl in Hl'. inversion Hl'; subst rules'.
      rewrite Hs in Hs'. inversion Hs'; subst o' i' st'. simpl.
      split.
      * intros Hnil. rewrite Hnil. split; [reflexivity|].
        apply Shape.scan_checks in Hs as (h & p & q & e & rd & sd & Hc).
        unfold UrlChecker.mapped_score. cbv zeta.
        rewrite (ReasonFacts.silent_run _ _ (UrlFacts.url_checks_quiet _ _ _ _ _ _ _ _ _) Hc Hnil).
        reflexivity.
      * intros Hne. destruct (Acc.reasons st); [contradiction | reflexivity].
  - intros L f s1 s2 c a r H.
    apply Shape.email_result in H as (rules & st & Hl & Hc & ->).
    split; [simpl; apply ReasonFacts.or_sentinel_nonempty|].
    intros rules' st' Hl' Hc'. rewrite Hl in Hl'. inversion Hl'; subst rules'.
    rewrite Hc in Hc'. inversion Hc'; subst st'. simpl. split.
    + intros Hnil. rewrite Hnil. split; [reflexivity|].
      unfold EmailChecker.mapped_score. cbv zeta.
      rewrite (ReasonFacts.silent_run _ _ (EmailFacts.email_checks_quiet _ _ _ _ _ _) Hc Hnil).
      reflexivity.
    + intros Hne. destruct (Acc.reasons st); [contradiction | reflexivity].
  - intros L f s n c r H.
    apply Shape.sms_result in H as (rules & st & Hl & Hc & ->).
    split; [simpl; apply ReasonFacts.or_sentinel_nonempty|].
    intros rules' st' Hl' Hc'. rewrite Hl in Hl'. inversion Hl'; subst rules'.
    rewrite Hc in Hc'. inversion Hc'; subst st'. simpl. split.
    + intros Hnil. rewrite Hnil. split; [reflexivity|].
      unfold SmsChecker.mapped_score. cbv zeta.
      rewrite (ReasonFacts.silent_run _ _ (SmsFacts.sms_checks_quiet _ _ _ _ _) Hc Hnil).
      reflexivity.
    + intros Hne. destruct (Acc.reasons st); [contradiction | reflexivity].
Qed.

(** The three analyzers on inputs no check objects to: the sentinel. *)
Lemma reasons_never_empty_witness :
  (exists r,
     UrlChecker.analyze_url Ref.libs Absent (PyStr "http://wikipedia.org/wiki/Rocq")
     = Ok r
     /\ UrlChecker.reasons r <> []
     /\ UrlChecker.reasons r = [Spec.sentinel])
  /\ (exists r,
        EmailChecker.analyze_email Ref.libs Absent (Some "random@example.com") None
          None None = Ok r
        /\ EmailChecker.reasons r <> []
        /\ EmailChecker.reasons r = [Spec.sentinel])
  /\ (exists r,
        SmsChecker.analyze_sms Ref.libs Absent (Some "Mum") (Some "+31 6 1234 5678")
          (Some "Please call me back") = Ok r
        /\ SmsChecker.reasons r <> []
        /\ SmsChecker.reasons r = [Spec.sentinel]).
Proof.
  split; [|split].
  - eexists. split; [vm_compute; reflexivity|].
    match goal with |- UrlChecker.reasons ?r <> [] /\ _ =>
      destruct (proj1 reasons_never_empty Ref.libs Absent
                  (PyStr "http://wikipedia.org/wiki/Rocq") r) as [H1 H2]
    end; [vm_compute; reflexivity|].
    split; [exact H1|].
    edestruct H2 as [Hs _];
      [reflexivity | reflexivity | reflexivity | vm_compute; reflexivity |].
    apply Hs. reflexivity.
  - eexists. split; [vm_compute; reflexivity|].
    match goal with |- EmailChecker.reasons ?r <> [] /\ _ =>
      destruct (proj1 (proj2 reasons_never_empty) Ref.libs Absent
                  (Some "random@example.com") None None None r) as [H1 H2]
    end; [vm_compute; reflexivity|].
    split; [exact H1|].
    edestruct H2 as [Hs _]; [reflexivity | vm_compute; reflexivity |].
    apply Hs. reflexivity.
  - eexists. split; [vm_compute; reflexivity|].
    match goal with |- SmsChecker.reasons ?r <> [] /\ _ =>
      destruct (proj2 (proj2 reasons_never_empty) Ref.libs Absent
                  (Some "Mum") (Some "+31 6 1234 5678") (Some "Please call me back") r)
        as [H1 H2]
    end; [vm_compute; reflexivity|].
    split; [exact H1|].
    edestruct H2 as [Hs _]; [reflexivity | vm_compute; reflexivity |].
    apply Hs. reflexivity.
Defined.

(** ** Empty and invalid input *)

(** C10.  With the built-in rules, [analyze_email] and [analyze_sms] called
    with every argument [None] or empty return score 0, verdict safe and the
    sentinel as only reason; [analyze_url] on the empty string returns score
    100 and verdict phishing. *)
Theorem blank_email_and_sms_are_safe :
  (forall (L : Libs) sender subject content attachments,
     Spec.blank sender -> Spec.blank subject -> Spec.blank content ->
     Spec.no_items attachments ->
     exists r,
       EmailChecker.analyze_email L Absent sender subject content attachments = Ok r
       /\ EmailChecker.score r = 0%Z
       /\ EmailChecker.verdict r = safe
       /\ EmailChecker.reasons r = [Spec.sentinel])
  /\ (forall (L : Libs) sender number content,
        Spec.blank sender -> Spec.blank number -> Spec.blank content ->
        exists r,
          SmsChecker.analyze_sms L Absent sender number content = Ok r
          /\ SmsChecker.score r = 0%Z
          /\ SmsChecker.verdict r = safe
          /\ SmsChecker.reasons r = [Spec.sentinel])
  /\ (forall (L : Libs),
        exists r,
          UrlChecker.analyze_url L Absent (PyStr "") = Ok r
          /\ UrlChecker.score r = 100%Z
          /\ UrlChecker.verdict r = phishing).
Proof.
  split; [|split].
  - intros L sender subject content attachments [-> | ->] [-> | ->] [-> | ->] [-> | ->];
      eexists; (split; [vm_compute; reflexivity|]); repeat split.
  - intros L sender number content [-> | ->] [-> | ->] [-> | ->];
      eexists; (split; [vm_compute; reflexivity|]); repeat split.
  - intros L. eexists. split; [vm_compute; reflexivity|]. split; reflexivity.
Qed.

Lemma blank_email_and_sms_are_safe_witness :
  (exists r,
     EmailChecker.analyze_email Ref.libs Absent None (Some "") None (Some []) = Ok r
     /\ EmailChecker.score r = 0%Z
     /\ EmailChecker.verdict r = safe
     /\ EmailChecker.reasons r = [Spec.sentinel])
  /\ (exists r,
        SmsChecker.analyze_sms Ref.libs Absent (Some "") None (Some "") = Ok r
        /\ SmsChecker.score r = 0%Z
        /\ SmsChecker.verdict r = safe
        /\ SmsChecker.reasons r = [Spec.sentinel]).
Proof.
  split.
  - apply (proj1 blank_email_and_sms_are_safe Ref.libs None (Some "") None (Some []));
      unfold Spec.blank, Spec.no_items; auto.
  - apply (proj1 (proj2 blank_email_and_sms_are_safe) Ref.libs (Some "") None (Some ""));
      unfold Spec.blank; auto.
Defined.

(** ** The rule document before the input test *)

Module RawFacts.
Import RawRules Wording.

Lemma for_each_all {A B : Type} (f : A -> outcome B) (ok : A -> bool) (l : list A) :
  (forall x, ok x = true -> exists y, f x = Returns y) ->
  forallb ok l = true -> exists r, for_each f l = Returns r.
Proof.
  intros Hf. induction l as [|x t IH]; intros H; [now exists []|].
  simpl in H. apply andb_true_iff in H as [Hx Ht].
  destruct (Hf x Hx) as [y Ey]. destruct (IH Ht) as [r Er].
  exists (y :: r). simpl. now rewrite Ey, Er.
Qed.

Lemma for_each_some {A B : Type} (f : A -> outcome B) (ok : A -> bool) (l : list A) :
  (forall x, ok x = true -> exists y, f x = Returns y) ->
  (forall x, ok x = false -> exists e, f x = Raises e) ->
  forallb ok l = false -> exists e, for_each f l = Raises e.
Proof.
  intros Hy Hn. induction l as [|x t IH]; intros H; [discriminate|].
  simpl in H. destruct (ok x) eqn:Ex.
  - destruct (Hy x Ex) as [y Ey]. destruct (IH H) as [e Ee].
    exists e. simpl. now rewrite Ey, Ee.
  - destruct (Hn x Ex) as [e Ee]. exists e. simpl. now rewrite Ee.
Qed.

Lemma iterate_elements (v : entry) :
  iterable v = true -> iterate v = Returns (elements v).
Proof. destruct v; simpl; intros H; (reflexivity || discriminate). Qed.

Lemma iterate_fails (v : entry) :
  iterable v = false -> iterate v = Raises TypeError.
Proof. destruct v; simpl; intros H; (reflexivity || discriminate). Qed.

(** An entry is read without an exception exactly when it is missing or
    has the shape the line asks for. *)
Lemma entry_read {B : Type} (f : item -> outcome B) (ok : item -> bool)
    (entries : dict entry) (key : string) :
  (forall x, ok x = true -> exists y, f x = Returns y) ->
  (forall x, ok x = false -> exists e, f x = Raises e) ->
  (entry_ok ok entries key = true ->
   exists r,
     and_then (get (Dict entries) key (Array []))
       (fun v => and_then (iterate v) (for_each f)) = Returns r)
  /\ (entry_ok ok entries key = false ->
      exists e,
        and_then (get (Dict entries) key (Array []))
          (fun v => and_then (iterate v) (for_each f)) = Raises e).
Proof.
  intros Hy Hn. unfold entry_ok, get, dict_get. cbn [and_then].
  destruct (dict_find key entries) as [v|].
  - destruct (iterable v) eqn:Ei.
    + rewrite (iterate_elements v Ei). cbn [and_then andb]. split; intros H.
      * now apply (for_each_all f ok).
      * now apply (for_each_some f ok).
    + rewrite (iterate_fails v Ei). cbn [and_then andb]. split; intros H;
        [discriminate | now exists TypeError].
  - split; intros H; [now exists [] | discriminate].
Qed.

Lemma replace_dot_string (x : item) :
  is_string x = true -> exists y, replace_dot x = Returns y.
Proof. destruct x; simpl; intros H; try discriminate. eexists. reflexivity. Qed.

Lemma replace_dot_other (x : item) :
  is_string x = false -> exists e, replace_dot x = Raises e.
Proof. destruct x; simpl; intros H; try discriminate; now exists AttributeError. Qed.

Lemma hash_plain (x : item) :
  negb (is_container x) = true -> exists y, hash x = Returns y.
Proof. destruct x; simpl; intros H; try discriminate; eexists; reflexivity. Qed.

Lemma hash_container (x : item) :
  negb (is_container x) = false -> exists e, hash x = Raises e.
Proof. destruct x; simpl; intros H; try discriminate. now exists TypeError. Qed.

(** Lines 92 to 98 end without an exception exactly on the documents of
    [well_shaped]. *)
Lemma read_rules_shape (rules : document) :
  (well_shaped rules = true -> exists s, read_rules rules = Returns s)
  /\ (well_shaped rules = false -> exists e, read_rules rules = Raises e).
Proof.
  destruct rules as [entries|];
    [|split; intros H; [discriminate | now exists AttributeError]].
  unfold well_shaped, read_rules. cbn [get and_then].
  destruct (entry_read replace_dot is_string entries "suspicious_tlds"
              replace_dot_string replace_dot_other) as [T1 T0].
  destruct (entry_read hash (fun x => negb (is_container x)) entries
              "trusted_domains" hash_plain hash_container) as [W1 W0].
  destruct (entry_read hash (fun x => negb (is_container x)) entries
              "phishing_keywords" hash_plain hash_container) as [K1 K0].
  unfold set_of. cbn [get and_then] in *.
  destruct (entry_ok is_string entries "suspicious_tlds").
  - destruct (T1 eq_refl) as [t ->]. cbn [and_then andb].
    destruct (entry_ok _ entries "trusted_domains").
    + destruct (W1 eq_refl) as [w ->]. cbn [and_then andb].
      destruct (entry_ok _ entries "phishing_keywords").
      * destruct (K1 eq_refl) as [k ->]. cbn [and_then].
        split; intros H; [eexists; reflexivity | discriminate].
      * destruct (K0 eq_refl) as [e ->]. cbn [and_then].
        split; intros H; [discriminate | now exists e].
    + destruct (W0 eq_refl) as [e ->]. cbn [and_then andb].
      split; intros H; [discriminate | now exists e].
  - destruct (T0 eq_refl) as [e ->]. cbn [and_then andb].
    split; intros H; [discriminate | now exists e].
Qed.

Lemma forallb_strings (l : list string) : forallb is_string (map ItemStr l) = true.
Proof. induction l; simpl; auto. Qed.

Lemma forallb_plain (l : list string) :
  forallb (fun x => negb (is_container x)) (map ItemStr l) = true.
Proof. induction l; simpl; auto. Qed.

(** The documents of the records of rules are among them. *)
Lemma document_of_shape (r : UrlChecker.rules) : well_shaped (document_of r) = true.
Proof.
  destruct r as [tlds trusted keywords detect weights].
  unfold document_of, well_shaped, entry_ok, strings. cbn [UrlChecker.suspicious_tlds
    UrlChecker.trusted_domains UrlChecker.phishing_keywords UrlChecker.detect_ip_urls
    UrlChecker.weights].
  destruct tlds as [t|], trusted as [w|], keywords as [k|], detect as [b|],
    weights as [ws|]; cbn;
    rewrite ?forallb_strings, ?forallb_plain; reflexivity.
Qed.

End RawFacts.

(** C4, as the code has it.  For every empty or non-string [url] argument,
    [analyze_url] returns score 100, verdict phishing, the single reason
    "No URL provided or wrong type" and the indicator [invalid_input], and
    raises nothing, once the rule file has loaded to a document that passes
    lines 92 to 98: a JSON object whose [suspicious_tlds], [trusted_domains]
    and [phishing_keywords], where present, can be iterated, with only
    strings in the first and no array or object in the other two.  On a
    document of another shape the call raises before the input test, and
    when the loader raises the call raises the same.  The documents of the
    records of rules have that shape. *)
Theorem invalid_url_is_maximal_risk :
  (forall (L : Libs) (f : rules_file UrlChecker.rules) (rules : UrlChecker.rules)
          (u : pyval),
     UrlChecker.load_url_rules f = Ok rules ->
     falsy u || negb (is_str u) = true ->
     exists r,
       UrlChecker.analyze_url L f u = Ok r
       /\ UrlChecker.url r = u
       /\ UrlChecker.score r = 100%Z
       /\ UrlChecker.verdict r = phishing
       /\ UrlChecker.reasons r = ["No URL provided or wrong type"]
       /\ UrlChecker.indicators r = [("invalid_input", Acc.IBool true)]
       /\ UrlChecker.parsed r = None)
  /\ (forall (rules : RawRules.document) (u : pyval) rest,
        falsy u || negb (is_str u) = true ->
        (Wording.well_shaped rules = true ->
         RawRules.analyze_url rules u rest
         = RawRules.Returns (UrlChecker.invalid_input u))
        /\ (Wording.well_shaped rules = false ->
            exists e, RawRules.analyze_url rules u rest = RawRules.Raises e))
  /\ (forall rules : UrlChecker.rules,
        Wording.well_shaped (RawRules.document_of rules) = true)
  /\ (forall (L : Libs) (f : rules_file UrlChecker.rules) (u : pyval) e,
        UrlChecker.load_url_rules f = Raise e ->
        UrlChecker.analyze_url L f u = Raise e).
Proof.
  split; [|split; [|split]].
  - intros L f rules u Hl Hu. exists (UrlChecker.invalid_input u).
    unfold UrlChecker.analyze_url. rewrite Hl. simpl. rewrite Hu.
    repeat split.
  - intros rules u rest Hu. unfold RawRules.analyze_url.
    destruct (RawFacts.read_rules_shape rules) as [H1 H0]. split; intros H.
    + destruct (H1 H) as [s ->]. cbn [RawRules.and_then]. now rewrite Hu.
    + destruct (H0 H) as [e ->]. now exists e.
  - exact RawFacts.document_of_shape.
  - intros L f u e H. unfold UrlChecker.analyze_url. now rewrite H.
Qed.

Lemma invalid_url_is_maximal_risk_witness :
  (exists r,
     UrlChecker.analyze_url Ref.libs Absent PyNone = Ok r
     /\ UrlChecker.url r = PyNone
     /\ UrlChecker.score r = 100%Z
     /\ UrlChecker.verdict r = phishing
     /\ UrlChecker.reasons r = ["No URL provided or wrong type"]
     /\ UrlChecker.indicators r = [("invalid_input", Acc.IBool true)]
     /\ UrlChecker.parsed r = None)
  /\ (exists r,
        UrlChecker.analyze_url Ref.libs (Document UrlChecker.default_rules) (PyInt 42)
        = Ok r
        /\ UrlChecker.url r = PyInt 42
        /\ UrlChecker.score r = 100%Z
        /\ UrlChecker.verdict r = phishing
        /\ UrlChecker.reasons r = ["No URL provided or wrong type"]
        /\ UrlChecker.indicators r = [("invalid_input", Acc.IBool true)]
        /\ UrlChecker.parsed r = None)
  /\ RawRules.analyze_url
       (RawRules.Dict [("trusted_domains", RawRules.Text "example.org");
                       ("detect_ip_urls", RawRules.Null)])
       (PyStr "") (RawRules.Raises RawRules.TypeError)
     = RawRules.Returns (UrlChecker.invalid_input (PyStr "")).
Proof.
  split; [|split].
  - apply (proj1 invalid_url_is_maximal_risk Ref.libs Absent UrlChecker.default_rules
             PyNone); reflexivity.
  - apply (proj1 invalid_url_is_maximal_risk Ref.libs
             (Document UrlChecker.default_rules) UrlChecker.default_rules (PyInt 42));
      reflexivity.
  - apply (proj1 (proj2 invalid_url_is_maximal_risk) _ (PyStr "")); reflexivity.
Defined.

(** C4 as stated fails: the reason of the early return is not "invalid
    input"; with a rule file that is not JSON, or cannot be read, the call
    raises before it looks at the argument; and so it does with a rule file
    that holds a JSON array, or an object whose [suspicious_tlds] is null or
    lists a number, or whose [trusted_domains] lists an array. *)
Lemma invalid_url_counterexample :
  (exists r,
     UrlChecker.analyze_url Ref.libs Absent (PyStr "") = Ok r
     /\ UrlChecker.reasons r <> ["invalid input"])
  /\ UrlChecker.analyze_url Ref.libs Garbled PyNone = Raise JSONDecodeError
  /\ UrlChecker.analyze_url Ref.libs Denied PyNone = Raise PermissionError
  /\ RawRules.analyze_url
       (RawRules.Dict [("suspicious_tlds", RawRules.Array [RawRules.ItemScalar])])
       PyNone (RawRules.Returns (UrlChecker.invalid_input PyNone))
     = RawRules.Raises RawRules.AttributeError
  /\ RawRules.analyze_url
       (RawRules.Dict [("trusted_domains", RawRules.Array [RawRules.ItemContainer])])
       PyNone (RawRules.Returns (UrlChecker.invalid_input PyNone))
     = RawRules.Raises RawRules.TypeError
  /\ RawRules.analyze_url RawRules.NotDict PyNone
       (RawRules.Returns (UrlChecker.invalid_input PyNone))
     = RawRules.Raises RawRules.AttributeError
  /\ RawRules.analyze_url
       (RawRules.Dict [("suspicious_tlds", RawRules.Null)]) PyNone
       (RawRules.Returns (UrlChecker.invalid_input PyNone))
     = RawRules.Raises RawRules.TypeError.
Proof.
  split; [eexists; split; [reflexivity | simpl; discriminate]|].
  repeat split.
Qed.

(** ** The rule loader *)

(** C3 as stated fails: a rule file that is not JSON, or cannot be read,
    makes each loader raise, and the analysis call with it. *)
Lemma corrupt_rules_counterexample :
  UrlChecker.load_url_rules Garbled = Raise JSONDecodeError
  /\ EmailChecker.load_email_rules Garbled = Raise JSONDecodeError
  /\ SmsChecker.load_sms_rules Garbled = Raise JSONDecodeError
  /\ UrlChecker.load_url_rules Denied = Raise PermissionError
  /\ UrlChecker.analyze_url Ref.libs Garbled (PyStr "https://www.google.com/")
     = Raise JSONDecodeError
  /\ EmailChecker.analyze_email Ref.libs Garbled (Some "random@example.com") None
       None None = Raise JSONDecodeError
  /\ SmsChecker.analyze_sms Ref.libs Garbled None None (Some "hello")
     = Raise JSONDecodeError.
Proof. repeat split. Qed.

Module LoaderFacts.
Import Acc AccFacts.

(** With no rule file, [analyze_url] raises only what [urlparse] or its
    [port] raised. *)
Lemma url_absent (L : Libs) (text : string) :
  match UrlChecker.analyze_text L UrlChecker.default_rules text with
  | Ok _ => True
  | Raise e =>
      urlparse L (UrlChecker.with_scheme (strip text)) = Raise e
      \/ exists parsed,
           urlparse L (UrlChecker.with_scheme (strip text)) = Ok parsed
           /\ port parsed = Raise e
  end.
Proof.
  unfold UrlChecker.analyze_text, UrlChecker.scan. cbv zeta.
  destruct (urlparse L _) as [parsed|e]; simpl; [|now left].
  destruct (port parsed) as [p|e] eqn:Ep; simpl; [|right; now exists parsed].
  match goal with |- context [UrlChecker.checks ?a ?b ?c ?d ?e ?f ?g ?h ?i ?j] =>
    destruct (UrlFacts.url_checks_total a c d e f g h i j) as [st' ->] end.
  exact I.
Qed.

End LoaderFacts.

(** C3, as the code has it.  When the rule file is missing, each loader
    returns the built-in default rules and the configuration makes no
    analysis fail: [analyze_email] and [analyze_sms] return a result for
    every input, and [analyze_url] returns a result unless [urlparse], or
    the port of its result, raises on the URL. *)
Theorem missing_rules_fall_back_to_defaults :
  UrlChecker.load_url_rules Absent = Ok UrlChecker.default_rules
  /\ EmailChecker.load_email_rules Absent = Ok EmailChecker.default_rules
  /\ SmsChecker.load_sms_rules Absent = Ok SmsChecker.default_rules
  /\ (forall (L : Libs) sender subject content attachments,
        exists r,
          EmailChecker.analyze_email L Absent sender subject content attachments
          = Ok r)
  /\ (forall (L : Libs) sender number content,
        exists r, SmsChecker.analyze_sms L Absent sender number content = Ok r)
  /\ (forall (L : Libs) u,
        (exists r, UrlChecker.analyze_url L Absent u = Ok r)
        \/ exists e text,
             u = PyStr text
             /\ UrlChecker.analyze_url L Absent u = Raise e
             /\ (urlparse L (UrlChecker.with_scheme (strip text)) = Raise e
                 \/ exists parsed,
                      urlparse L (UrlChecker.with_scheme (strip text)) = Ok parsed
                      /\ port parsed = Raise e)).
Proof.
  split; [reflexivity|]. split; [reflexivity|]. split; [reflexivity|].
  split; [|split].
  - intros L sender subject content attachments.
    unfold EmailChecker.analyze_email. simpl.
    match goal with |- context [EmailChecker.checks ?a ?b ?c ?d ?e ?f ?g] =>
      destruct (EmailFacts.email_checks_total a b c d e f g) as [st ->] end.
    simpl. eauto.
  - intros L sender number content.
    unfold SmsChecker.analyze_sms. simpl.
    match goal with |- context [SmsChecker.checks ?a ?b ?c ?d ?e ?f] =>
      destruct (SmsFacts.sms_checks_total a c d e f) as [st ->] end.
    simpl. eauto.
  - intros L u. unfold UrlChecker.analyze_url. simpl.
    destruct (falsy u || negb (is_str u)) eqn:E; [left; eauto|].
    destruct u as [| | | |text|]; try (left; eauto; fail).
    pose proof (LoaderFacts.url_absent L text) as H.
    destruct (UrlChecker.analyze_text L UrlChecker.default_rules text) as [r|e];
      [left; eauto|].
    right. exists e, text. auto.
Qed.

(** ** The Levenshtein distance of a string to itself *)

Module Levenshtein.
Import EmailChecker Props.

(** One pass of the inner loop over a row of gaps gives the next row. *)
Lemma row_tail_gap (c1 : ascii) (i : nat) (s2 : list ascii) :
  forall j,
    (forall c, j <= i -> nth_error s2 (i - j) = Some c -> c = c1) ->
    row_tail c1 s2 (map (gap i) (seq j (S (List.length s2)))) (gap (S i) j)
    = map (gap (S i)) (seq (S j) (List.length s2)).
Proof.
  induction s2 as [|c2 s2 IH]; intros j Hc; [reflexivity|].
  cbn [List.length seq map row_tail].
  assert (Hcell :
    Nat.min (Nat.min (gap i (S j) + 1) (gap (S i) j + 1))
      (gap i j + (if Ascii.eqb c1 c2 then 0 else 1)) = gap (S i) (S j)).
  { unfold gap. destruct (Nat.lt_trichotomy i j) as [Hlt|[Heq|Hgt]].
    - destruct (Ascii.eqb c1 c2); lia.
    - subst j. rewrite (Hc c2); [|lia|now rewrite Nat.sub_diag].
      rewrite Ascii.eqb_refl. lia.
    - destruct (Ascii.eqb c1 c2); lia. }
  rewrite Hcell. f_equal.
  apply (IH (S j)). intros c Hle Hn. apply Hc; [lia|].
  replace (i - j) with (S (i - S j)) by lia. exact Hn.
Qed.

(** The outer loop, started in the row of the prefix of length [i]. *)
Lemma rows_gap (s : list ascii) :
  forall (done todo : list ascii),
    s = (done ++ todo)%list ->
    rows todo (List.length done) s
      (map (gap (List.length done)) (seq 0 (S (List.length s))))
    = map (gap (List.length s)) (seq 0 (S (List.length s))).
Proof.
  intros done todo. revert done.
  induction todo as [|c1 todo IH]; intros done E.
  - rewrite app_nil_r in E. subst done. reflexivity.
  - cbn [rows].
    replace (List.length done + 1) with (gap (S (List.length done)) 0)
      by (unfold gap; lia).
    rewrite row_tail_gap.
    + specialize (IH (done ++ [c1])%list).
      rewrite length_app in IH. cbn [List.length] in IH.
      replace (List.length done + 1) with (S (List.length done)) in IH by lia.
      rewrite <- IH by (now rewrite <- app_assoc).
      reflexivity.
    + intros c _ Hn. rewrite Nat.sub_0_r, E, nth_error_app2 in Hn by lia.
      rewrite Nat.sub_diag in Hn. now inversion Hn.
Qed.

Lemma last_map_seq (f : nat -> nat) (n : nat) :
  List.last (map f (seq 0 (S n))) 0 = f n.
Proof.
  rewrite seq_S, map_app. cbn [map]. now rewrite last_last.
Qed.

Lemma length_list_ascii (s : string) :
  List.length (list_ascii_of_string s) = String.length s.
Proof. induction s as [|c s IH]; simpl; congruence. Qed.

(** A string is at distance 0 from itself. *)
Lemma levenshtein_distance_refl (s : string) : levenshtein_distance s s = 0.
Proof.
  unfold levenshtein_distance. rewrite Nat.ltb_irrefl. unfold distance_ordered.
  destruct (Nat.eqb_spec (String.length s) 0) as [E|_]; [exact E|].
  pose proof (rows_gap (list_ascii_of_string s) [] (list_ascii_of_string s) eq_refl) as H.
  cbn [List.length] in H. rewrite length_list_ascii in H.
  replace (String.length s + 1) with (S (String.length s)) by lia.
  replace (seq 0 (S (String.length s)))
    with (map (gap 0) (seq 0 (S (String.length s)))).
  - rewrite H, last_map_seq. unfold gap. lia.
  - rewrite <- (map_id (seq 0 (S (String.length s)))) at 2.
    apply map_ext. intros a. unfold gap. lia.
Qed.

End Levenshtein.

(** ** The two brand loops of the email checker *)

Module BrandFacts.
Import Acc AccFacts EmailChecker EmailFacts.
Local Open Scope acc_scope.

(** The typosquatting loop stops at the first brand at distance 1 or 2 and
    adds 75 once; with no such brand it changes nothing. *)
Lemma typosquat_loop_run (sender_domain sld : string) (brands : list string)
    (st : Acc.t) :
  typosquat_loop sender_domain sld brands st
  = Ok (tt,
        match find (Spec.close_to sld) brands with
        | Some brand =>
            mk (Acc.score st + 75)%Q
               (Acc.reasons st
                ++ [("Typosquatting detected: '" ++ sender_domain
                     ++ "' mimics trusted brand '" ++ brand ++ "'")%string])%list
               (dict_set "typosquatting" (IBool true) (Acc.indicators st))
        | None => st
        end).
Proof.
  induction brands as [|brand rest IH]; [reflexivity|].
  cbn [typosquat_loop find]. unfold Spec.close_to at 1.
  destruct (String.eqb_spec sld brand) as [->|Hne].
  - rewrite Levenshtein.levenshtein_distance_refl. exact IH.
  - destruct (String.eqb brand "the5ers");
      destruct (Nat.ltb 0 (levenshtein_distance sld brand)
                && Nat.leb (levenshtein_distance sld brand) 2);
      first [exact IH | reflexivity].
Qed.

(** The local-part loop stops at the first brand that is not a generic
    prefix, occurs in the local part and is not the label of the domain. *)
Lemma local_part_loop_run (L : Libs) (sender_domain local_part : string)
    (brands : list string) (st : Acc.t) :
  local_part_loop L sender_domain local_part brands st
  = Ok (tt,
        match
          find (Spec.impersonates
                  (if truthy sender_domain
                   then lower (domain (tld_extract L sender_domain)) else "")
                  local_part) brands
        with
        | Some brand =>
            mk (Acc.score st + 55)%Q
               (Acc.reasons st
                ++ [("Trusted brand '" ++ brand
                     ++ "' found in local-part of email (potential impersonation)")%string])%list
               (dict_set "brand_impersonation_local" (IBool true) (Acc.indicators st))
        | None => st
        end).
Proof.
  induction brands as [|brand rest IH]; [reflexivity|].
  cbn [local_part_loop find]. unfold Spec.impersonates at 1.
  destruct (mem brand ["support"; "noreply"]); [exact IH|].
  destruct (contains brand local_part); [|exact IH].
  cbn [negb andb].
  destruct (String.eqb _ brand); cbn [negb]; [exact IH | reflexivity].
Qed.

Lemma next_run (m k : M unit) (st mid : Acc.t) :
  m st = Ok (tt, mid) -> (m ;; k) st = k mid.
Proof. intros H. unfold next, bind. now rewrite H. Qed.

End BrandFacts.

(** ** Typosquatting and impersonation in the sender of an email *)

Module SenderFacts.
Import Acc AccFacts EmailChecker EmailFacts BrandFacts.
Local Open Scope acc_scope.

(** A score of 65 or more is phishing. *)
Lemma finish_phishing (sender subject : string) (links attachments : list string)
    (st : Acc.t) :
  (65 <= Acc.score st)%Q ->
  verdict (finish sender subject links attachments st) = phishing.
Proof.
  intros H. simpl.
  assert (H65 : (65 <= mapped_score (Acc.score st))%Z)
    by (apply Final.mapped_at_least; [lia | exact H]).
  destruct (Z.leb_spec 65 (mapped_score (Acc.score st))); [reflexivity | lia].
Qed.

(** Once the typosquatting check has fired, the other checks only add. *)
Lemma checks_after_typo (L : Libs) (r : rules) (sender subject content : string)
    (attachments : list string) (brand : string) :
  truthy (extract_domain_from_email sender) = true ->
  In brand TRUSTED_BRANDS ->
  Spec.close_to
    (lower (domain (tld_extract L (extract_domain_from_email sender)))) brand = true ->
  exists st,
    checks L r sender subject content attachments Acc.start = Ok (tt, st)
    /\ (75 <= Acc.score st)%Q.
Proof.
  intros Hd Hin Hclose.
  destruct (email_checks_total L r sender subject content attachments Acc.start)
    as [st Hst].
  exists st. split; [exact Hst|].
  unfold checks in Hst. cbv zeta in Hst.
  apply next_inv in Hst as (mid & Hmid & Hrest).
  unfold check_typosquatting in Hmid. rewrite Hd in Hmid. cbv zeta in Hmid.
  cbn [when] in Hmid. rewrite typosquat_loop_run in Hmid.
  destruct (find _ TRUSTED_BRANDS) as [b|] eqn:Ef.
  - inversion Hmid; subst mid. clear Hmid.
    eapply Qle_trans; [|revert Hrest; match goal with |- ?k _ = _ -> _ =>
      assert (Hg : grows k) end; [|apply Hg]].
    + simpl. lra.
    + unfold check_local_part, check_sender_domain, check_links, check_urgent,
        check_info, check_attachments, check_promo, check_subject, check_spelling,
        check_greeting.
      cbv zeta.
      repeat first
        [ loops grows_ret hit_grows flag_grows_weights set_then_grows
        | grows_step ].
  - exfalso. apply (find_none _ _ Ef) in Hin. congruence.
Qed.

End SenderFacts.

(** C5.  [analyze_email] with sender "admin@googie.com" and no other field
    returns verdict phishing.  In general a sender whose second-level label
    is at Levenshtein distance 1 or 2 of a trusted brand gets verdict
    phishing whatever else the email holds, and the loop over the brands
    adds its weight of 75 once, at the first brand within that distance. *)
Theorem typosquat_sender_is_phishing :
  (forall (L : Libs) f rules,
     EmailChecker.load_email_rules f = Ok rules ->
     tld_extract L "googie.com"
     = {| subdomain := ""; domain := "googie"; suffix := "com" |} ->
     exists r,
       EmailChecker.analyze_email L f (Some "admin@googie.com") None None None = Ok r
       /\ EmailChecker.verdict r = phishing)
  /\ (forall (L : Libs) f rules sender subject content attachments brand,
        EmailChecker.load_email_rules f = Ok rules ->
        truthy (EmailChecker.extract_domain_from_email (strip (get_or sender "")))
        = true ->
        In brand EmailChecker.TRUSTED_BRANDS ->
        Spec.close_to
          (lower (domain (tld_extract L
             (EmailChecker.extract_domain_from_email (strip (get_or sender ""))))))
          brand = true ->
        exists r,
          EmailChecker.analyze_email L f sender subject content attachments = Ok r
          /\ EmailChecker.verdict r = phishing
          /\ (75 <= EmailChecker.score r)%Z)
  /\ (forall sender_domain sld brands st,
        EmailChecker.typosquat_loop sender_domain sld brands st
        = Ok (tt,
              match find (Spec.close_to sld) brands with
              | Some brand =>
                  Acc.mk (Acc.score st + 75)%Q
                    (Acc.reasons st
                     ++ [("Typosquatting detected: '" ++ sender_domain
                          ++ "' mimics trusted brand '" ++ brand ++ "'")%string])%list
                    (dict_set "typosquatting" (Acc.IBool true) (Acc.indicators st))
              | None => st
              end)).
Proof.
  assert (General :
    forall (L : Libs) f rules sender subject content attachments brand,
      EmailChecker.load_email_rules f = Ok rules ->
      truthy (EmailChecker.extract_domain_from_email (strip (get_or sender "")))
      = true ->
      In brand EmailChecker.TRUSTED_BRANDS ->
      Spec.close_to
        (lower (domain (tld_extract L
           (EmailChecker.extract_domain_from_email (strip (get_or sender ""))))))
        brand = true ->
      exists r,
        EmailChecker.analyze_email L f sender subject content attachments = Ok r
        /\ EmailChecker.verdict r = phishing
        /\ (75 <= EmailChecker.score r)%Z).
  { intros L f rules sender subject content attachments brand Hl Hd Hin Hclose.
    destruct (SenderFacts.checks_after_typo L rules _ (strip (get_or subject ""))
                (strip (get_or content "")) (get_or attachments []) brand Hd Hin Hclose)
      as (st & Hst & Hscore).
    unfold EmailChecker.analyze_email. rewrite Hl. cbn [rbind]. cbv zeta.
    rewrite Hst. cbn [rbind snd]. eexists. split; [reflexivity|]. split.
    - apply SenderFacts.finish_phishing. lra.
    - simpl. apply Final.mapped_at_least; [lia | exact Hscore]. }
  split; [|split].
  - intros L f rules Hl Htld.
    destruct (General L f rules (Some "admin@googie.com") None None None "google" Hl)
      as (r & Hr & Hv & _).
    + reflexivity.
    + simpl. auto.
    + change (EmailChecker.extract_domain_from_email
                (strip (get_or (Some "admin@googie.com") ""))) with "googie.com".
      rewrite Htld. reflexivity.
    + now exists r.
  - exact General.
  - exact BrandFacts.typosquat_loop_run.
Qed.

Lemma typosquat_sender_is_phishing_witness :
  (exists r,
     EmailChecker.analyze_email Ref.libs Absent (Some "admin@googie.com") None None
       None = Ok r
     /\ EmailChecker.verdict r = phishing)
  /\ (exists r,
        EmailChecker.analyze_email Ref.libs Absent (Some "pay@0pay.com")
          (Some "Invoice") (Some "See attachment") (Some ["invoice.txt"]) = Ok r
        /\ EmailChecker.verdict r = phishing
        /\ (75 <= EmailChecker.score r)%Z).
Proof.
  split.
  - apply (proj1 typosquat_sender_is_phishing Ref.libs Absent
             EmailChecker.default_rules); reflexivity.
  - apply (proj1 (proj2 typosquat_sender_is_phishing) Ref.libs Absent
             EmailChecker.default_rules (Some "pay@0pay.com") (Some "Invoice")
             (Some "See attachment") (Some ["invoice.txt"]) "opay");
      [reflexivity | reflexivity | simpl; auto 10 | vm_compute; reflexivity].
Defined.

(** C7.  With the built-in rules, [analyze_email] with sender
    "googlesecurity@gmail.com" and no other field returns verdict phishing:
    the brand "google" in the local part adds 55 and the sender domain
    another 20.  In general the loop over the brands adds 55 once, at the
    first brand, generic prefixes apart, that occurs in the local part and is
    not the second-level label of the sender domain. *)
Theorem local_part_impersonation_is_phishing :
  (forall (L : Libs),
     tld_extract L "gmail.com"
     = {| subdomain := ""; domain := "gmail"; suffix := "com" |} ->
     exists r,
       EmailChecker.analyze_email L Absent (Some "googlesecurity@gmail.com") None None
         None = Ok r
       /\ EmailChecker.verdict r = phishing
       /\ EmailChecker.score r = 75%Z
       /\ EmailChecker.reasons r
          = ["Trusted brand 'google' found in local-part of email (potential impersonation)";
             "Sender domain 'gmail.com' is commonly used in phishing"])
  /\ (forall (L : Libs) sender_domain local_part brands st,
        EmailChecker.local_part_loop L sender_domain local_part brands st
        = Ok (tt,
              match
                find (Spec.impersonates
                        (if truthy sender_domain
                         then lower (domain (tld_extract L sender_domain)) else "")
                        local_part) brands
              with
              | Some brand =>
                  Acc.mk (Acc.score st + 55)%Q
                    (Acc.reasons st
                     ++ [("Trusted brand '" ++ brand
                          ++ "' found in local-part of email (potential impersonation)")%string])%list
                    (dict_set "brand_impersonation_local" (Acc.IBool true)
                       (Acc.indicators st))
              | None => st
              end)).
Proof.
  split; [|exact BrandFacts.local_part_loop_run].
  intros L Htld.
  unfold EmailChecker.analyze_email. cbn [EmailChecker.load_email_rules
    try_except open_and_load isinstance rbind get_or].
  change (strip "googlesecurity@gmail.com") with "googlesecurity@gmail.com".
  change (strip "") with "".
  unfold EmailChecker.checks. cbv zeta.
  change (EmailChecker.extract_domain_from_email "googlesecurity@gmail.com")
    with "gmail.com".
  rewrite (BrandFacts.next_run _ _ Acc.start Acc.start).
  2:{ unfold EmailChecker.check_typosquatting. cbn [truthy String.eqb negb Acc.when].
      cbv zeta. rewrite BrandFacts.typosquat_loop_run, Htld. reflexivity. }
  erewrite (BrandFacts.next_run _ _ Acc.start).
  2:{ unfold EmailChecker.check_local_part.
      change (contains "@" "googlesecurity@gmail.com") with true. cbv iota zeta.
      change (lower (first (split "@" "googlesecurity@gmail.com")))
        with "googlesecurity".
      cbn [truthy String.eqb negb Acc.when].
      rewrite BrandFacts.local_part_loop_run. cbn [truthy String.eqb negb].
      rewrite Htld. vm_compute. reflexivity. }
  eexists. split; [vm_compute; reflexivity|]. repeat split.
Qed.

Lemma local_part_impersonation_is_phishing_witness :
  exists r,
    EmailChecker.analyze_email Ref.libs Absent (Some "googlesecurity@gmail.com") None
      None None = Ok r
    /\ EmailChecker.verdict r = phishing
    /\ EmailChecker.score r = 75%Z
    /\ EmailChecker.reasons r
       = ["Trusted brand 'google' found in local-part of email (potential impersonation)";
          "Sender domain 'gmail.com' is commonly used in phishing"].
Proof.
  apply (proj1 local_part_impersonation_is_phishing Ref.libs). reflexivity.
Defined.

(** ** The whitelist of the URL checker *)

Module WhitelistFacts.
Import Acc AccFacts UrlChecker.
Local Open Scope acc_scope.

Lemma Qle_bool_false (a b : Q) : (b < a)%Q -> Qle_bool a b = false.
Proof.
  intros H. destruct (Qle_bool a b) eqn:E; [|reflexivity].
  apply Qle_bool_iff in E. lra.
Qed.

(** Whatever the order of iteration, the loop over the built-in whitelist
    finds google.com itself, as long as no other entry is similar to it. *)
Lemma similar_loop_google (L : Libs) (order : list string) :
  (forall w, In w Spec.built_in_whitelist -> w <> "google.com" ->
             (ratio L "google.com" w < 0.8)%Q) ->
  (forall w, In w order -> In w Spec.built_in_whitelist) ->
  In "google.com" order ->
  similar_loop L "google.com" 0.8%Q order = (true, Some "google.com").
Proof.
  intros Hratio. induction order as [|w rest IH]; intros Hsub Hin; [contradiction|].
  cbn [similar_loop].
  destruct (String.eqb_spec "google.com" w) as [<-|Hne]; [reflexivity|].
  assert (Hw : In w Spec.built_in_whitelist) by (apply Hsub; now left).
  rewrite (Qle_bool_false _ _ (Hratio w Hw (fun E => Hne (eq_sym E)))).
  assert (Hrest : similar_loop L "google.com" 0.8%Q rest = (true, Some "google.com")).
  { apply IH.
    - intros x Hx. apply Hsub. now right.
    - destruct Hin as [E|Hin]; [now elim Hne | exact Hin]. }
  unfold Spec.built_in_whitelist in Hw. cbn [default_rules trusted_domains get_or] in Hw.
  repeat (destruct Hw as [<-|Hw]; [first [now elim Hne | exact Hrest]|]).
  contradiction.
Qed.

End WhitelistFacts.

Module GoogleFacts.
Import Acc AccFacts UrlChecker BrandFacts.
Local Open Scope acc_scope.

(** The checks on the parts of the URL: every check before the whitelist
    is silent, the entropy check apart, and the whitelist check takes 40
    off. *)
Lemma google_checks (L : Libs) :
  (forall w, In w (set_iter L Spec.built_in_whitelist) <-> In w Spec.built_in_whitelist) ->
  (forall w, In w Spec.built_in_whitelist -> w <> "google.com" ->
             (ratio L "google.com" w < 0.8)%Q) ->
  exists st,
    checks L default_rules "https://www.google.com/search?q=x" "www.google.com"
      "/search" "q=x" {| subdomain := "www"; domain := "google"; suffix := "com" |}
      "google.com" "www" Acc.start = Ok (tt, st)
    /\ (Acc.score st <= 0)%Q
    /\ In "Trust verified: Result is within a secure/official name space ('google.com')"
         (Acc.reasons st).
Proof.
  intros Hset Hratio.
  unfold checks. cbv zeta.
  unfold is_similar_to_whitelisted.
  change (lower "google.com") with "google.com".
  change (get_or (trusted_domains default_rules) []) with Spec.built_in_whitelist.
  rewrite (WhitelistFacts.similar_loop_google L _ Hratio).
  2:{ intros w Hw. now apply Hset. }
  2:{ apply Hset. unfold Spec.built_in_whitelist. simpl. auto. }
  do 8 (erewrite next_run; [|vm_compute; reflexivity]).
  unfold check_entropy. cbv zeta.
  generalize (entropy_score L (strip ("/search" ++ " " ++ "q=x"))). intros ent.
  match goal with |- context [when ?c _] => destruct c end.
  - eexists. split; [vm_compute; reflexivity|]. split.
    + vm_compute. discriminate.
    + simpl. auto.
  - eexists. split; [vm_compute; reflexivity|]. split.
    + vm_compute. discriminate.
    + simpl. auto.
Qed.

End GoogleFacts.

(** C6.  With the built-in rules, [analyze_url] on
    "https://www.google.com/search?q=x" returns verdict safe with score 0:
    the exact whitelist match takes 40 off and no other check but the
    entropy check can fire.  The library calls are taken at their values on
    this URL; the order of iteration over the whitelist is arbitrary. *)
Theorem google_search_url_is_safe (L : Libs) (parsed : ParseResult) :
  urlparse L "https://www.google.com/search?q=x" = Ok parsed ->
  hostname parsed = Some "www.google.com" ->
  path parsed = "/search" ->
  query parsed = "q=x" ->
  port parsed = Ok None ->
  unquote L "/search" = "/search" ->
  tld_extract L "www.google.com"
  = {| subdomain := "www"; domain := "google"; suffix := "com" |} ->
  (forall w, In w (set_iter L Spec.built_in_whitelist) <-> In w Spec.built_in_whitelist) ->
  (forall w, In w Spec.built_in_whitelist -> w <> "google.com" ->
             (ratio L "google.com" w < 0.8)%Q) ->
  exists r,
    UrlChecker.analyze_url L Absent (PyStr "https://www.google.com/search?q=x") = Ok r
    /\ UrlChecker.verdict r = safe
    /\ UrlChecker.score r = 0%Z
    /\ In "Trust verified: Result is within a secure/official name space ('google.com')"
         (UrlChecker.reasons r).
Proof.
  intros Hparse Hhost Hpath Hquery Hport Hunq Htld Hset Hratio.
  destruct (GoogleFacts.google_checks L Hset Hratio) as (st & Hst & Hscore & Hreason).
  unfold UrlChecker.analyze_url.
  cbn [UrlChecker.load_url_rules try_except open_and_load isinstance rbind].
  change (falsy (PyStr "https://www.google.com/search?q=x")
          || negb (is_str (PyStr "https://www.google.com/search?q=x"))) with false.
  cbv iota. unfold UrlChecker.analyze_text, UrlChecker.scan. cbv zeta.
  change (strip "https://www.google.com/search?q=x")
    with "https://www.google.com/search?q=x".
  change (UrlChecker.with_scheme "https://www.google.com/search?q=x")
    with "https://www.google.com/search?q=x".
  rewrite Hparse. cbn [rbind]. rewrite Hhost, Hpath, Hquery, Hport, Hunq.
  cbn [get_or rbind]. rewrite Htld.
  cbn [domain suffix subdomain].
  change (join "." (filter truthy ["google"; "com"])) with "google.com".
  rewrite Hst. cbn [rbind snd].
  eexists. split; [reflexivity|].
  assert (Hzero : UrlChecker.mapped_score (Acc.score st) = 0%Z)
    by (apply Final.mapped_zero; exact Hscore).
  cbn [UrlChecker.finish UrlChecker.verdict UrlChecker.score UrlChecker.reasons].
  rewrite Hzero. split; [reflexivity|]. split; [reflexivity|].
  destruct (Acc.reasons st); [contradiction | exact Hreason].
Qed.

Module RefFacts.

Lemma filter_neq_In (x y : string) (l : list string) :
  In y (filter (fun z => negb (String.eqb x z)) l) <-> In y l /\ x <> y.
Proof.
  rewrite filter_In. split; intros [H1 H2]; split; trivial.
  - intros ->. rewrite String.eqb_refl in H2. discriminate.
  - apply negb_true_iff. now apply String.eqb_neq.
Qed.

Lemma dedup_In (l : list string) (x : string) : In x (dedup l) <-> In x l.
Proof.
  induction l as [|y l IH]; simpl; [tauto|].
  rewrite filter_neq_In, IH.
  destruct (string_dec y x) as [->|Hne]; [tauto|].
  split; [intros [H|[H _]]; tauto | intros [H|H]; [tauto|right; split; trivial]].
Qed.

Lemma dedup_NoDup (l : list string) : NoDup (dedup l).
Proof.
  induction l as [|y l IH]; simpl; constructor.
  - rewrite filter_neq_In. intros [_ H]. now apply H.
  - now apply NoDup_filter.
Qed.

Lemma ratio_google (w : string) :
  In w Spec.built_in_whitelist -> w <> "google.com" ->
  (Ref.ratio "google.com" w < 0.8)%Q.
Proof.
  intros Hw Hne. unfold Spec.built_in_whitelist in Hw.
  cbn [UrlChecker.default_rules UrlChecker.trusted_domains get_or] in Hw.
  repeat (destruct Hw as [<-|Hw];
          [first [now elim Hne | vm_compute; reflexivity]|]).
  contradiction.
Qed.

End RefFacts.

Lemma google_search_url_is_safe_witness :
  exists r,
    UrlChecker.analyze_url Ref.libs Absent (PyStr "https://www.google.com/search?q=x")
    = Ok r
    /\ UrlChecker.verdict r = safe
    /\ UrlChecker.score r = 0%Z
    /\ In "Trust verified: Result is within a secure/official name space ('google.com')"
         (UrlChecker.reasons r).
Proof.
  eapply (google_search_url_is_safe Ref.libs);
    [ vm_compute; reflexivity | reflexivity | reflexivity | reflexivity
    | reflexivity | reflexivity | reflexivity
    | intros w; apply RefFacts.dedup_In
    | exact RefFacts.ratio_google ].
Defined.

(** ** Two runs of the SMS checks side by side *)

Module Lockstep.
Import Acc AccFacts.
Local Open Scope acc_scope.









End Lockstep.

Module SmsSteps.
Import Acc AccFacts Lockstep SmsChecker.
Local Open Scope acc_scope.









End SmsSteps.

(** ** Shortened links in an SMS *)

Module ShortFacts.
Import Final.


Lemma mapped_floor (score : Q) :
  (0 <= score)%Q -> (score <= 100)%Q -> int (clamp score) = Qfloor score.
Proof.
  intros H0 H100. rewrite int_nonneg by apply clamp_range.
  apply Qfloor_comp. now apply clamp_inside.
Qed.


End ShortFacts.

Module ShortenerFacts.
Import SmsChecker Wording.







End ShortenerFacts.




(** ** The Levenshtein distance of the email checker *)

Module TableFacts.
Import EmailChecker Table.

Lemma table_step (a b : list ascii) (i j : nat) :
  table a b (S i) (S j)
  = Nat.min (Nat.min (table a b i (S j) + 1) (table a b (S i) j + 1))
      (table a b i j + cost (at_index a i) (at_index b j)).
Proof. reflexivity. Qed.

Lemma table_left (a b : list ascii) (i : nat) : table a b i 0 = i.
Proof. destruct i; reflexivity. Qed.

(** The inner loop of the code fills one row of the table. *)
Lemma row_tail_table (a b : list ascii) (i : nat) (todo : list ascii) :
  forall done,
    b = (done ++ todo)%list ->
    row_tail (at_index a i) todo
      (map (table a b i) (seq (List.length done) (S (List.length todo))))
      (table a b (S i) (List.length done))
    = map (table a b (S i)) (seq (S (List.length done)) (List.length todo)).
Proof.
  induction todo as [|c2 todo IH]; intros done E; [reflexivity|].
  cbn [List.length seq map row_tail].
  assert (Hc2 : c2 = at_index b (List.length done)).
  { unfold at_index. rewrite E, nth_middle. reflexivity. }
  rewrite Hc2. fold (cost (at_index a i) (at_index b (List.length done))).
  rewrite <- table_step. f_equal.
  specialize (IH (done ++ [c2])%list).
  rewrite length_app in IH. cbn [List.length] in IH.
  replace (List.length done + 1) with (S (List.length done)) in IH by lia.
  apply IH. now rewrite <- app_assoc.
Qed.

(** The outer loop fills the table row by row. *)
Lemma rows_table (a b : list ascii) (todo : list ascii) :
  forall done,
    a = (done ++ todo)%list ->
    rows todo (List.length done) b
      (map (table a b (List.length done)) (seq 0 (S (List.length b))))
    = map (table a b (List.length a)) (seq 0 (S (List.length b))).
Proof.
  induction todo as [|c1 todo IH]; intros done E.
  - rewrite app_nil_r in E. subst done. reflexivity.
  - cbn [rows].
    assert (Hc1 : c1 = at_index a (List.length done)).
    { unfold at_index. rewrite E, nth_middle. reflexivity. }
    replace (List.length done + 1) with (table a b (S (List.length done)) 0)
      by (rewrite table_left; lia).
    rewrite Hc1.
    pose proof (row_tail_table a b (List.length done) b [] eq_refl) as R.
    cbn [List.length] in R. rewrite R.
    specialize (IH (done ++ [c1])%list).
    rewrite length_app in IH. cbn [List.length] in IH.
    replace (List.length done + 1) with (S (List.length done)) in IH by lia.
    rewrite <- IH by (now rewrite <- app_assoc).
    reflexivity.
Qed.

Lemma distance_ordered_table (s1 s2 : string) :
  distance_ordered s1 s2
  = table (list_ascii_of_string s1) (list_ascii_of_string s2)
      (String.length s1) (String.length s2).
Proof.
  unfold distance_ordered.
  destruct (Nat.eqb_spec (String.length s2) 0) as [E|_].
  - rewrite E, table_left. reflexivity.
  - pose proof (rows_table (list_ascii_of_string s1) (list_ascii_of_string s2)
                  (list_ascii_of_string s1) [] eq_refl) as H.
    cbn [List.length] in H. rewrite !Levenshtein.length_list_ascii in H.
    replace (String.length s2 + 1) with (S (String.length s2)) by lia.
    replace (seq 0 (S (String.length s2)))
      with (map (table (list_ascii_of_string s1) (list_ascii_of_string s2) 0)
              (seq 0 (S (String.length s2))))
      by (rewrite <- (map_id (seq 0 (S (String.length s2)))) at 2;
          apply map_ext; reflexivity).
    rewrite H. apply Levenshtein.last_map_seq.
Qed.

(** Every cell lies between the difference and the maximum of its
    coordinates. *)
Lemma table_bounds (a b : list ascii) (i : nat) :
  forall j, (i - j) + (j - i) <= table a b i j <= Nat.max i j.
Proof.
  induction i as [|i IHi]; intros j; [simpl; lia|].
  induction j as [|j IHj]; [rewrite table_left; lia|].
  rewrite table_step. pose proof (IHi (S j)). pose proof (IHi j).
  unfold cost. destruct (Ascii.eqb _ _); lia.
Qed.

(** The table of [b] against [a] is the transpose. *)
Lemma table_transpose (a b : list ascii) (i : nat) :
  forall j, table a b i j = table b a j i.
Proof.
  induction i as [|i IHi]; intros j; [now rewrite table_left|].
  induction j as [|j IHj]; [reflexivity|].
  rewrite !table_step, (IHi (S j)), IHj, (IHi j).
  unfold cost. rewrite (Ascii.eqb_sym (at_index b j)). lia.
Qed.

Lemma firstn_next {A : Type} (d : A) (l : list A) :
  forall i, i < List.length l -> firstn (S i) l = (firstn i l ++ [nth i l d])%list.
Proof.
  induction l as [|x l IH]; intros i Hi; [simpl in Hi; lia|].
  destruct i as [|i]; [reflexivity|].
  simpl in Hi. rewrite firstn_cons, (IH i) by lia. reflexivity.
Qed.

(** A cell on the diagonal is 0 only when the prefixes agree. *)
Lemma table_zero (a b : list ascii) (i : nat) :
  i <= List.length a -> i <= List.length b ->
  table a b i i = 0 -> firstn i a = firstn i b.
Proof.
  induction i as [|i IH]; intros Ha Hb H; [reflexivity|].
  rewrite table_step in H.
  pose proof (table_bounds a b i (S i)) as B1.
  pose proof (table_bounds a b (S i) i) as B2.
  assert (Hz : table a b i i = 0) by lia.
  assert (Hc : cost (at_index a i) (at_index b i) = 0) by lia.
  unfold cost in Hc. destruct (Ascii.eqb_spec (at_index a i) (at_index b i)) as [E|];
    [|discriminate].
  rewrite (firstn_next "000"%char a), (firstn_next "000"%char b) by lia.
  unfold at_index in E. rewrite E, (IH ltac:(lia) ltac:(lia) Hz). reflexivity.
Qed.

End TableFacts.

Module DistanceFacts.
Import EmailChecker Table TableFacts.

Lemma distance_table (s1 s2 : string) :
  levenshtein_distance s1 s2
  = table (list_ascii_of_string s1) (list_ascii_of_string s2)
      (String.length s1) (String.length s2).
Proof.
  unfold levenshtein_distance.
  destruct (Nat.ltb (String.length s1) (String.length s2)).
  - rewrite distance_ordered_table. symmetry. apply table_transpose.
  - apply distance_ordered_table.
Qed.

Lemma list_ascii_inj (s1 s2 : string) :
  list_ascii_of_string s1 = list_ascii_of_string s2 -> s1 = s2.
Proof.
  intros H. rewrite <- (string_of_list_ascii_of_string s1),
    <- (string_of_list_ascii_of_string s2), H. reflexivity.
Qed.

End DistanceFacts.

(** X1. [levenshtein_distance] computes the edit distance: its result is the
    last cell of the Wagner-Fischer table of the two strings, whichever of
    the two is the longer. *)
Theorem levenshtein_distance_is_edit_distance (s1 s2 : string) :
  EmailChecker.levenshtein_distance s1 s2
  = Table.table (list_ascii_of_string s1) (list_ascii_of_string s2)
      (String.length s1) (String.length s2).
Proof. apply DistanceFacts.distance_table. Qed.

(** X2. [levenshtein_distance] is 0 exactly for equal strings. *)
Theorem levenshtein_distance_zero_iff_equal (s1 s2 : string) :
  EmailChecker.levenshtein_distance s1 s2 = 0 <-> s1 = s2.
Proof.
  split.
  - rewrite DistanceFacts.distance_table. intros H.
    pose proof (TableFacts.table_bounds (list_ascii_of_string s1)
                  (list_ascii_of_string s2) (String.length s1) (String.length s2)) as B.
    assert (E : String.length s1 = String.length s2) by lia.
    rewrite <- E in H.
    apply TableFacts.table_zero in H;
      rewrite ?Levenshtein.length_list_ascii; try lia.
    rewrite <- (Levenshtein.length_list_ascii s1) in H at 1.
    rewrite E, <- (Levenshtein.length_list_ascii s2) in H.
    rewrite !firstn_all in H. now apply DistanceFacts.list_ascii_inj.
  - intros ->. apply Levenshtein.levenshtein_distance_refl.
Qed.

Lemma levenshtein_distance_zero_iff_equal_witness :
  EmailChecker.levenshtein_distance "the5ers" "the5ers" = 0
  /\ "google" <> "googie".
Proof.
  split.
  - exact (proj2 (levenshtein_distance_zero_iff_equal "the5ers" "the5ers") eq_refl).
  - intros E.
    pose proof (proj2 (levenshtein_distance_zero_iff_equal "google" "googie") E) as H.
    vm_compute in H. discriminate.
Defined.

(** X3. [levenshtein_distance] does not depend on the order of its
    arguments. *)
Theorem levenshtein_distance_sym (s1 s2 : string) :
  EmailChecker.levenshtein_distance s1 s2 = EmailChecker.levenshtein_distance s2 s1.
Proof.
  rewrite !DistanceFacts.distance_table. apply TableFacts.table_transpose.
Qed.

(** X4. [levenshtein_distance] is at least the difference of the two lengths
    and at most the greater length. *)
Theorem levenshtein_distance_bounds (s1 s2 : string) :
  (String.length s1 - String.length s2) + (String.length s2 - String.length s1)
  <= EmailChecker.levenshtein_distance s1 s2
  <= Nat.max (String.length s1) (String.length s2).
Proof.
  rewrite DistanceFacts.distance_table. apply TableFacts.table_bounds.
Qed.

(** ** The links found in a text *)

Module LinkFacts.
Import Re Links.

Lemma take_0 (s : string) : take 0 s = "".
Proof. destruct s; reflexivity. Qed.

Lemma take_S (c : ascii) (s : string) (n : nat) :
  take (S n) (String c s) = String c (take n s).
Proof. reflexivity. Qed.

Lemma take_drop (n : nat) : forall s, take n s ++ drop n s = s.
Proof.
  induction n as [|n IH]; intros s; [now rewrite take_0|].
  destruct s as [|c s]; [reflexivity|].
  rewrite take_S. cbn [drop append]. now rewrite IH.
Qed.

Lemma take_plus (k n : nat) :
  forall s, k <= String.length s ->
    take (k + n) s = take k s ++ take n (drop k s).
Proof.
  induction k as [|k IH]; intros s Hk; [now rewrite take_0|].
  destruct s as [|c s]; [simpl in Hk; lia|].
  simpl in Hk. cbn [Nat.add]. rewrite !take_S. cbn [drop append].
  rewrite IH by lia. reflexivity.
Qed.

Lemma length_take (n : nat) :
  forall s, n <= String.length s -> String.length (take n s) = n.
Proof.
  induction n as [|n IH]; intros s Hn; [now rewrite take_0|].
  destruct s as [|c s]; [simpl in Hn; lia|].
  simpl in Hn. rewrite take_S. cbn [String.length]. rewrite IH by lia. reflexivity.
Qed.

Lemma length_drop (n : nat) :
  forall s, String.length (drop n s) = String.length s - n.
Proof.
  induction n as [|n IH]; intros s; [simpl; lia|].
  destruct s as [|c s]; [reflexivity|]. simpl. apply IH.
Qed.

Lemma length_app_string (a b : string) :
  String.length (a ++ b) = String.length a + String.length b.
Proof. induction a as [|c a IH]; simpl; congruence. Qed.

Lemma all_char_app (p : ascii -> bool) (a b : string) :
  all_char p (a ++ b) = all_char p a && all_char p b.
Proof. induction a as [|c a IH]; simpl; [reflexivity|]. now rewrite IH, andb_assoc. Qed.

Lemma run_length_le (p : ascii -> bool) (s : string) :
  run_length p s <= String.length s.
Proof. induction s as [|c s IH]; simpl; [lia|]. destruct (p c); lia. Qed.

Lemma run_take (p : ascii -> bool) (s : string) :
  all_char p (take (run_length p s) s) = true.
Proof.
  induction s as [|c s IH]; [reflexivity|].
  cbn [run_length]. destruct (p c) eqn:E; [|reflexivity].
  rewrite take_S. cbn [all_char]. now rewrite E, IH.
Qed.

(** A run stops at the end of the text or before a character outside the
    class. *)
Lemma run_stop (p : ascii -> bool) (s : string) :
  match drop (run_length p s) s with
  | EmptyString => True
  | String c _ => p c = false
  end.
Proof.
  induction s as [|c s IH]; [exact I|].
  cbn [run_length]. destruct (p c) eqn:E; [exact IH|exact E].
Qed.

Lemma prefix_nocase_length (p : string) :
  forall s, prefix_nocase p s = true -> String.length p <= String.length s.
Proof.
  induction p as [|a p IH]; intros s H; [simpl; lia|].
  destruct s as [|b s]; [discriminate|].
  simpl in H. apply andb_true_iff in H as [_ H]. apply IH in H. simpl. lia.
Qed.

Lemma prefix_nocase_take (p : string) :
  forall s x, prefix_nocase p s = true ->
    prefix_nocase p (take (String.length p) s ++ x) = true.
Proof.
  induction p as [|a p IH]; intros s x H; [reflexivity|].
  destruct s as [|b s]; [discriminate|].
  simpl in H. apply andb_true_iff in H as [H1 H2].
  cbn [String.length]. rewrite take_S. cbn [append prefix_nocase].
  now rewrite H1, IH.
Qed.

Lemma scheme_link_char (a c : ascii) :
  scheme_char a = true -> eqb_nocase a c = true -> link_char c = true.
Proof.
  unfold scheme_char. cbn [existsb]. rewrite !orb_true_iff.
  intros [H|[H|[H|[H|[H|[H|H]]]]]]; try discriminate;
    apply Ascii.eqb_eq in H; subst a;
    destruct c as [[] [] [] [] [] [] [] []]; vm_compute; congruence.
Qed.

Lemma prefix_nocase_link_chars (p : string) :
  forall s, all_char scheme_char p = true -> prefix_nocase p s = true ->
    all_char link_char (take (String.length p) s) = true.
Proof.
  induction p as [|a p IH]; intros s Hp H; [now rewrite take_0|].
  destruct s as [|b s]; [discriminate|].
  simpl in H, Hp. apply andb_true_iff in H as [H1 H2].
  apply andb_true_iff in Hp as [Hp1 Hp2].
  cbn [String.length]. rewrite take_S. cbn [all_char].
  now rewrite (scheme_link_char a b Hp1 H1), IH.
Qed.

Lemma body_shape (p s : string) (n : nat) :
  all_char scheme_char p = true ->
  7 <= String.length p ->
  prefix_nocase p s = true ->
  (if Nat.eqb (run_length link_char (drop (String.length p) s)) 0 then None
   else Some (String.length p + run_length link_char (drop (String.length p) s)))
  = Some n ->
  prefix_nocase p (take n s) = true
  /\ all_char link_char (take n s) = true
  /\ 7 < String.length (take n s)
  /\ stops (drop n s).
Proof.
  intros Hp Hlen Hpre H.
  pose proof (prefix_nocase_length p s Hpre) as Hle.
  pose proof (run_length_le link_char (drop (String.length p) s)) as Hrun.
  rewrite length_drop in Hrun.
  destruct (Nat.eqb_spec (run_length link_char (drop (String.length p) s)) 0)
    as [|Hn]; [discriminate|].
  injection H as <-.
  rewrite take_plus by exact Hle.
  split; [|split; [|split]].
  - now apply prefix_nocase_take.
  - rewrite all_char_app, prefix_nocase_link_chars, run_take by assumption.
    reflexivity.
  - rewrite length_app_string, !length_take; try lia.
    rewrite length_drop. lia.
  - pose proof (run_stop link_char (drop (String.length p) s)) as S.
    clear - S. revert S. generalize (run_length link_char (drop (String.length p) s)).
    generalize (String.length p). intros k. revert s.
    induction k as [|k IH]; intros s m S; [exact S|].
    destruct s as [|c s]; [destruct m; exact I|].
    cbn [Nat.add drop] in *. now apply IH.
Qed.

Lemma link_at_shape (s : string) (n : nat) :
  link_at s = Some n -> link_shape (take n s) /\ stops (drop n s).
Proof.
  unfold link_at, link_shape.
  destruct (prefix_nocase "https://" s) eqn:E1.
  - intros H. destruct (body_shape "https://" s n eq_refl ltac:(simpl; lia) E1 H)
      as (A & B & C & D). tauto.
  - destruct (prefix_nocase "http://" s) eqn:E2; [|discriminate].
    intros H. destruct (body_shape "http://" s n eq_refl ltac:(simpl; lia) E2 H)
      as (A & B & C & D). tauto.
Qed.

Lemma findall_links_shape (s : string) :
  forall skip link,
    In link (findall_links s skip) ->
    link_shape link
    /\ exists pre post, s = pre ++ link ++ post /\ stops post.
Proof.
  induction s as [|c s IH]; intros skip link H; [destruct H|].
  cbn [findall_links] in H.
  assert (Later : forall k, In link (findall_links s k) ->
            link_shape link
            /\ exists pre post, String c s = pre ++ link ++ post /\ stops post).
  { intros k Hk. destruct (IH k link Hk) as (A & pre & post & E & S).
    split; [exact A|]. exists (String c pre), post. split; [|exact S].
    cbn [append]. now rewrite E. }
  destruct skip as [|k]; [|now apply (Later k)].
  destruct (link_at (String c s)) as [n|] eqn:E; [|now apply (Later 0)].
  destruct H as [<-|H]; [|now apply (Later (n - 1))].
  destruct (link_at_shape _ _ E) as (A & S).
  split; [exact A|]. exists "", (drop n (String c s)). split; [|exact S].
  cbn [append]. now rewrite take_drop.
Qed.

End LinkFacts.

(** X5. On a text of code points 0 to 255, every link that [extract_links]
    returns is a piece of the text: it starts with [http://] or [https://]
    in either case of the letters, has at least one character after the
    scheme, holds no white space and none of the characters the pattern
    excludes, and ends at the end of the text or before such a character.
    (Beyond that range the pattern also takes U+017F for the letter s.) *)
Theorem extracted_links_are_links (text link : string)
    (H : In link (SmsChecker.extract_links text)) :
  (Re.prefix_nocase "http://" link = true \/ Re.prefix_nocase "https://" link = true)
  /\ all_char Re.link_char link = true
  /\ 7 < String.length link
  /\ exists pre post,
       text = pre ++ link ++ post
       /\ match post with
          | EmptyString => True
          | String c _ => Re.link_char c = false
          end.
Proof.
  destruct (LinkFacts.findall_links_shape text 0 link H) as ((A & B & C) & D).
  auto.
Qed.

Lemma extracted_links_are_links_witness :
  In "HTTP://a.b/c" (SmsChecker.extract_links "see HTTP://a.b/c now")
  /\ all_char Re.link_char "HTTP://a.b/c" = true.
Proof.
  assert (H : In "HTTP://a.b/c" (SmsChecker.extract_links "see HTTP://a.b/c now"))
    by (vm_compute; left; reflexivity).
  split; [exact H|].
  exact (proj1 (proj2 (extracted_links_are_links _ _ H))).
Defined.

(** ** Bounds on the score of a block *)

Module RangeFacts.
Import Acc AccFacts Range.
Local Open Scope acc_scope.

Lemma gains_ret : gains 0 (ret tt).
Proof. intros st st' H. inversion H; subst. lra. Qed.

Lemma gains_set_indicator (k : string) (v : ival) : gains 0 (set_indicator k v).
Proof. intros st st' H. inversion H; subst. simpl. lra. Qed.

Lemma gains_next (a b : Q) (m k : M unit) :
  gains a m -> gains b k -> gains (a + b) (m ;; k).
Proof.
  intros Hm Hk st st' H. apply next_inv in H as (mid & H1 & H2).
  specialize (Hm _ _ H1). specialize (Hk _ _ H2). lra.
Qed.

Lemma gains_flag (r : string) (w : result Q) (lo : Q) :
  (forall q, w = Ok q -> (lo <= q)%Q) -> gains lo (flag r w).
Proof.
  intros Hw st st' H. apply flag_inv in H as (q & E & ->). simpl.
  specialize (Hw q E). lra.
Qed.

Lemma gains_weaken (a b : Q) (m : M unit) : (b <= a)%Q -> gains a m -> gains b m.
Proof. intros Hab Hm st st' H. specialize (Hm _ _ H). lra. Qed.

Lemma gains_grows (m : M unit) : grows m -> gains 0 m.
Proof. intros Hm st st' H. specialize (Hm _ _ H). lra. Qed.

Lemma at_most_ret : at_most 0 (ret tt).
Proof. intros st st' H. inversion H; subst. lra. Qed.

Lemma at_most_set_indicator (k : string) (v : ival) : at_most 0 (set_indicator k v).
Proof. intros st st' H. inversion H; subst. simpl. lra. Qed.

Lemma at_most_next (a b : Q) (m k : M unit) :
  at_most a m -> at_most b k -> at_most (a + b) (m ;; k).
Proof.
  intros Hm Hk st st' H. apply next_inv in H as (mid & H1 & H2).
  specialize (Hm _ _ H1). specialize (Hk _ _ H2). lra.
Qed.

Lemma at_most_flag (r : string) (w : result Q) (hi : Q) :
  (forall q, w = Ok q -> (q <= hi)%Q) -> at_most hi (flag r w).
Proof.
  intros Hw st st' H. apply flag_inv in H as (q & E & ->). simpl.
  specialize (Hw q E). lra.
Qed.

Lemma at_most_weaken (a b : Q) (m : M unit) : (a <= b)%Q -> at_most a m -> at_most b m.
Proof. intros Hab Hm st st' H. specialize (Hm _ _ H). lra. Qed.

Lemma at_most_when (b : bool) (q : Q) (m : M unit) :
  (0 <= q)%Q -> at_most q m -> at_most q (when b m).
Proof.
  intros Hq Hm. destruct b; [exact Hm|].
  apply (at_most_weaken 0 q); [exact Hq | apply at_most_ret].
Qed.

(** A block that sets an indicator and may flag one reason. *)
Lemma at_most_indicator_when (k : string) (v : ival) (b : bool) (r : string)
    (w : result Q) (hi : Q) :
  (0 <= hi)%Q -> (forall q, w = Ok q -> (q <= hi)%Q) ->
  at_most hi (set_indicator k v ;; when b (flag r w)).
Proof.
  intros H0 Hw. apply (at_most_weaken (0 + hi) hi); [lra|].
  apply at_most_next; [apply at_most_set_indicator|].
  apply at_most_when; [exact H0 | now apply at_most_flag].
Qed.

Lemma keeps_quiet (r : string) (m : M unit) : quiet m -> keeps r m.
Proof.
  intros Hm st st' H Hin. destruct (Hm _ _ H) as (rs & E & _).
  rewrite E. apply in_or_app. now left.
Qed.

Lemma says_flag (r : string) (w : result Q) : says r (flag r w).
Proof.
  intros st st' H. apply flag_inv in H as (q & _ & ->). simpl.
  apply in_or_app. right. now left.
Qed.

Lemma says_first (r : string) (m k : M unit) : says r m -> keeps r k -> says r (m ;; k).
Proof.
  intros Hm Hk st st' H. apply next_inv in H as (mid & H1 & H2).
  apply (Hk _ _ H2), (Hm _ _ H1).
Qed.

Lemma says_second (r : string) (m k : M unit) : says r k -> says r (m ;; k).
Proof.
  intros Hk st st' H. apply next_inv in H as (mid & H1 & H2). apply (Hk _ _ H2).
Qed.

End RangeFacts.

(** ** The URL checker: what the parts of a result are *)

Module UrlShape.
Import Acc UrlChecker.

(** The state a scan ends in comes out of the checks on the parts the
    result reports. *)
Lemma scan_parts (L : Libs) (r : rules) (text original : string)
    (info : parsed_info) (st : Acc.t) :
  scan L r text = Ok (original, info, st) ->
  original = strip text
  /\ p_root_domain info
     = join "." (filter truthy [domain (tld_extract L (p_host info));
                                suffix (tld_extract L (p_host info))])
  /\ checks L r original (p_host info) (p_path info) (p_query info)
       (tld_extract L (p_host info)) (p_root_domain info) (p_subdomain info)
       Acc.start = Ok (tt, st).
Proof.
  unfold scan.
  destruct (urlparse L _) as [parsed|e]; simpl; [|discriminate].
  destruct (port parsed) as [p|e]; simpl; [|discriminate].
  match goal with |- context [checks ?a ?b ?c ?d ?e ?f ?g ?h ?i ?j] =>
    destruct (checks a b c d e f g h i j) as [[[] st']|e'] eqn:E end;
    simpl; [|discriminate].
  intros H. inversion H; subst. simpl. auto.
Qed.

Lemma finish_score (original : string) (info : parsed_info) (st : Acc.t) :
  score (finish original info st) = int (Props.clamp (Acc.score st)).
Proof. reflexivity. Qed.

Lemma finish_verdict (original : string) (info : parsed_info) (st : Acc.t) :
  verdict (finish original info st)
  = if Z.leb 65 (int (Props.clamp (Acc.score st))) then phishing
    else if Z.leb 30 (int (Props.clamp (Acc.score st))) then suspicious
    else safe.
Proof. reflexivity. Qed.

End UrlShape.

(** ** The URL checker under the built-in weights *)

Module UrlBounds.
Import Acc AccFacts Range RangeFacts UrlChecker.
Local Open Scope acc_scope.

Ltac weight :=
  let q := fresh "q" in let E := fresh "E" in
  intros q E; vm_compute in E; inversion E; subst; vm_compute; discriminate.

Lemma at_most_quiet_indicator (k : string) (v : ival) (m : M unit) :
  at_most 0 (set_indicator k v ;; when false m).
Proof.
  apply (at_most_weaken (0 + 0) 0); [lra|].
  apply at_most_next; [apply at_most_set_indicator | apply at_most_ret].
Qed.

Section Checks.

Variable L : Libs.

Lemma check_ip_at_most (D : bool) (host : string) :
  at_most 25 (check_ip D default_weights host).
Proof.
  unfold check_ip. apply at_most_when; [lra|].
  apply at_most_indicator_when; [lra | weight].
Qed.

Lemma check_tld_gov (S : list string) (extracted : ExtractResult) :
  at_most (-20) (check_tld S default_weights extracted true).
Proof.
  unfold check_tld. cbv zeta. apply (at_most_weaken (0 + -20) (-20)); [lra|].
  apply at_most_next; [apply at_most_set_indicator|].
  apply at_most_flag. weight.
Qed.

Lemma check_length_at_most (original : string) :
  at_most 6 (check_length default_weights original).
Proof. unfold check_length. cbv zeta. apply at_most_indicator_when; [lra | weight]. Qed.

Lemma check_subdomains_gov (subdomain : string) :
  at_most 0 (check_subdomains default_weights subdomain true).
Proof.
  unfold check_subdomains. cbv zeta. cbn [negb]. rewrite andb_false_r.
  apply at_most_quiet_indicator.
Qed.

Lemma check_hyphen_gov (extracted : ExtractResult) :
  at_most 0 (check_hyphen default_weights extracted true).
Proof.
  unfold check_hyphen. cbv zeta. cbn [negb]. rewrite andb_false_r.
  apply at_most_quiet_indicator.
Qed.

Lemma check_punycode_at_most (host : string) :
  at_most 20 (check_punycode default_weights host).
Proof. unfold check_punycode. cbv zeta. apply at_most_indicator_when; [lra | weight]. Qed.

Lemma check_chars_gov (original : string) :
  at_most 0 (check_chars default_weights original true).
Proof.
  unfold check_chars. cbv zeta. cbn [negb]. rewrite andb_false_r.
  apply at_most_quiet_indicator.
Qed.

Lemma check_path_tokens_at_most (T : list string) (path : string) :
  at_most 6 (check_path_tokens L T default_weights path).
Proof.
  unfold check_path_tokens. cbv zeta. apply at_most_indicator_when; [lra | weight].
Qed.

Lemma check_entropy_gov (path query : string) :
  at_most 0 (check_entropy L default_weights path query true).
Proof.
  unfold check_entropy. cbv zeta. cbn [negb]. rewrite andb_false_r.
  apply at_most_quiet_indicator.
Qed.

Lemma check_whitelist_gov (w : bool) (m : option string) (root_domain : string) :
  at_most (-40) (check_whitelist w m root_domain true).
Proof.
  unfold check_whitelist. rewrite orb_true_r.
  apply (at_most_weaken (0 + -40) (-40)); [lra|].
  apply at_most_next; [apply at_most_set_indicator|].
  apply at_most_flag. weight.
Qed.

Lemma check_domain_tokens_at_most (w : bool) (m : option string)
    (extracted : ExtractResult) :
  at_most 36 (check_domain_tokens default_weights w m extracted).
Proof.
  unfold check_domain_tokens. cbv zeta. apply at_most_when; [lra|].
  apply (at_most_weaken (30 + 6) 36); [lra|].
  apply at_most_next.
  - destruct (find _ suspicious_patterns) as [[p reason]|].
    + apply at_most_flag. weight.
    + apply (at_most_weaken 0 30); [lra | apply at_most_ret].
  - apply at_most_indicator_when; [lra | weight].
Qed.

(** With a suffix that ends in [gov] or in two letters the checks add at
    most 33. *)
Lemma checks_gov_cap (original host path query : string)
    (extracted : ExtractResult) (root_domain subdomain : string) :
  UrlParts.is_gov_or_cctld extracted = true ->
  at_most 33
    (checks L default_rules original host path query extracted root_domain subdomain).
Proof.
  intros Hgov. unfold checks. cbv zeta.
  change (String.eqb (last (split "." (lower (suffix extracted)))) "gov"
          || Nat.eqb (String.length (last (split "." (lower (suffix extracted))))) 2)
    with (UrlParts.is_gov_or_cctld extracted).
  rewrite Hgov. destruct (is_similar_to_whitelisted _ _ _) as [w m].
  change (get_weights default_rules) with default_weights.
  apply (at_most_weaken
           (25 + (-20 + (6 + (0 + (0 + (20 + (0 + (6 + (0 + (-40 + 36)))))))))) 33);
    [vm_compute; discriminate|].
  apply at_most_next; [apply check_ip_at_most|].
  apply at_most_next; [apply check_tld_gov|].
  apply at_most_next; [apply check_length_at_most|].
  apply at_most_next; [apply check_subdomains_gov|].
  apply at_most_next; [apply check_hyphen_gov|].
  apply at_most_next; [apply check_punycode_at_most|].
  apply at_most_next; [apply check_chars_gov|].
  apply at_most_next; [apply check_path_tokens_at_most|].
  apply at_most_next; [apply check_entropy_gov|].
  apply at_most_next; [apply check_whitelist_gov|].
  apply check_domain_tokens_at_most.
Qed.

End Checks.

Lemma mapped_at_most (score : Q) (n : Z) :
  (0 <= n)%Z -> (score <= inject_Z n)%Q -> (int (Props.clamp score) <= n)%Z.
Proof.
  intros Hn H. destruct (Z_lt_le_dec 100 n) as [Hbig|Hsmall].
  { pose proof (Final.mapped_bounds score). lia. }
  pose proof (Final.mapped_mono score (inject_Z n) H) as M.
  rewrite (ShortFacts.mapped_floor (inject_Z n)) in M.
  - now rewrite Qfloor_Z in M.
  - change 0%Q with (inject_Z 0). now rewrite <- Zle_Qle.
  - change 100%Q with (inject_Z 100). now rewrite <- Zle_Qle.
Qed.

End UrlBounds.

(** X6. Under the built-in rules, a URL whose public suffix ends in [gov]
    or in a label of two characters scores at most 33 and is never judged
    phishing, whatever else the checks find. *)
Theorem gov_or_country_suffix_is_never_phishing (L : Libs) (text : string)
    (a : UrlChecker.analysis) (info : UrlChecker.parsed_info) :
  UrlChecker.analyze_url L Absent (PyStr text) = Ok a ->
  UrlChecker.parsed a = Some info ->
  UrlParts.is_gov_or_cctld (tld_extract L (UrlChecker.p_host info)) = true ->
  (UrlChecker.score a <= 33)%Z /\ UrlChecker.verdict a <> phishing.
Proof.
  intros Ha Hinfo Hgov.
  apply Shape.url_result in Ha as (rules & Hload & [[_ ->]|Hscan]);
    [discriminate|].
  destruct Hscan as (text' & original & info' & st & _ & _ & Hscan & ->).
  simpl in Hinfo. injection Hinfo as ->.
  unfold UrlChecker.load_url_rules in Hload. simpl in Hload. injection Hload as <-.
  apply UrlShape.scan_parts in Hscan as (_ & _ & Hchecks).
  pose proof (UrlBounds.checks_gov_cap L _ _ _ _ _ _ _ Hgov _ _ Hchecks) as Hcap.
  change (Acc.score Acc.start) with 0%Q in Hcap.
  assert (Hz : (int (Props.clamp (Acc.score st)) <= 33)%Z).
  { apply UrlBounds.mapped_at_most; [lia|]. change (inject_Z 33) with 33%Q. lra. }
  split.
  - rewrite UrlShape.finish_score. exact Hz.
  - rewrite UrlShape.finish_verdict.
    destruct (Z.leb_spec 65 (int (Props.clamp (Acc.score st)))); [lia|].
    destruct (Z.leb 30 _); discriminate.
Qed.

Lemma gov_or_country_suffix_is_never_phishing_witness :
  exists a,
    UrlChecker.analyze_url Ref.libs Absent (PyStr "http://secure-paypa1.ru/login") = Ok a
    /\ (UrlChecker.score a <= 33)%Z
    /\ UrlChecker.verdict a <> phishing.
Proof.
  let r := eval vm_compute in
    (UrlChecker.analyze_url Ref.libs Absent (PyStr "http://secure-paypa1.ru/login")) in
  match r with
  | Ok ?a =>
      match eval vm_compute in (UrlChecker.parsed a) with
      | Some ?info =>
          exists a;
          assert (E : UrlChecker.analyze_url Ref.libs Absent
                        (PyStr "http://secure-paypa1.ru/login") = Ok a)
            by (vm_compute; reflexivity);
          split; [exact E|];
          apply (gov_or_country_suffix_is_never_phishing Ref.libs
                   "http://secure-paypa1.ru/login" a info E);
          vm_compute; reflexivity
      end
  end.
Defined.

(** ** The URL checker: a look-alike of a trusted domain *)

Module UrlMimic.
Import Acc AccFacts Range RangeFacts UrlChecker.
Local Open Scope acc_scope.

Ltac grow := apply gains_grows; cbv zeta; cbv beta iota; repeat grows_step.

(** Outside the trusted suffixes, a domain that is close to a trusted one
    without being it gets 65 from check 10, and no check takes anything
    away. *)
Lemma checks_mimic (L : Libs) (original host path query : string)
    (extracted : ExtractResult) (root_domain subdomain w : string) :
  UrlParts.is_gov_or_cctld extracted = false ->
  is_similar_to_whitelisted L (get_or (trusted_domains default_rules) []) root_domain
  = (false, Some w) ->
  truthy w = true ->
  gains 65
    (checks L default_rules original host path query extracted root_domain subdomain).
Proof.
  intros Hgov Hsim Hw. unfold checks. cbv zeta.
  change (String.eqb (last (split "." (lower (suffix extracted)))) "gov"
          || Nat.eqb (String.length (last (split "." (lower (suffix extracted))))) 2)
    with (UrlParts.is_gov_or_cctld extracted).
  rewrite Hgov, Hsim.
  change (get_weights default_rules) with default_weights.
  apply (gains_weaken (0 + (0 + (0 + (0 + (0 + (0 + (0 + (0 + (0 + (65 + 0)))))))))) 65);
    [vm_compute; discriminate|].
  apply gains_next; [unfold check_ip; grow|].
  apply gains_next; [unfold check_tld; grow|].
  apply gains_next; [unfold check_length; grow|].
  apply gains_next; [unfold check_subdomains; grow|].
  apply gains_next; [unfold check_hyphen; grow|].
  apply gains_next; [unfold check_punycode; grow|].
  apply gains_next; [unfold check_chars; grow|].
  apply gains_next; [unfold check_path_tokens; grow|].
  apply gains_next; [unfold check_entropy; grow|].
  apply gains_next.
  - unfold check_whitelist. cbn [orb matched]. rewrite Hw. cbn [when].
    apply (gains_weaken (0 + 65) 65); [lra|].
    apply gains_next; [apply gains_set_indicator|].
    apply gains_flag. intros q E. inversion E; subst. lra.
  - unfold check_domain_tokens. cbn [orb matched]. rewrite Hw. cbn [when].
    apply gains_grows. cbv zeta.
    destruct (find _ suspicious_patterns) as [[p reason]|]; repeat grows_step.
Qed.

End UrlMimic.

(** X7. Under the built-in rules, a URL whose registered domain is close
    to a trusted domain without being one of them, and whose suffix is
    neither [gov] nor a two-letter one, is judged phishing with a score of
    65 or more. *)
Theorem lookalike_domain_is_phishing (L : Libs) (text w : string)
    (a : UrlChecker.analysis) (info : UrlChecker.parsed_info) :
  UrlChecker.analyze_url L Absent (PyStr text) = Ok a ->
  UrlChecker.parsed a = Some info ->
  UrlParts.is_gov_or_cctld (tld_extract L (UrlChecker.p_host info)) = false ->
  UrlChecker.is_similar_to_whitelisted L
    (get_or (UrlChecker.trusted_domains UrlChecker.default_rules) [])
    (UrlChecker.p_root_domain info) = (false, Some w) ->
  truthy w = true ->
  (65 <= UrlChecker.score a)%Z /\ UrlChecker.verdict a = phishing.
Proof.
  intros Ha Hinfo Hgov Hsim Hw.
  apply Shape.url_result in Ha as (rules & Hload & [[_ ->]|Hscan]);
    [discriminate|].
  destruct Hscan as (text' & original & info' & st & _ & _ & Hscan & ->).
  simpl in Hinfo. injection Hinfo as ->.
  unfold UrlChecker.load_url_rules in Hload. simpl in Hload. injection Hload as <-.
  apply UrlShape.scan_parts in Hscan as (_ & _ & Hchecks).
  pose proof (UrlMimic.checks_mimic L _ _ _ _ _ _ _ w Hgov Hsim Hw _ _ Hchecks) as Hlow.
  change (Acc.score Acc.start) with 0%Q in Hlow.
  assert (Hz : (65 <= int (Props.clamp (Acc.score st)))%Z).
  { apply Final.mapped_at_least; [lia|]. change (inject_Z 65) with 65%Q. lra. }
  split.
  - rewrite UrlShape.finish_score. exact Hz.
  - rewrite UrlShape.finish_verdict.
    destruct (Z.leb_spec 65 (int (Props.clamp (Acc.score st)))); [reflexivity | lia].
Qed.

Lemma lookalike_domain_is_phishing_witness :
  exists a,
    UrlChecker.analyze_url Ref.libs Absent (PyStr "https://paypa1.com/") = Ok a
    /\ (65 <= UrlChecker.score a)%Z
    /\ UrlChecker.verdict a = phishing.
Proof.
  let r := eval vm_compute in
    (UrlChecker.analyze_url Ref.libs Absent (PyStr "https://paypa1.com/")) in
  match r with
  | Ok ?a =>
      match eval vm_compute in (UrlChecker.parsed a) with
      | Some ?info =>
          exists a;
          assert (E : UrlChecker.analyze_url Ref.libs Absent
                        (PyStr "https://paypa1.com/") = Ok a)
            by (vm_compute; reflexivity);
          split; [exact E|];
          apply (lookalike_domain_is_phishing Ref.libs "https://paypa1.com/"
                   "paypal.com" a info E);
          vm_compute; reflexivity
      end
  end.
Defined.

(** ** The whitelist test of the URL checker *)

Module SimilarFacts.
Import UrlChecker.

Lemma similar_loop_sound (L : Libs) (domain : string) (threshold : Q)
    (whitelist : list string) :
  match similar_loop L domain threshold whitelist with
  | (true, m) => m = Some domain /\ In domain whitelist
  | (false, Some w) => In w whitelist /\ w <> domain
  | (false, None) => ~ In domain whitelist
  end.
Proof.
  induction whitelist as [|w rest IH]; [simpl; tauto|].
  cbn [similar_loop].
  destruct (String.eqb_spec domain w) as [E|N]; [subst; split; [reflexivity | now left]|].
  assert (Hit : In w (w :: rest) /\ w <> domain) by (split; [now left | congruence]).
  destruct (Qle_bool threshold (ratio L domain w)); [exact Hit|].
  match goal with |- context [if ?b then (false, Some w) else _] =>
    destruct b; [exact Hit|] end.
  match goal with |- context [if ?b then (false, Some w) else _] =>
    destruct b; [exact Hit|] end.
  destruct (similar_loop L domain threshold rest) as [[] [w'|]]; simpl in *;
    tauto.
Qed.

End SimilarFacts.

(** X8. The whitelist test of the URL checker, over the domains in the
    order of iteration: it answers whitelisted only for a listed domain, a
    look-alike it reports is a listed domain other than the domain itself,
    and it reports no match only for a domain that is not listed. *)
Theorem whitelist_test_is_sound (L : Libs) (whitelist : list string) (domain : string) :
  match UrlChecker.is_similar_to_whitelisted L whitelist domain with
  | (true, m) => m = Some (lower domain) /\ In (lower domain) (set_iter L whitelist)
  | (false, Some w) => In w (set_iter L whitelist) /\ w <> lower domain
  | (false, None) => ~ In (lower domain) (set_iter L whitelist)
  end.
Proof. apply SimilarFacts.similar_loop_sound. Qed.

Lemma whitelist_test_is_sound_witness :
  In "paypal.com" (Ref.set_iter ["google.com"; "paypal.com"; "github.com"])
  /\ "paypal.com" <> "paypa1.com".
Proof.
  exact (whitelist_test_is_sound Ref.libs ["google.com"; "paypal.com"; "github.com"]
           "PayPa1.com").
Defined.

(** ** The entropy score of the URL checker *)

Module EntropyFacts.
Import UrlChecker Tally.

Lemma bump_total (c : ascii) (cnt : list (ascii * nat)) :
  total_count (bump c cnt) = S (total_count cnt).
Proof.
  induction cnt as [|[d n] t IH]; [reflexivity|].
  simpl. destruct (Ascii.eqb c d); simpl; [lia|]. rewrite IH. lia.
Qed.

Lemma fold_bump_total (l : list ascii) :
  forall cnt,
    total_count (fold_left (fun cnt c => bump c cnt) l cnt)
    = List.length l + total_count cnt.
Proof.
  induction l as [|c l IH]; intros cnt; [reflexivity|].
  simpl. rewrite IH, bump_total. lia.
Qed.

(** The counts of [Counter(s)] add up to [len(s)]. *)
Lemma Counter_total (s : string) : total_count (Counter s) = String.length s.
Proof.
  unfold Counter. rewrite fold_bump_total, Levenshtein.length_list_ascii.
  simpl. lia.
Qed.

Lemma count_le_total (cnt : list (ascii * nat)) (cv : ascii * nat) :
  In cv cnt -> snd cv <= total_count cnt.
Proof.
  induction cnt as [|x t IH]; intros H; [destruct H|].
  simpl. destruct H as [->|H]; [lia|]. specialize (IH H). lia.
Qed.

Lemma fold_nonpos (l : list Q) :
  forall acc, (forall x, In x l -> (x <= 0)%Q) -> (acc <= 0)%Q ->
    (fold_left Qplus l acc <= 0)%Q.
Proof.
  induction l as [|x l IH]; intros acc Hl Hacc; [exact Hacc|].
  simpl. apply IH; [intros y Hy; apply Hl; now right|].
  specialize (Hl x (or_introl eq_refl)). lra.
Qed.

Lemma Qnat_le (a b : nat) : a <= b -> (Qnat a <= Qnat b)%Q.
Proof. intros H. unfold Qnat. rewrite <- Zle_Qle. lia. Qed.

Lemma Qnat_pos (a : nat) : 0 < a -> (0 < Qnat a)%Q.
Proof.
  intros H. unfold Qnat. change 0%Q with (inject_Z 0). rewrite <- Zlt_Qlt. lia.
Qed.

Lemma entropy_score_range (L : Libs) (s : string) :
  (forall p, (0 < p)%Q -> (p <= 1)%Q -> (log2 L p <= 0)%Q) ->
  (0 <= entropy_score L s)%Q /\ (entropy_score L s <= 1)%Q.
Proof.
  intros Hlog. unfold entropy_score.
  destruct (negb (truthy s)) eqn:Es; [split; lra|].
  assert (Hlen : 0 < String.length s).
  { destruct s; [discriminate | simpl; lia]. }
  cbv zeta.
  match goal with |- context [Py.min ?e _] => set (x := e) end.
  assert (Hx : (0 <= x)%Q).
  { subst x.
    match goal with |- (0 <= - ?f / 6)%Q => assert (Hf : (f <= 0)%Q) end.
    { apply fold_nonpos; [|lra].
      intros y Hy. apply in_map_iff in Hy as (p & <- & Hp).
      apply filter_In in Hp as (Hp & Hpos).
      apply in_map_iff in Hp as (cv & <- & Hcv).
      unfold Qpositive in Hpos. apply negb_true_iff in Hpos.
      assert (H0 : (0 < Qnat (snd cv) / Qnat (String.length s))%Q).
      { destruct (Qlt_le_dec 0 (Qnat (snd cv) / Qnat (String.length s))) as [|Hle];
          [assumption|]. apply Qle_bool_iff in Hle. congruence. }
      assert (H1 : (Qnat (snd cv) / Qnat (String.length s) <= 1)%Q).
      { apply Qle_shift_div_r; [now apply Qnat_pos|].
        rewrite Qmult_1_l. apply Qnat_le.
        rewrite <- Counter_total. now apply count_le_total. }
      specialize (Hlog _ H0 H1).
      setoid_replace 0%Q with (Qnat (snd cv) / Qnat (String.length s) * 0)%Q by ring.
      apply Qmult_le_l; assumption. }
    apply Qle_shift_div_l; lra. }
  clearbody x. destruct (Final.min_cases x 1) as [[? ->]|[? ->]]; split; lra.
Qed.

(** The reference logarithm is not positive up to 1. *)
Lemma ref_log2_nonpos (p : Q) : (0 < p)%Q -> (p <= 1)%Q -> (Ref.log2 p <= 0)%Q.
Proof.
  intros H0 H1. unfold Ref.log2. change 0%Q with (inject_Z 0). rewrite <- Zle_Qle.
  destruct p as [n d]. unfold Qle in H1. cbn [Qnum Qden] in *.
  assert (Hn : (n <= Zpos d)%Z) by lia.
  pose proof (Z.log2_le_mono n (Zpos d) Hn). lia.
Qed.

End EntropyFacts.

(** X9. [entropy_score] lies between 0 and 1, for a logarithm that is not
    positive on the probabilities, that is on (0, 1]. *)
Theorem entropy_score_between_0_and_1 (L : Libs) (s : string) :
  (forall p, (0 < p)%Q -> (p <= 1)%Q -> (log2 L p <= 0)%Q) ->
  (0 <= UrlChecker.entropy_score L s)%Q /\ (UrlChecker.entropy_score L s <= 1)%Q.
Proof. apply EntropyFacts.entropy_score_range. Qed.

Lemma entropy_score_between_0_and_1_witness :
  (0 <= UrlChecker.entropy_score Ref.libs "/login q=1")%Q
  /\ (UrlChecker.entropy_score Ref.libs "/login q=1" <= 1)%Q.
Proof.
  apply (entropy_score_between_0_and_1 Ref.libs "/login q=1").
  exact EntropyFacts.ref_log2_nonpos.
Defined.

(** ** When the analyzers raise *)

Module Raises.
Import Acc.

Lemma url_text (L : Libs) (f : rules_file UrlChecker.rules) (r : UrlChecker.rules)
    (text : string) :
  UrlChecker.load_url_rules f = Ok r ->
  truthy text = true ->
  UrlChecker.analyze_url L f (PyStr text) = UrlChecker.analyze_text L r text.
Proof.
  intros Hload Ht. unfold UrlChecker.analyze_url. rewrite Hload. simpl.
  now rewrite Ht.
Qed.

End Raises.

(** X10. Under the built-in rules [analyze_url] fails on a non-empty string
    only where the URL cannot be parsed: it raises what [urlparse] raises,
    or what reading the port raises, and returns a result otherwise. *)
Theorem url_analysis_raises_only_on_parse_errors (L : Libs) (text : string) :
  truthy text = true ->
  match urlparse L (UrlChecker.with_scheme (strip text)) with
  | Raise e => UrlChecker.analyze_url L Absent (PyStr text) = Raise e
  | Ok parsed =>
      match port parsed with
      | Raise e => UrlChecker.analyze_url L Absent (PyStr text) = Raise e
      | Ok _ => exists a, UrlChecker.analyze_url L Absent (PyStr text) = Ok a
      end
  end.
Proof.
  intros Ht.
  rewrite (Raises.url_text L Absent UrlChecker.default_rules text eq_refl Ht).
  unfold UrlChecker.analyze_text, UrlChecker.scan.
  destruct (urlparse L _) as [parsed|e]; [|reflexivity].
  cbn [rbind]. destruct (port parsed) as [p|e]; [|reflexivity].
  cbn [rbind].
  match goal with |- context [UrlChecker.checks ?a ?b ?c ?d ?e ?f ?g ?h ?i ?j] =>
    destruct (UrlFacts.url_checks_total a c d e f g h i j) as [st Hst] end.
  rewrite Hst. cbn [rbind]. eexists. reflexivity.
Qed.

Lemma url_analysis_raises_only_on_parse_errors_witness :
  UrlChecker.analyze_url Ref.libs Absent (PyStr "http://example.com:99999/")
  = Raise ValueError.
Proof.
  exact (url_analysis_raises_only_on_parse_errors Ref.libs
           "http://example.com:99999/" eq_refl).
Defined.

(** X11. For a rule file that is missing, cannot be read, is not JSON, or
    holds a document of the shape the code reads (an object whose entries,
    where present, are lists of strings and a boolean), [analyze_email]
    fails only where the loader does: it raises what [load_email_rules]
    raises, and otherwise returns a result for every sender, subject,
    content and list of attachments, also when [urlparse] raises on a link
    of the text. *)
Theorem email_analysis_raises_only_with_the_loader (L : Libs)
    (f : rules_file EmailChecker.rules) (sender subject content : option string)
    (attachments : option (list string)) :
  match EmailChecker.load_email_rules f with
  | Raise e =>
      EmailChecker.analyze_email L f sender subject content attachments = Raise e
  | Ok _ =>
      exists r,
        EmailChecker.analyze_email L f sender subject content attachments = Ok r
  end.
Proof.
  unfold EmailChecker.analyze_email.
  destruct (EmailChecker.load_email_rules f) as [rules|e]; [|reflexivity].
  cbn [rbind].
  match goal with |- context [EmailChecker.checks ?a ?b ?c ?d ?e ?f] =>
    destruct (EmailFacts.email_checks_total a b c d e f Acc.start) as [st Hst] end.
  rewrite Hst. cbn [rbind]. eexists. reflexivity.
Qed.

Module SmsRaises.
Import Acc SmsChecker.
Local Open Scope acc_scope.

Lemma raise_first {B : Type} (m : M unit) (k : M B) (st : Acc.t) (e : exn) :
  m st = Raise e -> (m ;; k) st = Raise e.
Proof. intros H. unfold next, bind. now rewrite H. Qed.

Lemma raise_later {B : Type} (m : M unit) (k : M B) (st st' : Acc.t) (e : exn) :
  m st = Ok (tt, st') -> k st' = Raise e -> (m ;; k) st = Raise e.
Proof. intros H1 H2. unfold next, bind. now rewrite H1. Qed.

Lemma check_links_raises (L : Libs) (W : dict Q) (sender : string)
    (links : list string) (st : Acc.t) :
  dict_find "suspicious_link" W = None ->
  links <> [] ->
  check_links L W sender links st = Raise (KeyError "suspicious_link").
Proof.
  intros HW Hl. unfold check_links.
  eapply raise_later; [reflexivity|].
  destruct links as [|l ls]; [congruence|]. cbn [List.length Nat.eqb negb when].
  apply raise_first. unfold flag. eapply raise_later; [reflexivity|].
  unfold bind, lift, dict_index. now rewrite HW.
Qed.

End SmsRaises.

(** X12. A rule file for SMS whose table of weights lacks the entry
    [suspicious_link] makes [analyze_sms] raise [KeyError] on every message
    with a link (here with no number, so that no earlier check reads a
    weight): the built-in weights are not consulted entry by entry. *)
Theorem sms_missing_weight_raises_key_error (L : Libs) (r : SmsChecker.rules)
    (w : dict Q) (sender content : option string) :
  SmsChecker.weights r = Some w ->
  dict_find "suspicious_link" w = None ->
  SmsChecker.extract_links (strip (get_or content "")) <> [] ->
  SmsChecker.analyze_sms L (Document r) sender None content
  = Raise (KeyError "suspicious_link").
Proof.
  intros Hw Hk Hl. unfold SmsChecker.analyze_sms.
  change (SmsChecker.load_sms_rules (Document r)) with (Ok r). cbn [rbind].
  unfold SmsChecker.checks. cbv zeta. unfold SmsChecker.get_weights.
  rewrite Hw. cbn [get_or].
  rewrite (SmsRaises.raise_later _ _ Acc.start Acc.start
             (KeyError "suspicious_link")); [reflexivity | reflexivity |].
  apply SmsRaises.raise_first. now apply SmsRaises.check_links_raises.
Qed.

Lemma sms_missing_weight_raises_key_error_witness :
  SmsChecker.analyze_sms Ref.libs
    (Document {| SmsChecker.suspicious_numbers := None;
                 SmsChecker.urgent_phrases := None;
                 SmsChecker.phishing_keywords := None;
                 SmsChecker.unexpected_action_phrases := None;
                 SmsChecker.weights := Some [("urgent_language", 20%Q)] |})
    (Some "Shop") None (Some "see http://shop.example.com/offer")
  = Raise (KeyError "suspicious_link").
Proof.
  apply (sms_missing_weight_raises_key_error Ref.libs _
           [("urgent_language", 20%Q)]);
    [reflexivity | reflexivity | vm_compute; discriminate].
Defined.

(** ** The spelling heuristic of the email checker *)

Module SpellingFacts.
Import EmailChecker Spelling.

Lemma count_if_zero (p : ascii -> bool) (s : string) :
  count_if p s = 0 <-> any_char p s = false.
Proof.
  induction s as [|c s IH]; simpl; [tauto|].
  destruct (p c); simpl; [split; [lia | discriminate] | exact IH].
Qed.

Lemma triples_skip (s : string) :
  forall skip, count_il1_triples s skip = count_il1_triples (drop skip s) 0.
Proof.
  induction s as [|a t IH]; intros skip.
  - destruct skip; reflexivity.
  - destruct skip as [|k]; [reflexivity|]. cbn [count_il1_triples drop]. apply IH.
Qed.

Lemma short_no_triple (s : string) :
  String.length s < 3 -> has_il1_triple s = false.
Proof.
  destruct s as [|a [|b [|c s]]]; simpl; intros H; try reflexivity; lia.
Qed.

Lemma triples_zero (s : string) :
  count_il1_triples s 0 = 0 <-> has_il1_triple s = false.
Proof.
  induction s as [|a t IH]; [simpl; tauto|].
  cbn [count_il1_triples has_il1_triple il1_triple_at].
  destruct t as [|b [|c u]].
  - simpl. tauto.
  - simpl. tauto.
  - destruct (il1_char a && il1_char b && il1_char c).
    + simpl. split; [lia | discriminate].
    + rewrite orb_false_l. exact IH.
Qed.

Lemma spelling_positive (text : string) :
  Nat.ltb 0 (count_spelling_errors text) = true
  <-> any_char isdigit text = true \/ has_il1_triple text = true.
Proof.
  unfold count_spelling_errors. rewrite Nat.ltb_lt.
  change (between 48 57) with isdigit.
  pose proof (count_if_zero isdigit text) as D.
  pose proof (triples_zero text) as T.
  split.
  - intros H.
    destruct (any_char isdigit text); [now left|].
    destruct (has_il1_triple text); [now right|].
    assert (count_if isdigit text = 0) by now apply D.
    assert (count_il1_triples text 0 = 0) by now apply T. lia.
  - intros [H|H].
    + destruct (Nat.eq_dec (count_if isdigit text) 0) as [E|N]; [|lia].
      apply D in E. congruence.
    + destruct (Nat.eq_dec (count_il1_triples text 0) 0) as [E|N]; [|lia].
      apply T in E. congruence.
Qed.

End SpellingFacts.

(** X13. On a text of code points 0 to 255, [count_spelling_errors] is
    positive exactly for a text with a digit or with three characters in a
    row among i, l, 1 and |, in either case of the letters: the words
    "william" and "bill" in a sender address count as spelling errors.
    (Beyond that range the class also matches U+0130 and U+0131.) *)
Theorem spelling_errors_are_digits_or_il1_runs (text : string) :
  0 < EmailChecker.count_spelling_errors text
  <-> any_char isdigit text = true \/ Spelling.has_il1_triple text = true.
Proof.
  rewrite <- SpellingFacts.spelling_positive. symmetry. apply Nat.ltb_lt.
Qed.

Lemma spelling_errors_are_digits_or_il1_runs_witness :
  0 < EmailChecker.count_spelling_errors "bill@example.org".
Proof.
  apply (proj2 (spelling_errors_are_digits_or_il1_runs "bill@example.org")).
  right. vm_compute. reflexivity.
Defined.

Module SpellingCheck.
Import Acc AccFacts Range RangeFacts EmailChecker EmailFacts Spelling.
Local Open Scope acc_scope.

Ltac grow :=
  apply gains_grows; cbv zeta;
  repeat first
    [ loops grows_ret hit_grows flag_grows_weights set_then_grows
    | grows_step ].

Ltac hush :=
  apply keeps_quiet; cbv zeta;
  repeat first
    [ apply quiet_flag | apply quiet_set_indicator | apply quiet_ret
    | loops quiet_ret hit_quiet_weight flag_quiet_weights set_then_quiet
    | apply quiet_next | apply quiet_when | apply quiet_if ].

Lemma nonempty_of_spelling (sender : string) :
  Nat.ltb 0 (count_spelling_errors sender) = true -> truthy sender = true.
Proof. destruct sender; [discriminate | reflexivity]. Qed.

Lemma check_spelling_fires (sender : string) :
  Nat.ltb 0 (count_spelling_errors sender) = true ->
  gains 25 (check_spelling sender) /\ says reason (check_spelling sender).
Proof.
  intros H. unfold check_spelling. rewrite (nonempty_of_spelling sender H).
  cbv zeta. rewrite H. cbn [when]. split.
  - apply (gains_weaken (0 + 25) 25); [lra|].
    apply gains_next; [apply gains_set_indicator|].
    apply gains_flag. intros q E. vm_compute in E. inversion E; subst. lra.
  - apply says_second. apply says_flag.
Qed.

Lemma checks_spelling (L : Libs) (r : rules) (sender subject content : string)
    (attachments : list string) :
  Nat.ltb 0 (count_spelling_errors sender) = true ->
  gains 25 (checks L r sender subject content attachments)
  /\ says reason (checks L r sender subject content attachments).
Proof.
  intros H. destruct (check_spelling_fires sender H) as [Hg Hs].
  unfold checks. cbv zeta. split.
  - apply (gains_weaken (0 + (0 + (0 + (0 + (0 + (0 + (0 + (0 + (0 + (25 + 0)))))))))) 25);
      [vm_compute; discriminate|].
    apply gains_next; [unfold check_typosquatting; grow|].
    apply gains_next; [unfold check_local_part; grow|].
    apply gains_next; [unfold check_sender_domain; grow|].
    apply gains_next; [unfold check_links; grow|].
    apply gains_next; [unfold check_urgent; grow|].
    apply gains_next; [unfold check_info; grow|].
    apply gains_next; [unfold check_attachments; grow|].
    apply gains_next; [unfold check_promo; grow|].
    apply gains_next; [unfold check_subject; grow|].
    apply gains_next; [exact Hg|].
    unfold check_greeting; grow.
  - do 9 apply says_second.
    apply says_first; [exact Hs|].
    unfold check_greeting. hush.
Qed.

Lemma finish_reasons (sender subject : string) (links attachments : list string)
    (st : Acc.t) (r : string) :
  In r (Acc.reasons st) -> In r (reasons (finish sender subject links attachments st)).
Proof. simpl. destruct (Acc.reasons st); [intros [] | auto]. Qed.

End SpellingCheck.

(** X14. When the rule file is missing, or holds a document of the shape
    the code reads (an object whose entries, where present, are lists of
    strings and a boolean), an email whose sender address, stripped of
    white space, holds a digit or three characters in a row among i, l, 1
    and | scores at least 25, and the result names the spelling heuristic
    among its reasons, whatever the entries of the document are. *)
Theorem sender_with_digit_scores_25 (L : Libs) (f : rules_file EmailChecker.rules)
    (rules : EmailChecker.rules) (sender subject content : option string)
    (attachments : option (list string)) :
  EmailChecker.load_email_rules f = Ok rules ->
  any_char isdigit (strip (get_or sender "")) = true
  \/ Spelling.has_il1_triple (strip (get_or sender "")) = true ->
  exists r,
    EmailChecker.analyze_email L f sender subject content attachments = Ok r
    /\ (25 <= EmailChecker.score r)%Z
    /\ In "Potential spelling errors or typosquatting in sender address"
         (EmailChecker.reasons r).
Proof.
  intros Hload Hsender. apply SpellingFacts.spelling_positive in Hsender.
  unfold EmailChecker.analyze_email. rewrite Hload. cbn [rbind].
  match goal with |- context [EmailChecker.checks ?a ?b ?c ?d ?e ?f] =>
    destruct (EmailFacts.email_checks_total a b c d e f Acc.start) as [st Hst];
    destruct (SpellingCheck.checks_spelling a b c d e f Hsender) as [Hg Hs]
  end.
  rewrite Hst. cbn [rbind snd]. eexists. split; [reflexivity|]. split.
  - specialize (Hg _ _ Hst). change (Acc.score Acc.start) with 0%Q in Hg.
    apply Final.mapped_at_least; [lia|]. change (inject_Z 25) with 25%Q. lra.
  - apply SpellingCheck.finish_reasons. apply (Hs _ _ Hst).
Qed.

Lemma sender_with_digit_scores_25_witness :
  exists r,
    EmailChecker.analyze_email Ref.libs Absent (Some "william@example.org")
      (Some "Lunch") (Some "See you at noon, Anna") None = Ok r
    /\ (25 <= EmailChecker.score r)%Z
    /\ In "Potential spelling errors or typosquatting in sender address"
         (EmailChecker.reasons r).
Proof.
  apply (sender_with_digit_scores_25 Ref.libs Absent EmailChecker.default_rules);
    [reflexivity | right; vm_compute; reflexivity].
Defined.

(** ** The helper functions of the email checker *)

Module TextFacts.

Lemma prefix_one (c d : ascii) (s : string) :
  String.prefix (String c "") (String d s) = Ascii.eqb c d.
Proof.
  simpl. destruct (Ascii.ascii_dec c d) as [E|N].
  - subst. rewrite Ascii.eqb_refl. now destruct s.
  - symmetry. now apply Ascii.eqb_neq.
Qed.

(** [c in s] for a one-character string. *)
Lemma contains_one (c : ascii) (s : string) :
  contains (String c "") s = any_char (Ascii.eqb c) s.
Proof.
  induction s as [|d s IH]; [reflexivity|].
  cbn [contains any_char]. now rewrite prefix_one, IH.
Qed.

Lemma any_char_app (p : ascii -> bool) (a b : string) :
  any_char p (a ++ b) = any_char p a || any_char p b.
Proof. induction a as [|c a IH]; simpl; [reflexivity|]. now rewrite IH, orb_assoc. Qed.

Lemma split_on_nonempty (p : ascii -> bool) (s : string) : split_on p s <> [].
Proof.
  induction s as [|c s IH]; simpl; [discriminate|].
  destruct (p c); [discriminate|]. destruct (split_on p s); discriminate.
Qed.

Lemma split_on_none (p : ascii -> bool) (s : string) :
  any_char p s = false -> split_on p s = [s].
Proof.
  induction s as [|c s IH]; [reflexivity|].
  simpl. intros H. apply orb_false_iff in H as [Hc Hs].
  now rewrite Hc, IH.
Qed.

Lemma split_on_app (p : ascii -> bool) (c : ascii) (a b : string) :
  p c = true ->
  split_on p (a ++ String c b) = (split_on p a ++ split_on p b)%list.
Proof.
  intros Hc. induction a as [|x a IH]; simpl.
  - now rewrite Hc.
  - rewrite IH. destruct (p x); [reflexivity|].
    pose proof (split_on_nonempty p a) as N.
    destruct (split_on p a) as [|h tl]; [congruence | reflexivity].
Qed.

Lemma last_app (l1 l2 : list string) :
  l2 <> [] -> last (l1 ++ l2)%list = last l2.
Proof.
  intros N. unfold last. destruct l2 as [|x l2]; [congruence|].
  induction l1 as [|y l1 IH]; [reflexivity|].
  simpl app. rewrite <- IH. simpl. destruct (l1 ++ x :: l2)%list eqn:E; [|reflexivity].
  destruct l1; discriminate.
Qed.

Lemma lower_app (a b : string) : lower (a ++ b) = lower a ++ lower b.
Proof. induction a as [|c a IH]; simpl; congruence. Qed.

Lemma length_lower (s : string) : String.length (lower s) = String.length s.
Proof. induction s as [|c s IH]; simpl; congruence. Qed.

Lemma take_lower (n : nat) : forall s, take n (lower s) = lower (take n s).
Proof.
  induction n as [|n IH]; intros s.
  - now rewrite !LinkFacts.take_0.
  - destruct s as [|c s]; [reflexivity|].
    cbn [lower]. rewrite !LinkFacts.take_S. cbn [lower]. now rewrite IH.
Qed.

Lemma take_app_long (n : nat) :
  forall a b, n <= String.length a -> take n (a ++ b) = take n a.
Proof.
  induction n as [|n IH]; intros a b H.
  - now rewrite !LinkFacts.take_0.
  - destruct a as [|c a]; [simpl in H; lia|].
    simpl in H. cbn [append]. rewrite !LinkFacts.take_S. rewrite IH by lia.
    reflexivity.
Qed.

End TextFacts.

(** X15. [extract_domain_from_email] returns the empty string for an
    address without an at sign, and otherwise what follows the last at
    sign, in lower case and stripped of white space. *)
Theorem sender_domain_follows_the_last_at_sign :
  (forall email, contains "@" email = false ->
     EmailChecker.extract_domain_from_email email = "")
  /\ (forall local_part dom, contains "@" dom = false ->
        EmailChecker.extract_domain_from_email (local_part ++ "@" ++ dom)
        = strip (lower dom)).
Proof.
  split.
  - intros email H. unfold EmailChecker.extract_domain_from_email.
    rewrite H. now rewrite orb_true_r.
  - intros local_part dom H. unfold EmailChecker.extract_domain_from_email.
    rewrite TextFacts.contains_one in H.
    assert (Hc : contains "@" (local_part ++ "@" ++ dom) = true).
    { rewrite TextFacts.contains_one, TextFacts.any_char_app. simpl.
      now rewrite orb_true_r. }
    assert (Ht : truthy (local_part ++ "@" ++ dom) = true)
      by (destruct local_part; reflexivity).
    rewrite Hc, Ht. cbn [negb orb].
    unfold split. change ("@" ++ dom) with (String "@" dom).
    rewrite TextFacts.split_on_app by reflexivity.
    rewrite TextFacts.last_app by apply TextFacts.split_on_nonempty.
    now rewrite TextFacts.split_on_none.
Qed.

Lemma sender_domain_follows_the_last_at_sign_witness :
  EmailChecker.extract_domain_from_email "a@b@Example.COM " = "example.com"
  /\ EmailChecker.extract_domain_from_email "no at sign" = "".
Proof.
  split.
  - exact (proj2 sender_domain_follows_the_last_at_sign "a@b" "Example.COM " eq_refl).
  - exact (proj1 sender_domain_follows_the_last_at_sign "no at sign" eq_refl).
Defined.

(** X16. [is_generic_greeting] looks at the first 100 characters only: what
    follows them does not change its answer. *)
Theorem greeting_is_sought_in_the_first_100_characters (text rest : string) :
  100 <= String.length text ->
  EmailChecker.is_generic_greeting (text ++ rest)
  = EmailChecker.is_generic_greeting text.
Proof.
  intros H. unfold EmailChecker.is_generic_greeting. cbv zeta.
  rewrite TextFacts.lower_app, TextFacts.take_app_long
    by (rewrite TextFacts.length_lower; exact H).
  reflexivity.
Qed.

Lemma greeting_is_sought_in_the_first_100_characters_witness :
  EmailChecker.is_generic_greeting
    (("Our records show that the invoice of last month is still open; "
      ++ "kindly settle it within two weeks, please. ") ++ "Hello and goodbye")
  = false.
Proof.
  rewrite (greeting_is_sought_in_the_first_100_characters
             ("Our records show that the invoice of last month is still open; "
              ++ "kindly settle it within two weeks, please. ") "Hello and goodbye");
    [vm_compute; reflexivity | apply Nat.leb_le; vm_compute; reflexivity].
Defined.

Module AttachmentFacts.

Lemma filter_none {A : Type} (f : A -> bool) (l : list A) :
  Nat.eqb (List.length (filter f l)) 0 = negb (existsb f l).
Proof.
  induction l as [|x l IH]; [reflexivity|].
  simpl. destruct (f x); [reflexivity | exact IH].
Qed.

Lemma filter_some {A : Type} (f : A -> bool) (l : list A) :
  Nat.ltb 0 (List.length (filter f l)) = existsb f l.
Proof.
  induction l as [|x l IH]; [reflexivity|].
  simpl. destruct (f x); [reflexivity | exact IH].
Qed.

End AttachmentFacts.

(** X17. Check 5 of the email checker adds 20 when an attachment ends in a
    dangerous extension (in either case), 10 when none does but the text
    names such an extension, and nothing otherwise; it never adds both. *)
Theorem attachment_check_adds_0_10_or_20 (r : EmailChecker.rules)
    (attachments : list string) (full_text : string) (st : Acc.t) :
  let extensions := get_or (EmailChecker.dangerous_attachments r) [] in
  let attached :=
    existsb (fun att =>
      existsb (fun ext => endswith (lower att) (lower ext)) extensions) attachments in
  let mentioned := existsb (fun ext => contains (lower ext) full_text) extensions in
  exists st',
    EmailChecker.check_attachments r attachments full_text st = Ok (tt, st')
    /\ (Acc.score st'
        == Acc.score st + (if attached then 20 else if mentioned then 10 else 0))%Q.
Proof.
  cbv zeta. unfold EmailChecker.check_attachments. cbv zeta.
  rewrite AttachmentFacts.filter_none, AttachmentFacts.filter_some.
  destruct (existsb _ attachments); destruct (existsb _ (get_or _ _));
    eexists; (split; [reflexivity|]); simpl; ring.
Qed.

(** ** The SMS checker under the built-in weights *)

Module SmsBounds.
Import Acc AccFacts Range RangeFacts SmsChecker SmsFacts.
Local Open Scope acc_scope.

Ltac grow :=
  apply gains_grows; cbv zeta;
  repeat first
    [ apply grows_flag; intros q E; cbn in E; inversion E; subst;
      apply keyword_weight
    | grows_step ].

Ltac weight :=
  let q := fresh "q" in let E := fresh "E" in
  intros q E; vm_compute in E; inversion E; subst; vm_compute; discriminate.

(** With a shortened link among the links, check 2 adds the weight of a
    link and the weight of a shortened one. *)
Lemma check_links_shortened (L : Libs) (sender : string) (links : list string) :
  existsb (is_shortened_url L) links = true ->
  gains 55 (check_links L default_weights sender links).
Proof.
  intros H. unfold check_links. cbv zeta.
  rewrite !AttachmentFacts.filter_none, H.
  assert (Hl : Nat.eqb (List.length links) 0 = false)
    by (destruct links; [discriminate | reflexivity]).
  rewrite Hl. cbn [negb when].
  apply (gains_weaken (0 + (25 + (30 + 0))) 55); [vm_compute; discriminate|].
  apply gains_next; [apply gains_set_indicator|].
  apply gains_next; [apply gains_flag; weight|].
  apply gains_next.
  - apply (gains_weaken (0 + 30) 30); [lra|].
    apply gains_next; [apply gains_set_indicator | apply gains_flag; weight].
  - grow.
Qed.

Lemma checks_shortened (L : Libs) (sender number content : string) :
  existsb (is_shortened_url L) (extract_links content) = true ->
  gains 55 (checks L default_rules sender number content).
Proof.
  intros H. unfold checks. cbv zeta.
  change (get_weights default_rules) with default_weights.
  apply (gains_weaken (0 + (55 + (0 + (0 + (0 + (0 + (0 + (0 + (0 + (0 + 0)))))))))) 55);
    [vm_compute; discriminate|].
  apply gains_next; [unfold check_number; grow|].
  apply gains_next; [now apply check_links_shortened|].
  apply gains_next; [unfold check_urgent; grow|].
  apply gains_next; [unfold check_keywords; grow|].
  apply gains_next; [unfold check_unexpected; grow|].
  apply gains_next; [unfold check_info; grow|].
  apply gains_next; [unfold check_promo; grow|].
  apply gains_next; [unfold check_bank; grow|].
  apply gains_next; [unfold check_contact; grow|].
  apply gains_next; [unfold check_sender_name; grow|].
  unfold check_format; grow.
Qed.

End SmsBounds.

(** X18. Under the built-in rules an SMS whose content holds a link to a
    shortening service scores at least 55 and is never judged safe, whoever
    the sender is and whatever else the message says. *)
Theorem shortened_link_is_never_safe (L : Libs) (sender number content : option string) :
  existsb (SmsChecker.is_shortened_url L)
    (SmsChecker.extract_links (strip (get_or content ""))) = true ->
  exists r,
    SmsChecker.analyze_sms L Absent sender number content = Ok r
    /\ (55 <= SmsChecker.score r)%Z
    /\ SmsChecker.verdict r <> safe.
Proof.
  intros H. unfold SmsChecker.analyze_sms.
  change (SmsChecker.load_sms_rules Absent) with (Ok SmsChecker.default_rules).
  cbn [rbind].
  match goal with |- context [SmsChecker.checks ?a ?b ?c ?d ?e] =>
    destruct (SmsFacts.sms_checks_total a c d e Acc.start) as [st Hst];
    pose proof (SmsBounds.checks_shortened a c d e H _ _ Hst) as Hg
  end.
  rewrite Hst. cbn [rbind snd]. eexists. split; [reflexivity|].
  change (Acc.score Acc.start) with 0%Q in Hg.
  assert (Hz : (55 <= int (Props.clamp (Acc.score st)))%Z).
  { apply Final.mapped_at_least; [lia|]. change (inject_Z 55) with 55%Q. lra. }
  split; [exact Hz|].
  cbn [SmsChecker.finish SmsChecker.verdict].
  change (SmsChecker.mapped_score (Acc.score st))
    with (int (Props.clamp (Acc.score st))).
  destruct (Z.leb 65 _); [discriminate|].
  destruct (Z.leb_spec 30 (int (Props.clamp (Acc.score st)))); [discriminate | lia].
Qed.

Lemma shortened_link_is_never_safe_witness :
  exists r,
    SmsChecker.analyze_sms Ref.libs Absent (Some "Anna") (Some "+31 6 1234 5678")
      (Some "photos of the trip: https://tinyurl.com/abc reply if you like them")
    = Ok r
    /\ (55 <= SmsChecker.score r)%Z
    /\ SmsChecker.verdict r <> safe.
Proof.
  apply (shortened_link_is_never_safe Ref.libs). vm_compute. reflexivity.
Defined.

Module NumberFacts.
Import Acc AccFacts Range RangeFacts SmsChecker SmsFacts SmsBounds.
Local Open Scope acc_scope.

Lemma contains_head (x : ascii) (p s : string) :
  contains (String x p) s = true -> any_char (Ascii.eqb x) s = true.
Proof.
  induction s as [|d s IH]; [discriminate|].
  cbn [contains any_char]. intros H. apply orb_true_iff in H as [H|H].
  - simpl in H. destruct (Ascii.ascii_dec x d) as [E|N]; [|discriminate].
    subst. now rewrite Ascii.eqb_refl.
  - rewrite (IH H). apply orb_true_r.
Qed.

Lemma any_char_lower (q : ascii -> bool) (s : string) :
  any_char q (lower s) = any_char (fun c => q (lower_char c)) s.
Proof. induction s as [|c s IH]; simpl; congruence. Qed.

Lemma any_char_nonempty (q : ascii -> bool) (s : string) :
  any_char q s = true -> truthy s = true.
Proof. destruct s; [discriminate | reflexivity]. Qed.

(** A letter that starts one of the four words is no character of a phone
    number. *)
Lemma letter_not_number (x c : ascii) :
  existsb (Ascii.eqb x) ["u"; "p"; "b"; "a"]%char = true ->
  Ascii.eqb x (lower_char c) = true ->
  number_char c = false /\ Ascii.eqb c "+" = false.
Proof.
  cbn [existsb]. rewrite !orb_true_iff.
  intros [H|[H|[H|[H|H]]]]; try discriminate;
    apply Ascii.eqb_eq in H; subst x;
    destruct c as [[] [] [] [] [] [] [] []]; vm_compute; intros E;
    first [discriminate | split; reflexivity].
Qed.

Lemma all_char_false (q : ascii -> bool) (s : string) :
  any_char (fun c => negb (q c)) s = true -> all_char q s = false.
Proof.
  induction s as [|c s IH]; [discriminate|].
  simpl. destruct (q c); simpl; [exact IH | reflexivity].
Qed.

Lemma any_char_weaken (p q : ascii -> bool) (s : string) :
  (forall c, p c = true -> q c = true) ->
  any_char p s = true -> any_char q s = true.
Proof.
  intros Hpq. induction s as [|c s IH]; [discriminate|].
  simpl. intros H. apply orb_true_iff in H as [H|H].
  - now rewrite (Hpq c H).
  - rewrite (IH H). apply orb_true_r.
Qed.

Lemma letter_breaks_format (x : ascii) (number : string) :
  existsb (Ascii.eqb x) ["u"; "p"; "b"; "a"]%char = true ->
  any_char (Ascii.eqb x) (lower number) = true ->
  number_format_ok number = false.
Proof.
  intros Hx H. rewrite any_char_lower in H.
  unfold number_format_ok. apply andb_false_iff. left.
  apply all_char_false.
  destruct number as [|c t]; [discriminate|].
  destruct (Ascii.eqb c "+") eqn:Ec.
  - simpl in H. apply orb_true_iff in H as [H|H].
    + destruct (letter_not_number x c Hx H) as [_ N]. congruence.
    + revert H. apply any_char_weaken. intros d Hd.
      now destruct (letter_not_number x d Hx Hd) as [-> _].
  - revert H. apply any_char_weaken. intros d Hd.
    now destruct (letter_not_number x d Hx Hd) as [-> _].
Qed.

Lemma word_breaks_format (number : string) :
  existsb (fun word => contains word (lower number))
    ["unknown"; "private"; "blocked"; "anonymous"] = true ->
  truthy number = true
  /\ is_suspicious_number number = true
  /\ number_format_ok number = false.
Proof.
  intros H.
  assert (Hf : number_format_ok number = false).
  { cbn [existsb] in H. rewrite !orb_true_iff in H.
    destruct H as [H|[H|[H|[H|H]]]]; try discriminate;
      apply contains_head in H;
      (eapply letter_breaks_format; [|exact H]); reflexivity. }
  assert (Ht : truthy number = true).
  { destruct number; [|reflexivity]. vm_compute in H. discriminate. }
  split; [exact Ht|]. split; [|exact Hf].
  unfold is_suspicious_number. rewrite Ht. cbn [negb]. cbv zeta.
  cbn [existsb] in *. rewrite !orb_true_iff in *. tauto.
Qed.

Lemma check_number_withheld (r : rules) (number : string) :
  existsb (fun word => contains word (lower number))
    ["unknown"; "private"; "blocked"; "anonymous"] = true ->
  gains 35 (check_number r default_weights number).
Proof.
  intros H. destruct (word_breaks_format number H) as (Ht & Hs & Hf).
  unfold check_number. rewrite Ht, Hs, Hf. cbv zeta.
  rewrite orb_true_r. cbn [negb andb when].
  apply (gains_weaken (0 + (25 + (0 + 10))) 35); [vm_compute; discriminate|].
  apply gains_next; [apply gains_set_indicator|].
  apply gains_next; [apply gains_flag; weight|].
  apply gains_next; [apply gains_set_indicator | apply gains_flag; weight].
Qed.

Lemma checks_withheld (L : Libs) (sender number content : string) :
  existsb (fun word => contains word (lower number))
    ["unknown"; "private"; "blocked"; "anonymous"] = true ->
  gains 35 (checks L default_rules sender number content).
Proof.
  intros H. unfold checks. cbv zeta.
  change (get_weights default_rules) with default_weights.
  apply (gains_weaken (35 + 0) 35); [vm_compute; discriminate|].
  apply gains_next; [now apply check_number_withheld|].
  unfold check_links, check_urgent, check_keywords, check_unexpected, check_info,
    check_promo, check_bank, check_contact, check_sender_name, check_format.
  grow.
Qed.

End NumberFacts.

(** X19. Under the built-in rules an SMS from a number given as a word
    (unknown, private, blocked or anonymous, in either case) gets both the
    weight of a suspicious number and the weight of an invalid format: it
    scores at least 35 and is never judged safe. *)
Theorem withheld_number_is_never_safe (L : Libs) (sender number content : option string) :
  existsb (fun word => contains word (lower (strip (get_or number ""))))
    ["unknown"; "private"; "blocked"; "anonymous"] = true ->
  exists r,
    SmsChecker.analyze_sms L Absent sender number content = Ok r
    /\ (35 <= SmsChecker.score r)%Z
    /\ SmsChecker.verdict r <> safe.
Proof.
  intros H. unfold SmsChecker.analyze_sms.
  change (SmsChecker.load_sms_rules Absent) with (Ok SmsChecker.default_rules).
  cbn [rbind].
  match goal with |- context [SmsChecker.checks ?a ?b ?c ?d ?e] =>
    destruct (SmsFacts.sms_checks_total a c d e Acc.start) as [st Hst];
    pose proof (NumberFacts.checks_withheld a c d e H _ _ Hst) as Hg
  end.
  rewrite Hst. cbn [rbind snd]. eexists. split; [reflexivity|].
  change (Acc.score Acc.start) with 0%Q in Hg.
  assert (Hz : (35 <= int (Props.clamp (Acc.score st)))%Z).
  { apply Final.mapped_at_least; [lia|]. change (inject_Z 35) with 35%Q. lra. }
  split; [exact Hz|].
  cbn [SmsChecker.finish SmsChecker.verdict].
  change (SmsChecker.mapped_score (Acc.score st))
    with (int (Props.clamp (Acc.score st))).
  destruct (Z.leb 65 _); [discriminate|].
  destruct (Z.leb_spec 30 (int (Props.clamp (Acc.score st)))); [discriminate | lia].
Qed.

Lemma withheld_number_is_never_safe_witness :
  exists r,
    SmsChecker.analyze_sms Ref.libs Absent None (Some " Private number ")
      (Some "see you at eight") = Ok r
    /\ (35 <= SmsChecker.score r)%Z
    /\ SmsChecker.verdict r <> safe.
Proof.
  apply (withheld_number_is_never_safe Ref.libs). vm_compute. reflexivity.
Defined.

(** ** The statistics of the scans *)

Module LedgerFacts.
Import App Ledger.

Lemma dict_find_set_same {V : Type} (k : string) (v : V) (d : dict V) :
  dict_find k (dict_set k v d) = Some v.
Proof.
  induction d as [|[k' v'] t IH]; simpl.
  - now rewrite String.eqb_refl.
  - destruct (String.eqb k k') eqn:E; simpl; [now rewrite String.eqb_refl|].
    now rewrite E.
Qed.

Lemma dict_find_set_other {V : Type} (k k' : string) (v : V) (d : dict V) :
  k' <> k -> dict_find k' (dict_set k v d) = dict_find k' d.
Proof.
  intros N. induction d as [|[k0 v0] t IH]; simpl.
  - destruct (String.eqb_spec k' k); [congruence | reflexivity].
  - destruct (String.eqb_spec k k0) as [E|E]; simpl.
    + subst k0. destruct (String.eqb_spec k' k); [congruence | reflexivity].
    + destruct (String.eqb k' k0); [reflexivity | exact IH].
Qed.

(** Replacing the entry of a date changes the sum by the difference of the
    two entries. *)
Lemma daily_sum_set (f : day_counts -> nat) (t today : string)
    (m : dict day_counts) (d : daily) :
  f no_day = 0 ->
  daily_sum f t (dict_set today m d)
  + f (get_or (dict_find t (get_or (dict_find today d) [])) no_day)
  = daily_sum f t d + f (get_or (dict_find t m) no_day).
Proof.
  intros H0. induction d as [|[k' m'] rest IH]; simpl.
  - rewrite H0. lia.
  - destruct (String.eqb today k') eqn:E; simpl; lia.
Qed.

Lemma bump_same (f : day_counts -> nat) (g : day_counts -> day_counts) (n : nat)
    (t today : string) (d : daily) :
  f no_day = 0 ->
  (forall x, f (g x) = f x + n) ->
  daily_sum f t (bump_daily today t g d) = daily_sum f t d + n.
Proof.
  intros H0 Hg. unfold bump_daily. cbv zeta.
  pose proof (daily_sum_set f t today
                (dict_set t
                   (g (get_or (dict_find t (get_or (dict_find today d) [])) no_day))
                   (get_or (dict_find today d) [])) d H0) as H.
  rewrite dict_find_set_same in H. cbn [get_or] in H. rewrite Hg in H. lia.
Qed.

Lemma bump_other (f : day_counts -> nat) (g : day_counts -> day_counts)
    (t t' today : string) (d : daily) :
  f no_day = 0 ->
  t' <> t ->
  daily_sum f t' (bump_daily today t g d) = daily_sum f t' d.
Proof.
  intros H0 N. unfold bump_daily. cbv zeta.
  pose proof (daily_sum_set f t' today
                (dict_set t
                   (g (get_or (dict_find t (get_or (dict_find today d) [])) no_day))
                   (get_or (dict_find today d) [])) d H0) as H.
  rewrite dict_find_set_other in H by exact N. lia.
Qed.

Lemma find_entry_key (scan_type : string) (k : kind) :
  find_entry scan_type = Some (Counters k) -> scan_type = key_of k.
Proof.
  unfold find_entry.
  destruct (String.eqb_spec scan_type "email");
    [intros H; inversion H; subst; reflexivity|].
  destruct (String.eqb_spec scan_type "sms");
    [intros H; inversion H; subst; reflexivity|].
  destruct (String.eqb_spec scan_type "url");
    [intros H; inversion H; subst; reflexivity|].
  destruct (String.eqb scan_type "pie"); discriminate.
Qed.

Lemma key_of_inj (k k' : kind) : key_of k = key_of k' -> k = k'.
Proof. destruct k, k'; simpl; intros H; (reflexivity || discriminate). Qed.

Lemma latest_bounds (x : item) (l : list item) (n : nat) :
  List.length l <= n ->
  List.length (firstn 10 (x :: l)) <= 10
  /\ List.length (firstn 10 (x :: l)) <= n + 1.
Proof.
  intros H. rewrite length_firstn. cbn [List.length]. lia.
Qed.

Lemma key_eq (k k' : kind) : k = k' \/ k <> k'.
Proof. destruct k, k'; (now left) || (right; discriminate). Qed.

(** One call keeps the counters consistent. *)
Lemma update_consistent (db : Db) (today now scan_type verdict input_value summary : string)
    (st : state) :
  consistent st ->
  consistent (fst (update_stats db today now scan_type verdict input_value summary st)).
Proof.
  intros H. unfold update_stats.
  destruct (find_entry scan_type) as [[k|]|] eqn:Ef; [|exact H|exact H].
  apply find_entry_key in Ef. subst scan_type.
  destruct H as (Ht & Hpp & Hps & Hpf & Hd & Hl).
  assert (Hother : forall k', k' <> k -> key_of k' <> key_of k)
    by (intros k' N E; apply N; now apply key_of_inj).
  destruct (String.eqb (lower verdict) "phishing");
    [|destruct (String.eqb (lower verdict) "suspicious")];
    destruct (save_log db); cbn [fst]; unfold consistent;
    cbn [stats_now daily_now];
    (split; [intros k'; pose proof (Ht k'); destruct k, k'; simpl in *; lia|]);
    (split; [pose proof (Ht Email); destruct k; simpl in *; lia|]);
    (split; [destruct k; simpl in *; lia|]);
    (split; [destruct k; simpl in *; lia|]);
    (split;
     [ intros k'; destruct (Hd k') as [Hd1 Hd2];
       destruct (key_eq k k') as [E|N];
       [ subst k';
         first [ rewrite (bump_same day_phishing _ 1) by (reflexivity || (intros; reflexivity))
               | rewrite (bump_same day_phishing _ 0) by (reflexivity || (intros; simpl; lia)) ];
         first [ rewrite (bump_same day_safe _ 1) by (reflexivity || (intros; reflexivity))
               | rewrite (bump_same day_safe _ 0) by (reflexivity || (intros; simpl; lia)) ];
         destruct k; simpl in *; lia
       | rewrite !bump_other by (reflexivity || (apply Hother; congruence));
         destruct k, k'; simpl in *; first [congruence | lia] ]
     | intros k'; destruct (Hl k') as [Hl1 Hl2];
       destruct k, k'; simpl latest; simpl total;
       first [ apply latest_bounds; simpl in *; lia
             | simpl in *; lia ] ]).
Qed.

End LedgerFacts.

(** X20. However [update_stats] is called and whatever the database does,
    the statistics stay consistent: per scan type the total is the sum of
    the three verdict counters, the pie counters are the sums over the scan
    types, the daily phishing counters add up to the phishing counter and
    the daily safe counters to the safe and suspicious counters together,
    and a latest list has at most 10 items and no more than the total. *)
Theorem statistics_stay_consistent (st : App.state) :
  Ledger.reachable st -> Ledger.consistent st.
Proof.
  induction 1 as [|db today now scan_type verdict input_value summary st _ IH].
  - unfold Ledger.consistent. cbn.
    repeat split; try reflexivity; destruct k; simpl; lia.
  - now apply LedgerFacts.update_consistent.
Qed.

Lemma statistics_stay_consistent_witness :
  Ledger.consistent
    (fst (App.update_stats
            {| App.session_local := None; App.add_and_commit := Some ValueError;
               App.rollback := None; App.close := None |}
            "2024-05-01" "2024-05-01T10:00:00" "sms" "Suspicious" "+000 123"
            "+000 123 - suspicious"
            {| App.stats_now := App.scan_stats; App.daily_now := App.daily_stats |})).
Proof.
  apply statistics_stay_consistent.
  apply Ledger.reach_update. apply Ledger.reach_start.
Defined.

(** X21. When [update_stats] ends with an exception, no latest list
    changes: for the key [pie] it raises [KeyError] and changes nothing, and
    when the scan log cannot be saved the scan is counted but not listed. *)
Theorem failed_update_is_counted_but_not_listed :
  (forall db today now verdict input_value summary st,
     App.update_stats db today now "pie" verdict input_value summary st
     = (st, Some (KeyError "total")))
  /\ (forall db today now scan_type verdict input_value summary st k e,
        App.find_entry scan_type = Some (App.Counters k) ->
        App.save_log db = Some e ->
        let out :=
          App.update_stats db today now scan_type verdict input_value summary st in
        snd out = Some e
        /\ App.total (App.counters_of k (App.stats_now (fst out)))
           = App.total (App.counters_of k (App.stats_now st)) + 1
        /\ forall k',
             App.latest (App.counters_of k' (App.stats_now (fst out)))
             = App.latest (App.counters_of k' (App.stats_now st))).
Proof.
  split; [reflexivity|].
  intros db today now scan_type verdict input_value summary st k e Hk Hs.
  cbv zeta. unfold App.update_stats. rewrite Hk, Hs.
  destruct (String.eqb (lower verdict) "phishing");
    [|destruct (String.eqb (lower verdict) "suspicious")];
    cbn [fst snd App.stats_now];
    (split; [reflexivity|]);
    (split; [destruct k; reflexivity | intros k'; destruct k, k'; reflexivity]).
Qed.

Lemma failed_update_is_counted_but_not_listed_witness :
  let db := {| App.session_local := Some PermissionError; App.add_and_commit := None;
               App.rollback := None; App.close := None |} in
  let start := {| App.stats_now := App.scan_stats; App.daily_now := App.daily_stats |} in
  let out :=
    App.update_stats db "2024-05-01" "2024-05-01T10:00:00" "url" "phishing"
      "http://paypa1.com" "paypa1.com - phishing" start in
  snd out = Some PermissionError
  /\ App.total (App.url (App.stats_now (fst out))) = 1
  /\ App.latest (App.url (App.stats_now (fst out))) = [].
Proof.
  cbv zeta.
  destruct (proj2 failed_update_is_counted_but_not_listed
              {| App.session_local := Some PermissionError; App.add_and_commit := None;
                 App.rollback := None; App.close := None |}
              "2024-05-01" "2024-05-01T10:00:00" "url" "phishing"
              "http://paypa1.com" "paypa1.com - phishing"
              {| App.stats_now := App.scan_stats; App.daily_now := App.daily_stats |}
              App.Url PermissionError eq_refl eq_refl) as (A & B & C).
  split; [exact A|]. split; [exact B | exact (C App.Url)].
Defined.

(** X22. When the scan log is saved, the item of the scan is the first of
    the latest list of its type, followed by the items that were there, cut
    to ten in all; the item carries the type in capitals and, for an empty
    summary, the first 50 characters of the input.  The other scan types
    keep their counters and lists. *)
Theorem saved_update_is_listed_first (db : App.Db)
    (today now scan_type verdict input_value summary : string) (st : App.state)
    (k : App.kind) :
  App.find_entry scan_type = Some (App.Counters k) ->
  App.save_log db = None ->
  let out :=
    App.update_stats db today now scan_type verdict input_value summary st in
  snd out = None
  /\ App.latest (App.counters_of k (App.stats_now (fst out)))
     = firstn 10
         ({| App.item_type := App.upper scan_type;
             App.item_summary :=
               if truthy summary then summary else take 50 input_value;
             App.item_verdict := verdict;
             App.item_timestamp := now |}
          :: App.latest (App.counters_of k (App.stats_now st)))
  /\ forall k', k' <> k ->
       App.counters_of k' (App.stats_now (fst out))
       = App.counters_of k' (App.stats_now st).
Proof.
  intros Hk Hs. cbv zeta. unfold App.update_stats. rewrite Hk, Hs.
  destruct (String.eqb (lower verdict) "phishing");
    [|destruct (String.eqb (lower verdict) "suspicious")];
    cbn [fst snd App.stats_now];
    (split; [reflexivity|]);
    (split; [destruct k; reflexivity
            | intros k' N; destruct k, k'; first [reflexivity | congruence]]).
Qed.

Lemma saved_update_is_listed_first_witness :
  let db := {| App.session_local := None; App.add_and_commit := None;
               App.rollback := None; App.close := None |} in
  let start := {| App.stats_now := App.scan_stats; App.daily_now := App.daily_stats |} in
  let out :=
    App.update_stats db "2024-05-01" "2024-05-01T10:00:00" "email" "safe"
      "anna@example.org" "" start in
  App.latest (App.email (App.stats_now (fst out)))
  = [{| App.item_type := "EMAIL"; App.item_summary := "anna@example.org";
        App.item_verdict := "safe"; App.item_timestamp := "2024-05-01T10:00:00" |}].
Proof.
  cbv zeta.
  exact (proj1 (proj2 (saved_update_is_listed_first
           {| App.session_local := None; App.add_and_commit := None;
              App.rollback := None; App.close := None |}
           "2024-05-01" "2024-05-01T10:00:00" "email" "safe" "anna@example.org" ""
           {| App.stats_now := App.scan_stats; App.daily_now := App.daily_stats |}
           App.Email eq_refl eq_refl))).
Defined.

(** ** The trusted brands themselves *)

(** X23. The typosquatting check leaves a sender alone whose second-level
    label is one of the trusted brands: no brand is within distance 2 of
    another one. *)
Theorem trusted_brand_sender_is_no_typosquat (L : Libs) (sender_domain : string)
    (st : Acc.t) :
  In (lower (domain (tld_extract L sender_domain))) EmailChecker.TRUSTED_BRANDS ->
  EmailChecker.check_typosquatting L sender_domain st = Ok (tt, st).
Proof.
  intros H. unfold EmailChecker.check_typosquatting.
  destruct (truthy sender_domain); [|reflexivity].
  cbv zeta. cbn [Acc.when].
  generalize dependent (lower (domain (tld_extract L sender_domain))).
  intros sld H. cbn [EmailChecker.TRUSTED_BRANDS In] in H.
  destruct H as [<-|[<-|[<-|[<-|[<-|[<-|[]]]]]]]; vm_compute; reflexivity.
Qed.

Lemma trusted_brand_sender_is_no_typosquat_witness :
  EmailChecker.check_typosquatting Ref.libs "mail.github.com" Acc.start
  = Ok (tt, Acc.start).
Proof.
  apply (trusted_brand_sender_is_no_typosquat Ref.libs "mail.github.com").
  vm_compute. right; right; right; left; reflexivity.
Defined.

(** ** The keys of the indicators *)

Module KeyFacts.
Import Acc AccFacts Keys.
Local Open Scope acc_scope.

Lemma present_set (k k' : string) (v : ival) (d : dict ival) :
  dict_find k d <> None -> dict_find k (dict_set k' v d) <> None.
Proof.
  intros H. destruct (String.eqb_spec k k') as [<-|N].
  - rewrite LedgerFacts.dict_find_set_same. discriminate.
  - now rewrite LedgerFacts.dict_find_set_other.
Qed.

Lemma holds_ret (k : string) : holds k (ret tt).
Proof. intros st st' H. now inversion H. Qed.

Lemma holds_next (k : string) (m n : M unit) :
  holds k m -> holds k n -> holds k (m ;; n).
Proof.
  intros Hm Hn st st' H P. apply next_inv in H as (mid & H1 & H2).
  apply (Hn _ _ H2), (Hm _ _ H1), P.
Qed.

Lemma holds_when (k : string) (b : bool) (m : M unit) :
  holds k m -> holds k (when b m).
Proof. destruct b; simpl; [auto | intros _; apply holds_ret]. Qed.

Lemma holds_if (k : string) (b : bool) (m n : M unit) :
  holds k m -> holds k n -> holds k (if b then m else n).
Proof. destruct b; auto. Qed.

Lemma holds_set_indicator (k k' : string) (v : ival) : holds k (set_indicator k' v).
Proof.
  intros st st' H P. inversion H; subst. unfold present. simpl.
  now apply present_set.
Qed.

Lemma holds_flag (k r : string) (w : result Q) : holds k (flag r w).
Proof. intros st st' H P. apply flag_inv in H as (q & _ & ->). exact P. Qed.

Lemma holds_get_score (k : string) (n : Q -> M unit) :
  (forall q, holds k (n q)) -> holds k (bind get_score n).
Proof. intros H st st' E. unfold bind, get_score in E. now apply (H (score st)). Qed.

Lemma holds_hit (k r : string) (w : Q) (k' : string) :
  (0 <= w)%Q -> holds k (hit r w k').
Proof.
  intros _ st st' H P. rewrite EmailFacts.hit_run in H. inversion H; subst.
  unfold present. simpl. now apply present_set.
Qed.

Lemma holds_flag_weights (k r k' : string) (q : Q) :
  dict_index EmailChecker.WEIGHTS k' = Ok q -> (0 <= q)%Q ->
  holds k (flag r (dict_index EmailChecker.WEIGHTS k')).
Proof. intros _ _. apply holds_flag. Qed.

Lemma holds_set_then (k k' : string) (v : ival) (m : M unit) :
  holds k m -> holds k (set_indicator k' v ;; m).
Proof. intros H. apply holds_next; [apply holds_set_indicator | exact H]. Qed.

Lemma sets_set_indicator (k : string) (v : ival) : sets k (set_indicator k v).
Proof.
  intros st st' H. inversion H; subst. unfold present. simpl.
  rewrite LedgerFacts.dict_find_set_same. discriminate.
Qed.

Lemma sets_first (k : string) (m n : M unit) : sets k m -> holds k n -> sets k (m ;; n).
Proof.
  intros Hm Hn st st' H. apply next_inv in H as (mid & H1 & H2).
  apply (Hn _ _ H2), (Hm _ _ H1).
Qed.

Lemma sets_second (k : string) (m n : M unit) : sets k n -> sets k (m ;; n).
Proof.
  intros Hn st st' H. apply next_inv in H as (mid & H1 & H2). apply (Hn _ _ H2).
Qed.

Ltac loop_cases k :=
  first [ apply holds_ret | intros; apply holds_hit; assumption
        | intros; eapply holds_flag_weights; eassumption
        | intros; apply holds_set_then; assumption ].

Lemma holds_typosquat_loop (k sender_domain sld : string) (brands : list string) :
  holds k (EmailChecker.typosquat_loop sender_domain sld brands).
Proof. apply (EmailFacts.typosquat_loop_cases (holds k)); loop_cases k. Qed.

Lemma holds_local_part_loop (L : Libs) (k sender_domain local_part : string)
    (brands : list string) :
  holds k (EmailChecker.local_part_loop L sender_domain local_part brands).
Proof. apply (EmailFacts.local_part_loop_cases L (holds k)); loop_cases k. Qed.

Lemma holds_mismatch_loop (L : Libs) (k sender_domain : string) (links : list string) :
  holds k (EmailChecker.mismatch_loop L sender_domain links).
Proof. apply (EmailFacts.mismatch_loop_cases L (holds k)); loop_cases k. Qed.

Ltac hold :=
  repeat first
    [ apply holds_ret | apply holds_set_indicator | apply holds_flag
    | apply holds_typosquat_loop | apply holds_local_part_loop
    | apply holds_mismatch_loop
    | apply holds_get_score; intros ?
    | apply holds_next | apply holds_when | apply holds_if
    | match goal with
      | |- holds _ (match ?o with Some _ => _ | None => _ end) =>
          destruct o as [[? ?]|]
      end ].

Ltac find_key :=
  first
    [ apply sets_set_indicator
    | apply sets_first; [find_key | solve [hold]]
    | apply sets_second; find_key ].

Ltac each_key H :=
  cbn [In] in H;
  repeat (destruct H as [<-|H]; [solve [find_key]|]);
  destruct H.

Lemma url_checks_keys (L : Libs) (r : UrlChecker.rules)
    (original host path query : string) (extracted : ExtractResult)
    (root_domain subdomain k : string) :
  In k url_keys ->
  sets k (UrlChecker.checks L r original host path query extracted root_domain
            subdomain).
Proof.
  intros H. unfold UrlChecker.checks.
  destruct (UrlChecker.is_similar_to_whitelisted _ _ _) as [w m].
  unfold UrlChecker.check_ip, UrlChecker.check_tld, UrlChecker.check_length,
    UrlChecker.check_subdomains, UrlChecker.check_hyphen, UrlChecker.check_punycode,
    UrlChecker.check_chars, UrlChecker.check_path_tokens, UrlChecker.check_entropy,
    UrlChecker.check_whitelist, UrlChecker.check_domain_tokens.
  cbv zeta. unfold url_keys in H. each_key H.
Qed.

Lemma email_checks_keys (L : Libs) (r : EmailChecker.rules)
    (sender subject content : string) (attachments : list string) (k : string) :
  In k email_keys ->
  sets k (EmailChecker.checks L r sender subject content attachments).
Proof.
  intros H. EmailFacts.unfold_checks. unfold email_keys in H. each_key H.
Qed.

Lemma sms_checks_keys (L : Libs) (r : SmsChecker.rules)
    (sender number content k : string) :
  In k sms_keys ->
  sets k (SmsChecker.checks L r sender number content).
Proof.
  intros H. SmsFacts.unfold_checks. unfold sms_keys in H. each_key H.
Qed.

End KeyFacts.

(** X24. Every result of an analyzer carries a fixed set of indicators,
    whatever the checks found and whatever the rule file says: nine keys
    for a URL that is a non-empty string, six for an email and seven for an
    SMS. *)
Theorem results_always_carry_their_indicators :
  (forall (L : Libs) f text a k,
     UrlChecker.analyze_url L f (PyStr text) = Ok a ->
     truthy text = true ->
     In k Keys.url_keys ->
     dict_find k (UrlChecker.indicators a) <> None)
  /\ (forall (L : Libs) f sender subject content attachments r k,
        EmailChecker.analyze_email L f sender subject content attachments = Ok r ->
        In k Keys.email_keys ->
        dict_find k (EmailChecker.indicators r) <> None)
  /\ (forall (L : Libs) f sender number content r k,
        SmsChecker.analyze_sms L f sender number content = Ok r ->
        In k Keys.sms_keys ->
        dict_find k (SmsChecker.indicators r) <> None).
Proof.
  split; [|split].
  - intros L f text a k Ha Ht Hk.
    apply Shape.url_result in Ha as (rules & Hload & [[Hbad _]|Hscan]).
    + simpl in Hbad. rewrite Ht in Hbad. discriminate.
    + destruct Hscan as (text' & original & info & st & _ & _ & Hscan & ->).
      apply UrlShape.scan_parts in Hscan as (_ & _ & Hchecks).
      exact (KeyFacts.url_checks_keys L _ _ _ _ _ _ _ _ k Hk _ _ Hchecks).
  - intros L f sender subject content attachments r k Hr Hk.
    apply Shape.email_result in Hr as (rules & st & _ & Hchecks & ->).
    exact (KeyFacts.email_checks_keys L _ _ _ _ _ k Hk _ _ Hchecks).
  - intros L f sender number content r k Hr Hk.
    apply Shape.sms_result in Hr as (rules & st & _ & Hchecks & ->).
    exact (KeyFacts.sms_checks_keys L _ _ _ _ k Hk _ _ Hchecks).
Qed.

Lemma results_always_carry_their_indicators_witness :
  exists r,
    EmailChecker.analyze_email Ref.libs Absent (Some "anna@example.org")
      (Some "Lunch") (Some "See you at noon") None = Ok r
    /\ dict_find "dangerous_attachment" (EmailChecker.indicators r) <> None.
Proof.
  eexists. split.
  - vm_compute. reflexivity.
  - apply (proj1 (proj2 results_always_carry_their_indicators) Ref.libs Absent
             (Some "anna@example.org") (Some "Lunch") (Some "See you at noon") None).
    + vm_compute. reflexivity.
    + vm_compute. right; right; right; right; left; reflexivity.
Defined.

(** ** White space around the inputs *)

Module StripFacts.
Import Stripped.

Lemma lstrip_clean (s : string) : clean_start (lstrip s).
Proof.
  induction s as [|c s IH]; [exact I|].
  simpl. destruct (isspace c) eqn:E; [exact IH | exact E].
Qed.

Lemma lstrip_id (s : string) : clean_start s -> lstrip s = s.
Proof. destruct s as [|c s]; [reflexivity|]. simpl. now intros ->. Qed.

Lemma rstrip_clean (s : string) : clean_start s -> clean_start (rstrip s).
Proof.
  destruct s as [|c s]; [exact (fun H => H)|].
  simpl. intros H. destruct (rstrip s); [rewrite H|]; exact H.
Qed.

Lemma rstrip_idem (s : string) : rstrip (rstrip s) = rstrip s.
Proof.
  induction s as [|c s IH]; [reflexivity|].
  simpl. destruct (rstrip s) as [|d u] eqn:E.
  - destruct (isspace c) eqn:Ec; [reflexivity|]. simpl. now rewrite Ec.
  - cbn [rstrip]. cbn [rstrip] in IH. rewrite IH. reflexivity.
Qed.

Lemma strip_idem (s : string) : strip (strip s) = strip s.
Proof.
  unfold strip.
  rewrite (lstrip_id (rstrip (lstrip s))) by apply rstrip_clean, lstrip_clean.
  apply rstrip_idem.
Qed.

Lemma strip_nonempty (s : string) : truthy (strip s) = true -> truthy s = true.
Proof. destruct s; [discriminate | reflexivity]. Qed.

End StripFacts.

(** X25. White space around the inputs has no influence: each analyzer
    gives the same answer for a field and for the field stripped, and an
    email or SMS field that is missing counts as the empty string.  For a
    URL this holds when something is left after stripping. *)
Theorem surrounding_white_space_is_ignored :
  (forall (L : Libs) f text,
     truthy (strip text) = true ->
     UrlChecker.analyze_url L f (PyStr text)
     = UrlChecker.analyze_url L f (PyStr (strip text)))
  /\ (forall (L : Libs) f sender subject content attachments,
        EmailChecker.analyze_email L f sender subject content attachments
        = EmailChecker.analyze_email L f (Some (strip (get_or sender "")))
            (Some (strip (get_or subject ""))) (Some (strip (get_or content "")))
            attachments)
  /\ (forall (L : Libs) f sender number content,
        SmsChecker.analyze_sms L f sender number content
        = SmsChecker.analyze_sms L f (Some (strip (get_or sender "")))
            (Some (strip (get_or number ""))) (Some (strip (get_or content "")))).
Proof.
  split; [|split].
  - intros L f text Ht. unfold UrlChecker.analyze_url.
    destruct (UrlChecker.load_url_rules f) as [r|e]; [|reflexivity].
    cbn [rbind falsy is_str negb orb].
    rewrite Ht, (StripFacts.strip_nonempty text Ht). cbn [negb].
    unfold UrlChecker.analyze_text, UrlChecker.scan.
    now rewrite StripFacts.strip_idem.
  - intros L f sender subject content attachments.
    unfold EmailChecker.analyze_email. cbn [get_or].
    now rewrite !StripFacts.strip_idem.
  - intros L f sender number content.
    unfold SmsChecker.analyze_sms. cbn [get_or].
    now rewrite !StripFacts.strip_idem.
Qed.

Lemma surrounding_white_space_is_ignored_witness :
  UrlChecker.analyze_url Ref.libs Absent (PyStr "  http://example.org/a ")
  = UrlChecker.analyze_url Ref.libs Absent (PyStr "http://example.org/a").
Proof.
  exact (proj1 surrounding_white_space_is_ignored Ref.libs Absent
           "  http://example.org/a " eq_refl).
Defined.

(** X26. A URL of white space only is not rejected as invalid input, as
    the empty string is: the test for an empty URL comes before the
    stripping, so the checks run on the empty string and the result reports
    the parts of a parsed URL. *)
Theorem blank_url_is_analysed_not_rejected (L : Libs) f (text : string)
    (a : UrlChecker.analysis) :
  truthy text = true ->
  strip text = "" ->
  UrlChecker.analyze_url L f (PyStr text) = Ok a ->
  UrlChecker.url a = PyStr ""
  /\ UrlChecker.parsed a <> None
  /\ a <> UrlChecker.invalid_input (PyStr text).
Proof.
  intros Ht Hs Ha.
  apply Shape.url_result in Ha as (rules & Hload & [[Hbad _]|Hscan]).
  - simpl in Hbad. rewrite Ht in Hbad. discriminate.
  - destruct Hscan as (text' & original & info & st & E & _ & Hscan & ->).
    injection E as <-.
    apply UrlShape.scan_parts in Hscan as (-> & _ & _).
    rewrite Hs. cbn. repeat split; try discriminate.
Qed.

Lemma blank_url_is_analysed_not_rejected_witness :
  exists a,
    UrlChecker.analyze_url Ref.libs Absent (PyStr "   ") = Ok a
    /\ UrlChecker.url a = PyStr ""
    /\ UrlChecker.parsed a <> None.
Proof.
  let r := eval vm_compute in (UrlChecker.analyze_url Ref.libs Absent (PyStr "   ")) in
  match r with
  | Ok ?a =>
      exists a;
      assert (E : UrlChecker.analyze_url Ref.libs Absent (PyStr "   ") = Ok a)
        by (vm_compute; reflexivity);
      split; [exact E|];
      destruct (blank_url_is_analysed_not_rejected Ref.libs Absent "   " a
                  eq_refl eq_refl E) as (A & B & _);
      split; [exact A | exact B]
  end.
Defined.

(** ** The keywords of the SMS checker are counted as whole words *)

Module WordFacts.
Import SmsChecker Words.

Lemma run_split (s : string) : word_run s ++ after_run s = s.
Proof.
  induction s as [|c s IH]; [reflexivity|].
  simpl. destruct (isword c); [simpl; now rewrite IH | reflexivity].
Qed.

Lemma run_word (s : string) : all_char isword (word_run s) = true.
Proof.
  induction s as [|c s IH]; [reflexivity|].
  simpl. destruct (isword c) eqn:E; [simpl; now rewrite E | reflexivity].
Qed.

Lemma after_clean (s : string) : clean (after_run s).
Proof.
  induction s as [|c s IH]; [exact I|].
  simpl. destruct (isword c) eqn:E; [exact IH | exact E].
Qed.

Lemma after_length (s : string) : String.length (after_run s) <= String.length s.
Proof.
  induction s as [|c s IH]; [simpl; lia|].
  simpl. destruct (isword c); simpl; lia.
Qed.

Lemma take_all (s : string) : take (String.length s) s = s.
Proof.
  induction s as [|c s IH]; [reflexivity|].
  cbn [String.length]. rewrite LinkFacts.take_S. now rewrite IH.
Qed.

Lemma take_exact (a b : string) : take (String.length a) (a ++ b) = a.
Proof. rewrite TextFacts.take_app_long by lia. apply take_all. Qed.

Lemma drop_exact (a b : string) : drop (String.length a) (a ++ b) = b.
Proof. induction a as [|c a IH]; [reflexivity | exact IH]. Qed.

(** *** The pattern at one position *)

Lemma prefix_clean (kw s : string) :
  single_word kw = true -> clean s -> String.prefix kw s = false.
Proof.
  unfold single_word. intros H Hs. apply andb_true_iff in H as [Ht Hw].
  destruct kw as [|k kt]; [discriminate|].
  destruct s as [|c t]; [reflexivity|].
  simpl in *. apply andb_true_iff in Hw as [Hk _].
  destruct (Ascii.ascii_dec k c) as [E|N]; [congruence | reflexivity].
Qed.

Lemma keyword_at_clean (kw : string) (b : option ascii) (s : string) :
  single_word kw = true -> clean s -> keyword_at kw b s = false.
Proof.
  intros H Hs. unfold keyword_at. rewrite (prefix_clean kw s H Hs).
  now rewrite andb_false_r.
Qed.

Lemma keyword_at_inside (kw : string) (c d : ascii) (t : string) :
  isword c = true -> isword d = true ->
  keyword_at kw (Some c) (String d t) = false.
Proof.
  intros Hc Hd. unfold keyword_at, word_boundary. simpl. now rewrite Hc, Hd.
Qed.

Lemma last_char_word (kw : string) (b : option ascii) :
  single_word kw = true ->
  exists x, last_char b kw = Some x /\ isword x = true.
Proof.
  unfold single_word. intros H. apply andb_true_iff in H as [Ht Hw].
  destruct kw as [|k kt]; [discriminate|]. clear Ht. revert k b Hw.
  induction kt as [|k' kt IH]; intros k b Hw.
  - simpl in *. exists k. split; [reflexivity|]. now rewrite andb_true_r in Hw.
  - simpl in Hw. apply andb_true_iff in Hw as [_ Hw].
    cbn [last_char]. apply (IH k' (Some k)). exact Hw.
Qed.

Lemma whole_word (kw : string) :
  forall w rest,
    all_char isword kw = true -> all_char isword w = true -> clean rest ->
    String.prefix kw (w ++ rest)
    && negb (starts_word (drop (String.length kw) (w ++ rest)))
    = String.eqb kw w.
Proof.
  induction kw as [|k kt IH]; intros w rest Hk Hw Hr.
  - destruct w as [|d w'].
    + simpl. destruct rest as [|c t]; [reflexivity|]. simpl in *. now rewrite Hr.
    + simpl in *. apply andb_true_iff in Hw as [-> _]. reflexivity.
  - simpl in Hk. apply andb_true_iff in Hk as [Hk0 Hk].
    destruct w as [|d w'].
    + cbn [append]. destruct rest as [|c t]; [reflexivity|].
      simpl in Hr. simpl.
      destruct (Ascii.ascii_dec k c) as [E|N]; [congruence | reflexivity].
    + simpl in Hw. apply andb_true_iff in Hw as [_ Hw].
      cbn [append String.length drop]. cbn [String.prefix].
      cbn [String.eqb].
      destruct (Ascii.ascii_dec k d) as [E|N].
      * subst d. rewrite Ascii.eqb_refl. cbn [andb]. now apply IH.
      * apply Ascii.eqb_neq in N. rewrite N. reflexivity.
Qed.

(** At the start of a word the pattern matches exactly when the word is
    the keyword. *)
Lemma keyword_at_start (kw : string) (b : option ascii) (w rest : string) :
  single_word kw = true -> outside b ->
  all_char isword w = true -> truthy w = true -> clean rest ->
  keyword_at kw b (w ++ rest) = String.eqb kw w.
Proof.
  intros H Hb Hw Ht Hr. unfold keyword_at.
  destruct (last_char_word kw b H) as (x & -> & Hx).
  assert (B1 : word_boundary b (head_char (w ++ rest)) = true).
  { destruct w as [|d w']; [discriminate|]. simpl in Hw.
    apply andb_true_iff in Hw as [Hd _]. unfold word_boundary. simpl.
    rewrite Hd. destruct b as [c|]; simpl in *; [now rewrite Hb | reflexivity]. }
  rewrite B1. cbn [andb].
  assert (B2 : forall s, word_boundary (Some x) (head_char s) = negb (starts_word s)).
  { intros s. unfold word_boundary. rewrite Hx. destruct s; reflexivity. }
  rewrite B2. apply whole_word; [|exact Hw|exact Hr].
  unfold single_word in H. now apply andb_true_iff in H as [_ H].
Qed.

(** *** The scan *)

Lemma count_skip (kw : string) (n : nat) :
  forall s b, n <= String.length s ->
    count_keyword kw b s n
    = count_keyword kw (last_char b (take n s)) (drop n s) 0.
Proof.
  induction n as [|n IH]; intros s b H.
  - rewrite LinkFacts.take_0. reflexivity.
  - destruct s as [|c t]; [simpl in H; lia|].
    simpl in H. rewrite LinkFacts.take_S. cbn [count_keyword drop last_char].
    apply IH. lia.
Qed.

Lemma count_empty (kw : string) (b : option ascii) :
  single_word kw = true -> count_keyword kw b "" 0 = 0.
Proof.
  intros H. cbn [count_keyword]. now rewrite (keyword_at_clean kw b "" H I).
Qed.

Lemma count_outside (kw : string) (b : option ascii) (c : ascii) (t : string) :
  single_word kw = true -> isword c = false ->
  count_keyword kw b (String c t) 0 = count_keyword kw (Some c) t 0.
Proof.
  intros H Hc. cbn [count_keyword].
  now rewrite (keyword_at_clean kw b (String c t) H Hc).
Qed.

(** No match starts inside a word. *)
Lemma count_inside (kw : string) (w : string) :
  forall c rest,
    isword c = true -> all_char isword w = true ->
    count_keyword kw (Some c) (w ++ rest) 0
    = count_keyword kw (last_char (Some c) w) rest 0.
Proof.
  induction w as [|d w IH]; intros c rest Hc Hw; [reflexivity|].
  simpl in Hw. apply andb_true_iff in Hw as [Hd Hw].
  cbn [append count_keyword]. rewrite (keyword_at_inside kw c d _ Hc Hd).
  cbn [last_char]. now apply IH.
Qed.

(** A word counts for one if it is the keyword, and the scan goes on
    behind it. *)
Lemma count_word (kw : string) (b : option ascii) (d : ascii) (w rest : string) :
  single_word kw = true -> outside b ->
  all_char isword (String d w) = true -> clean rest ->
  count_keyword kw b (String d w ++ rest) 0
  = (if String.eqb kw (String d w) then 1 else 0)
    + count_keyword kw (last_char (Some d) w) rest 0.
Proof.
  intros H Hb Hw Hr.
  pose proof (keyword_at_start kw b (String d w) rest H Hb Hw eq_refl Hr) as K.
  cbn [append] in *. cbn [count_keyword]. rewrite K.
  simpl in Hw. apply andb_true_iff in Hw as [Hd Hw'].
  destruct (String.eqb_spec kw (String d w)) as [E|N].
  - subst kw.
    replace (String.length (String d w) - 1) with (String.length w)
      by (cbn [String.length]; lia).
    rewrite count_skip by (rewrite LinkFacts.length_app_string; lia).
    now rewrite take_exact, drop_exact.
  - now rewrite count_inside.
Qed.

(** *** The words of a text *)

Lemma words_empty : words "" = [].
Proof. reflexivity. Qed.

Lemma words_outside (c : ascii) (t : string) :
  isword c = false -> words (String c t) = words t.
Proof. intros H. unfold words, runs_of. simpl. now rewrite H. Qed.

Lemma split_word (w : string) :
  forall rest,
    all_char isword w = true ->
    split_on (fun c => negb (isword c)) (w ++ rest)
    = match split_on (fun c => negb (isword c)) rest with
      | h :: tl => (w ++ h) :: tl
      | [] => [w]
      end.
Proof.
  induction w as [|d w IH]; intros rest Hw.
  - pose proof (TextFacts.split_on_nonempty (fun c => negb (isword c)) rest) as N.
    simpl. destruct (split_on _ rest); [congruence | reflexivity].
  - simpl in Hw. apply andb_true_iff in Hw as [Hd Hw].
    cbn [append split_on]. rewrite Hd. cbn [negb]. rewrite (IH rest Hw).
    pose proof (TextFacts.split_on_nonempty (fun c => negb (isword c)) rest) as N.
    destruct (split_on _ rest); [congruence | reflexivity].
Qed.

Lemma append_empty (s : string) : s ++ "" = s.
Proof. induction s as [|c s IH]; simpl; congruence. Qed.

Lemma words_word (d : ascii) (w rest : string) :
  all_char isword (String d w) = true -> clean rest ->
  words (String d w ++ rest) = String d w :: words rest.
Proof.
  intros Hw Hr. unfold words, runs_of. rewrite (split_word _ rest Hw).
  destruct rest as [|c t].
  - simpl. now rewrite append_empty.
  - simpl in Hr. cbn [split_on]. rewrite Hr. cbn [negb].
    rewrite append_empty. reflexivity.
Qed.

(** The scan counts the words that are the keyword. *)
Lemma count_is_occurrences (kw : string) (n : nat) :
  forall s b,
    String.length s <= n ->
    single_word kw = true -> outside b ->
    count_keyword kw b s 0 = occurrences kw (words s).
Proof.
  induction n as [|n IH]; intros s b Hn H Hb.
  - destruct s; [|simpl in Hn; lia]. rewrite count_empty by exact H. reflexivity.
  - destruct s as [|c t]; [rewrite count_empty by exact H; reflexivity|].
    simpl in Hn. destruct (isword c) eqn:Ec.
    + pose proof (run_split t) as Hsplit.
      pose proof (run_word t) as Hrun.
      pose proof (after_clean t) as Hclean.
      pose proof (after_length t) as Hlen.
      assert (Hw : all_char isword (String c (word_run t)) = true)
        by (simpl; now rewrite Ec).
      rewrite <- Hsplit.
      change (String c (word_run t ++ after_run t))
        with (String c (word_run t) ++ after_run t).
      rewrite (count_word kw b c (word_run t) (after_run t) H Hb Hw Hclean).
      rewrite (words_word c (word_run t) (after_run t) Hw Hclean).
      unfold occurrences at 1. cbn [filter].
      assert (Hrest : count_keyword kw (last_char (Some c) (word_run t)) (after_run t) 0
                      = occurrences kw (words (after_run t))).
      { destruct (after_run t) as [|c' t'] eqn:Ea.
        - now rewrite count_empty.
        - simpl in Hclean. rewrite (count_outside kw _ c' t' H Hclean).
          rewrite (words_outside c' t' Hclean).
          simpl in Hlen. apply IH; [lia | exact H | exact Hclean]. }
      rewrite Hrest. unfold occurrences.
      destruct (String.eqb kw (String c (word_run t))); simpl; lia.
    + rewrite (count_outside kw b c t H Ec), (words_outside c t Ec).
      apply IH; [lia | exact H | exact Ec].
Qed.

Lemma fold_sum (f : string -> nat) (l : list string) :
  forall acc, fold_left (fun count kw => count + f kw) l acc = acc + list_sum (map f l).
Proof.
  induction l as [|x l IH]; intros acc; simpl; [lia|]. rewrite IH. lia.
Qed.

Lemma fold_ext (f g : string -> nat) (l : list string) :
  (forall x, In x l -> f x = g x) ->
  forall acc,
    fold_left (fun count kw => count + f kw) l acc
    = fold_left (fun count kw => count + g kw) l acc.
Proof.
  induction l as [|x l IH]; intros Hfg acc; [reflexivity|].
  simpl. rewrite (Hfg x (or_introl eq_refl)). apply IH.
  intros y Hy. apply Hfg. now right.
Qed.

End WordFacts.

(** X27. [count_phishing_keywords] counts whole words: for keywords that
    are single words, its result is the number of words of the text in
    lower case (maximal runs of word characters) that are equal to a
    keyword, added over the keywords.  A keyword inside a longer word does
    not count. *)
Theorem keywords_are_counted_as_whole_words (text : string) (keywords : list string) :
  forallb Words.single_word keywords = true ->
  SmsChecker.count_phishing_keywords text keywords
  = list_sum
      (map (fun kw => Words.occurrences kw (Words.words (lower text))) keywords).
Proof.
  intros H. unfold SmsChecker.count_phishing_keywords. cbv zeta.
  rewrite (WordFacts.fold_ext _
             (fun kw => Words.occurrences kw (Words.words (lower text)))).
  - now rewrite WordFacts.fold_sum.
  - intros kw Hin. rewrite forallb_forall in H.
    apply (WordFacts.count_is_occurrences kw (String.length (lower text)));
      [lia | now apply H | exact I].
Qed.

Lemma keywords_are_counted_as_whole_words_witness :
  SmsChecker.count_phishing_keywords "Free BANKING at your bank: click, click!"
    ["bank"; "click"; "free"] = 4.
Proof.
  rewrite (keywords_are_counted_as_whole_words
             "Free BANKING at your bank: click, click!" ["bank"; "click"; "free"]);
    vm_compute; reflexivity.
Defined.
